(** * VyaparSaathi backend test helpers: a shallow embedding

    The repository under study is the test harness of the VyaparSaathi
    backend: [tests/utils.py] (mock builders and validators),
    [tests/strategies.py] (Hypothesis generators) and
    [tests/test_example.py] (the tests that use them).  This development embeds
    the Python functions as Rocq functions over a small model of Python
    values and proves the properties the specification states about them.

    Conventions of the embedding.
    - A Python [str] is a [string] with one [ascii] per code point (code
      points below 256).
    - A Python [int] is a [Z]; a [float] is an IEEE-754 binary64 value, a
      [spec_float] at precision 53 and maximal exponent 1024.
    - A [dict] keeps insertion order, so it is an association list.
    - A raised exception is the [Raise] outcome of the [result] monad.
    - [datetime.now()] reads the clock; every function that calls it takes
      the reading as an explicit [now] argument.
    - The values are those of the built-in classes the annotations of the
      repository name and JSON data is made of: [None], [bool], [int],
      [float], [str], [list] and [dict] with [str] keys.  Objects of other
      classes ([Decimal], [datetime], [bytes], numpy scalars) are not
      values of this development, and no statement below is about them. *)

From Stdlib Require Import ZArith QArith List String Ascii Bool Lia.
From Stdlib Require Import Numbers.DecimalString.
From Stdlib Require Import Floats.SpecFloat.
Import ListNotations.

Set Warnings "-register-all".

Local Open Scope string_scope.
Local Open Scope Z_scope.

(** ** Exceptions and results *)

Inductive exn : Type :=
| ValueError
| TypeError
| AttributeError
| KeyError
| AssertionError
| OverflowError.

Inductive result (A : Type) : Type :=
| Return (a : A)
| Raise (e : exn).

Arguments Return {A} a.
Arguments Raise {A} e.

Definition bind {A B : Type} (r : result A) (k : A -> result B) : result B :=
  match r with
  | Return a => k a
  | Raise e => Raise e
  end.

Notation "x <- r ;; k" := (bind r (fun x => k))
  (at level 61, r at next level, right associativity).

(** [assert c]: passes when [c] holds, raises [AssertionError] otherwise. *)
Definition assert (c : bool) : result unit :=
  if c then Return tt else Raise AssertionError.

Definition is_return {A : Type} (r : result A) : bool :=
  match r with Return _ => true | Raise _ => false end.

(** ** Python values *)

Definition float : Type := spec_float.

(** The values of the built-in classes [NoneType], [bool], [int], [float],
    [str], [list] and [dict]. *)
Inductive pyval : Type :=
| VNone
| VBool (b : bool)
| VInt (z : Z)
| VFloat (f : float)
| VStr (s : string)
| VList (l : list pyval)
| VDict (d : list (string * pyval)).

Definition pydict : Type := list (string * pyval).

Inductive pytype : Type := TStr | TInt | TFloat | TBool | TDict | TList.

(** [isinstance(v, t)].  [bool] is a subclass of [int]. *)
Definition isinstance (v : pyval) (t : pytype) : bool :=
  match v, t with
  | VStr _, TStr => true
  | VInt _, TInt => true
  | VBool _, TInt => true
  | VBool _, TBool => true
  | VFloat _, TFloat => true
  | VDict _, TDict => true
  | VList _, TList => true
  | _, _ => false
  end.

(** [d.get(k)] / [k in d] / [d[k]] on an insertion-ordered dict. *)
Fixpoint dict_get (d : pydict) (k : string) : option pyval :=
  match d with
  | [] => None
  | (k', v) :: d' => if String.eqb k' k then Some v else dict_get d' k
  end.

Definition dict_mem (k : string) (d : pydict) : bool :=
  match dict_get d k with Some _ => true | None => false end.

Definition dict_index (d : pydict) (k : string) : result pyval :=
  match dict_get d k with Some v => Return v | None => Raise KeyError end.

Definition dict_keys (d : pydict) : list string := map fst d.

(** ** Strings *)

Definition nl : string := String (ascii_of_nat 10) EmptyString.

(** [sep.join(parts)] *)
Fixpoint join (sep : string) (parts : list string) : string :=
  match parts with
  | [] => ""
  | [p] => p
  | p :: ps => p ++ sep ++ join sep ps
  end.

(** The decimal digits of an [int], with its sign. *)
Definition str_of_int (z : Z) : string :=
  NilZero.string_of_int (Z.to_int z).

(** [sys.get_int_max_str_digits()], at its default. *)
Definition MAX_STR_DIGITS : nat := 4300.

(** [str(n)] for an [int]: from CPython 3.11 on, the version [setup.py]
    requires, the conversion raises [ValueError] when [n] has more than
    [MAX_STR_DIGITS] digits, the sign not counted. *)
Definition int_str (z : Z) : result string :=
  if (String.length (str_of_int (Z.abs z)) <=? MAX_STR_DIGITS)%nat
  then Return (str_of_int z)
  else Raise ValueError.

(** [[f(x) for x in l]] for a fallible [f]: the elements are taken in
    order and the first failure ends the comprehension. *)
Definition mapM {A B : Type} (f : A -> result B) : list A -> result (list B) :=
  fix go (l : list A) : result (list B) :=
    match l with
    | [] => Return []
    | x :: rest =>
        y <- f x ;;
        ys <- go rest ;;
        Return (y :: ys)
    end.

(** ** Numbers

    Python compares and combines [int] and [float] operands; a [bool]
    operand counts as the [int] 0 or 1. *)

Definition prec : Z := 53.
Definition emax : Z := 1024.

Inductive num : Type :=
| NInt (z : Z)
| NFloat (f : float).

Definition as_num (v : pyval) : option num :=
  match v with
  | VBool b => Some (NInt (if b then 1 else 0))
  | VInt z => Some (NInt z)
  | VFloat f => Some (NFloat f)
  | _ => None
  end.

Definition val_of_num (n : num) : pyval :=
  match n with
  | NInt z => VInt z
  | NFloat f => VFloat f
  end.

(** Float literals of the source. *)
Definition f_zero : float := S754_zero false.                    (* 0.0 *)
Definition f_one : float := S754_finite false 4503599627370496 (-52). (* 1.0 *)
Definition f_inf : float := S754_infinity false.                 (* float("inf") *)

(** [float(z)]: round to nearest even, [OverflowError] out of range. *)
Definition float_of_int (z : Z) : result float :=
  match binary_normalize prec emax z 0 false with
  | S754_infinity _ => Raise OverflowError
  | f => Return f
  end.

(** Comparison of a float with an int is exact (no conversion of the int). *)
Definition float_int_compare (f : float) (z : Z) : option comparison :=
  match f with
  | S754_nan => None
  | S754_infinity s => Some (if s then Lt else Gt)
  | S754_zero _ => Some (0 ?= z)
  | S754_finite s m e =>
      let sm := cond_Zopp s (Zpos m) in
      Some (if 0 <=? e then sm * 2 ^ e ?= z else sm ?= z * 2 ^ (- e))
  end.

Definition num_compare (a b : num) : option comparison :=
  match a, b with
  | NInt x, NInt y => Some (x ?= y)
  | NFloat x, NFloat y => SFcompare x y
  | NFloat x, NInt y => float_int_compare x y
  | NInt x, NFloat y => option_map CompOpp (float_int_compare y x)
  end.

(** [a == b], [a != b], [a <= b] on numbers; an unordered pair (NaN) is
    neither equal nor ordered. *)
Definition num_eq (a b : num) : bool :=
  match num_compare a b with Some Eq => true | _ => false end.

Definition num_ne (a b : num) : bool := negb (num_eq a b).

Definition num_le (a b : num) : bool :=
  match num_compare a b with Some (Lt | Eq) => true | _ => false end.

(** [a <= b] on values, for the call sites of this repository, where one
    operand is always a number: Python then answers when the other operand
    is a number too and raises [TypeError] when it is not. *)
Definition py_le (a b : pyval) : result bool :=
  match as_num a, as_num b with
  | Some x, Some y => Return (num_le x y)
  | _, _ => Raise TypeError
  end.

(** [a >= b] is [b <= a] on numbers. *)
Definition py_ge (a b : pyval) : result bool := py_le b a.

(** ** Range validators (utils.py) *)

(** [min_value <= value <= max_value]: a chained comparison, the second
    test is evaluated only when the first holds. *)
Definition is_in_range (value : pyval) (min_value max_value : num) : result bool :=
  lo <- py_le (val_of_num min_value) value ;;
  if lo then py_le value (val_of_num max_value) else Return false.

Definition is_valid_confidence (confidence : pyval) : result bool :=
  is_in_range confidence (NFloat f_zero) (NFloat f_one).

Definition is_valid_forecast_horizon (horizon : pyval) : result bool :=
  is_in_range horizon (NInt 7) (NInt 14).

(** ** [calculate_percentage_difference] (utils.py) *)

(** [a - b] *)
Definition num_sub (a b : num) : result num :=
  match a, b with
  | NInt x, NInt y => Return (NInt (x - y))
  | NFloat x, NFloat y => Return (NFloat (SFsub prec emax x y))
  | NFloat x, NInt y =>
      fy <- float_of_int y ;; Return (NFloat (SFsub prec emax x fy))
  | NInt x, NFloat y =>
      fx <- float_of_int x ;; Return (NFloat (SFsub prec emax fx y))
  end.

(** [x / y] on ints with [y <> 0]: the quotient rounded once, to nearest
    even; [OverflowError] when it is too large for a float. *)
Definition int_true_div (x y : Z) : result float :=
  let s := Z.max 0 (55 + Z.log2 (Z.abs y) - Z.log2 (Z.abs x)) in
  let '(q, r) := Z.div_eucl (Z.shiftl (Z.abs x) s) (Z.abs y) in
  match binary_round_aux prec emax (xorb (x <? 0) (y <? 0)) q (- s)
          (new_location (Z.abs y) r) with
  | S754_infinity _ => Raise OverflowError
  | f => Return f
  end.

(** [a / b] for [b <> 0] *)
Definition num_div (a b : num) : result num :=
  match a, b with
  | NInt x, NInt y => f <- int_true_div x y ;; Return (NFloat f)
  | NFloat x, NFloat y => Return (NFloat (SFdiv prec emax x y))
  | NFloat x, NInt y =>
      fy <- float_of_int y ;; Return (NFloat (SFdiv prec emax x fy))
  | NInt x, NFloat y =>
      fx <- float_of_int x ;; Return (NFloat (SFdiv prec emax fx y))
  end.

(** [a * b] *)
Definition num_mul (a b : num) : result num :=
  match a, b with
  | NInt x, NInt y => Return (NInt (x * y))
  | NFloat x, NFloat y => Return (NFloat (SFmul prec emax x y))
  | NFloat x, NInt y =>
      fy <- float_of_int y ;; Return (NFloat (SFmul prec emax x fy))
  | NInt x, NFloat y =>
      fx <- float_of_int x ;; Return (NFloat (SFmul prec emax fx y))
  end.

Definition calculate_percentage_difference (baseline comparison : num) : result num :=
  if num_eq baseline (NInt 0) then
    Return (NFloat (if num_ne comparison (NInt 0) then f_inf else f_zero))
  else
    d <- num_sub comparison baseline ;;
    q <- num_div d baseline ;;
    num_mul q (NInt 100).

(** ** Calendar arithmetic of [datetime]

    The proleptic Gregorian calendar of Python's [datetime] module: day 1
    is 0001-01-01 and [MAXORDINAL] is 9999-12-31. *)

Definition MINYEAR : Z := 1.
Definition MAXYEAR : Z := 9999.
Definition MAXORDINAL : Z := 3652059.

Definition DAYS_IN_MONTH : list Z :=
  [-1; 31; 28; 31; 30; 31; 30; 31; 31; 30; 31; 30; 31].

Definition DAYS_BEFORE_MONTH : list Z :=
  [-1; 0; 31; 59; 90; 120; 151; 181; 212; 243; 273; 304; 334].

Definition tbl (l : list Z) (i : Z) : Z := nth (Z.to_nat i) l 0.

Definition b2z (b : bool) : Z := if b then 1 else 0.

Definition is_leap (year : Z) : bool :=
  (year mod 4 =? 0) && (negb (year mod 100 =? 0) || (year mod 400 =? 0)).

Definition days_before_year (year : Z) : Z :=
  let y := year - 1 in
  y * 365 + y / 4 - y / 100 + y / 400.

Definition days_in_month (year month : Z) : Z :=
  if (month =? 2) && is_leap year then 29 else tbl DAYS_IN_MONTH month.

Definition days_before_month (year month : Z) : Z :=
  tbl DAYS_BEFORE_MONTH month + b2z ((2 <? month) && is_leap year).

Definition ymd2ord (year month day : Z) : Z :=
  days_before_year year + days_before_month year month + day.

Definition DI400Y : Z := 146097.
Definition DI100Y : Z := 36524.
Definition DI4Y : Z := 1461.

Definition ord2ymd (n : Z) : Z * Z * Z :=
  let n := n - 1 in
  let n400 := n / DI400Y in
  let n := n mod DI400Y in
  let year := n400 * 400 + 1 in
  let n100 := n / DI100Y in
  let n := n mod DI100Y in
  let n4 := n / DI4Y in
  let n := n mod DI4Y in
  let n1 := n / 365 in
  let n := n mod 365 in
  let year := year + n100 * 100 + n4 * 4 + n1 in
  if (n1 =? 4) || (n100 =? 4) then (year - 1, 12, 31)
  else
    let leapyear := (n1 =? 3) && (negb (n4 =? 24) || (n100 =? 3)) in
    let month := Z.shiftr (n + 50) 5 in
    let preceding :=
      tbl DAYS_BEFORE_MONTH month + b2z ((2 <? month) && leapyear) in
    if n <? preceding then
      let month := month - 1 in
      let preceding :=
        preceding - (tbl DAYS_IN_MONTH month + b2z ((month =? 2) && leapyear)) in
      (year, month, n - preceding + 1)
    else (year, month, n - preceding + 1).

(** A [datetime]: the calendar fields and, for an aware value, the UTC
    offset of its fixed-offset [tzinfo], in microseconds. *)
Record datetime : Type := mkdatetime {
  dt_year : Z;
  dt_month : Z;
  dt_day : Z;
  dt_hour : Z;
  dt_minute : Z;
  dt_second : Z;
  dt_microsecond : Z;
  dt_tzinfo : option Z
}.

Definition DAY_US : Z := 86400000000.

(** The range checks of the [datetime] constructor. *)
Definition check_date_fields (year month day : Z) : bool :=
  (MINYEAR <=? year) && (year <=? MAXYEAR) &&
  (1 <=? month) && (month <=? 12) &&
  (1 <=? day) && (day <=? days_in_month year month).

Definition check_time_fields (hour minute second microsecond : Z) : bool :=
  (0 <=? hour) && (hour <=? 23) && (0 <=? minute) && (minute <=? 59) &&
  (0 <=? second) && (second <=? 59) &&
  (0 <=? microsecond) && (microsecond <=? 999999).

Definition check_tzinfo (tz : option Z) : bool :=
  match tz with
  | None => true
  | Some off => (- DAY_US <? off) && (off <? DAY_US)
  end.

Definition valid_datetime (d : datetime) : bool :=
  check_date_fields (dt_year d) (dt_month d) (dt_day d) &&
  check_time_fields (dt_hour d) (dt_minute d) (dt_second d) (dt_microsecond d) &&
  check_tzinfo (dt_tzinfo d).

(** [datetime(...)]: [ValueError] on a field out of range. *)
Definition new_datetime (year month day hour minute second microsecond : Z)
    (tz : option Z) : result datetime :=
  let d := mkdatetime year month day hour minute second microsecond tz in
  if valid_datetime d then Return d else Raise ValueError.

Definition toordinal (d : datetime) : Z :=
  ymd2ord (dt_year d) (dt_month d) (dt_day d).

(** Microseconds since midnight. *)
Definition time_of_day (d : datetime) : Z :=
  ((dt_hour d * 60 + dt_minute d) * 60 + dt_second d) * 1000000
  + dt_microsecond d.

(** [d + timedelta(days=days)].  [timedelta] itself admits at most
    999999999 days either way; the sum must stay within the calendar. *)
Definition add_days (d : datetime) (days : Z) : result datetime :=
  if (days <? -999999999) || (999999999 <? days) then Raise OverflowError
  else
    let o := toordinal d + days in
    if (0 <? o) && (o <=? MAXORDINAL) then
      let '(y, m, dd) := ord2ymd o in
      Return (mkdatetime y m dd (dt_hour d) (dt_minute d) (dt_second d)
                (dt_microsecond d) (dt_tzinfo d))
    else Raise OverflowError.

(** [d - timedelta(days=days)] *)
Definition sub_days (d : datetime) (days : Z) : result datetime :=
  if (days <? -999999999) || (999999999 <? days) then Raise OverflowError
  else add_days d (- days).

(** Lexicographic comparison of the field tuples. *)
Fixpoint lex_compare (a b : list Z) : comparison :=
  match a, b with
  | x :: a', y :: b' =>
      match x ?= y with
      | Eq => lex_compare a' b'
      | c => c
      end
  | [], [] => Eq
  | [], _ :: _ => Lt
  | _ :: _, [] => Gt
  end.





(** ** [datetime.fromisoformat]

    The parser of CPython 3.11 (the version [setup.py] requires), which
    works on a NUL-terminated buffer: [peek] past the end reads NUL.  Every
    failure is a [ValueError]. *)

Definition NUL : ascii := ascii_of_nat 0.

Definition peek (buf : string) (p : nat) : ascii :=
  match String.get p buf with
  | Some c => c
  | None => NUL
  end.

Definition is_digit (c : ascii) : bool :=
  let n := nat_of_ascii c in
  (48 <=? n)%nat && (n <=? 57)%nat.

Definition digit_val (c : ascii) : Z := Z.of_nat (nat_of_ascii c) - 48.

(** Read [num_digits] decimal digits at [p], on top of [acc]. *)
Fixpoint parse_digits (buf : string) (p : nat) (acc : Z) (num_digits : nat)
  : option (Z * nat) :=
  match num_digits with
  | O => Some (acc, p)
  | S k =>
      let c := peek buf p in
      if is_digit c then parse_digits buf (S p) (acc * 10 + digit_val c) k
      else None
  end.

(** Number of leading digits of the buffer from [p] on. *)
Fixpoint skip_digits (buf : string) (fuel p : nat) : nat :=
  match fuel with
  | O => p
  | S f => if is_digit (peek buf p) then skip_digits buf f (S p) else p
  end.

(** Where the date part ends: 7, 8 or 10 characters, or no valid place. *)
Definition find_isoformat_datetime_separator (dtstr : string) (len : nat)
  : option nat :=
  if (len =? 7)%nat then Some 7%nat
  else if Ascii.eqb (peek dtstr 4) "-" then
    if Ascii.eqb (peek dtstr 5) "W" then
      if (len <? 8)%nat then None
      else if (8 <? len)%nat && Ascii.eqb (peek dtstr 8) "-" then
        if (len =? 9)%nat then None
        else if (10 <? len)%nat && is_digit (peek dtstr 10) then Some 8%nat
        else Some 10%nat
      else Some 8%nat
    else Some 10%nat
  else if Ascii.eqb (peek dtstr 4) "W" then
    let idx := skip_digits dtstr (len - 7) 7 in
    if (idx <? 9)%nat then Some idx
    else if Nat.even idx then Some 7%nat
    else Some 8%nat
  else Some 8%nat.

(** Monday of ISO week 1 of [year], as an ordinal. *)
Definition iso_week1_monday (year : Z) : Z :=
  let first_day := ymd2ord year 1 1 in
  let first_weekday := (first_day + 6) mod 7 in
  let week1_monday := first_day - first_weekday in
  if 3 <? first_weekday then week1_monday + 7 else week1_monday.

(** ISO year, week and weekday to year, month and day.  Year 0, the only
    year below [MINYEAR] that four digits spell, never yields a date. *)
Definition iso_to_ymd (iso_year iso_week iso_day : Z) : result (Z * Z * Z) :=
  if iso_year <? MINYEAR then Raise ValueError
  else
    let first_weekday := (ymd2ord iso_year 1 1 + 6) mod 7 in
    let week53 :=
      (iso_week =? 53) &&
      ((first_weekday =? 3) || ((first_weekday =? 2) && is_leap iso_year)) in
    if ((iso_week <=? 0) || (53 <=? iso_week)) && negb week53 then
      Raise ValueError
    else if (iso_day <=? 0) || (8 <=? iso_day) then Raise ValueError
    else
      let day_1 := iso_week1_monday iso_year in
      let day_offset := (iso_week - 1) * 7 + iso_day - 1 in
      Return (ord2ymd (day_1 + day_offset)).

Definition digits_or_raise (buf : string) (p : nat) (acc : Z) (n : nat)
  : result (Z * nat) :=
  match parse_digits buf p acc n with
  | Some r => Return r
  | None => Raise ValueError
  end.

(** The date part, of length [len]: [YYYY-MM-DD], [YYYYMMDD],
    [YYYY-Www[-D]] or [YYYYWww[D]]. *)
Definition parse_isoformat_date (dtstr : string) (len : nat)
  : result (Z * Z * Z) :=
  yp <- digits_or_raise dtstr 0 0 4 ;;
  let '(year, p) := yp in
  let uses_separator := Ascii.eqb (peek dtstr p) "-" in
  let p := if uses_separator then S p else p in
  if Ascii.eqb (peek dtstr p) "W" then
    wp <- digits_or_raise dtstr (S p) 0 2 ;;
    let '(iso_week, p) := wp in
    if (p <? len)%nat then
      if uses_separator && negb (Ascii.eqb (peek dtstr p) "-") then
        Raise ValueError
      else
        let p := if uses_separator then S p else p in
        dp <- digits_or_raise dtstr p 0 1 ;;
        iso_to_ymd year iso_week (fst dp)
    else iso_to_ymd year iso_week 1
  else
    mp <- digits_or_raise dtstr p 0 2 ;;
    let '(month, p) := mp in
    if uses_separator && negb (Ascii.eqb (peek dtstr p) "-") then
      Raise ValueError
    else
      let p := if uses_separator then S p else p in
      dp <- digits_or_raise dtstr p 0 2 ;;
      Return (year, month, fst dp).

(** What the loop over hour, minute and second ends with. *)
Inductive hms_exit : Type :=
| HmsReturn (rv : bool)      (* returned from inside the loop *)
| HmsFraction (p : nat).     (* go on with the fraction at [p] *)

(** The loop of [parse_hh_mm_ss_ff]; [i] counts the components read and
    [n] those still allowed. *)
Fixpoint parse_hms (buf : string) (p_end : nat) (n i p : nat)
    (has_separator : bool) (vals : list Z) : result (list Z * hms_exit) :=
  match n with
  | O => Return (vals, HmsFraction p)
  | S n' =>
      vp <- digits_or_raise buf p 0 2 ;;
      let '(v, p) := vp in
      let c := peek buf p in
      let p := S p in
      let has_separator :=
        if (i =? 0)%nat then Ascii.eqb c ":" else has_separator in
      let vals := (vals ++ [v])%list in
      if (p_end <=? p)%nat then
        Return (vals, HmsReturn (negb (Ascii.eqb c NUL)))
      else if has_separator && Ascii.eqb c ":" then
        parse_hms buf p_end n' (S i) p has_separator vals
      else if Ascii.eqb c "." || Ascii.eqb c "," then
        Return (vals, HmsFraction p)
      else if negb has_separator then
        parse_hms buf p_end n' (S i) (pred p) has_separator vals
      else Raise ValueError
  end.

Definition FRACTION_CORRECTION : list Z := [100000; 10000; 1000; 100; 10].

(** [HH[:MM[:SS[.ffffff]]]] between [p] and [p_end]; the flag tells
    whether the parse stopped before a NUL. *)
Definition parse_hh_mm_ss_ff (buf : string) (p p_end : nat)
  : result (Z * Z * Z * Z * bool) :=
  r <- parse_hms buf p_end 3 0 p true [] ;;
  let '(vals, exit) := r in
  let hour := nth 0 vals 0 in
  let minute := nth 1 vals 0 in
  let second := nth 2 vals 0 in
  match exit with
  | HmsReturn rv => Return (hour, minute, second, 0, rv)
  | HmsFraction p =>
      let len_remains := (p_end - p)%nat in
      let to_parse := Nat.min len_remains 6 in
      up <- digits_or_raise buf p 0 to_parse ;;
      let '(us, p) := up in
      let us :=
        if (to_parse <? 6)%nat
        then us * nth (to_parse - 1) FRACTION_CORRECTION 0
        else us in
      let p := skip_digits buf (String.length buf) p in
      Return (hour, minute, second, us, negb (Ascii.eqb (peek buf p) NUL))
  end.

Definition is_tz_char (c : ascii) : bool :=
  Ascii.eqb c "Z" || Ascii.eqb c "+" || Ascii.eqb c "-".

(** First [Z], [+] or [-] from [pos] on, else the first place at or after
    [p_end] (one step is always taken). *)
Fixpoint find_tzinfo (buf : string) (p_end fuel pos : nat) : nat :=
  if is_tz_char (peek buf pos) then pos
  else
    match fuel with
    | O => S pos
    | S f =>
        if (S pos <? p_end)%nat then find_tzinfo buf p_end f (S pos)
        else S pos
    end.

(** The time part from [p] to [p_end]: the four time fields and, when
    present, the offset in seconds and its microseconds. *)
Definition parse_isoformat_time (buf : string) (p p_end : nat)
  : result (Z * Z * Z * Z * option (Z * Z)) :=
  let tzinfo_pos := find_tzinfo buf p_end (String.length buf) p in
  t <- parse_hh_mm_ss_ff buf p tzinfo_pos ;;
  let '(hour, minute, second, us, rv) := t in
  if (tzinfo_pos =? p_end)%nat then
    if rv then Raise ValueError
    else Return (hour, minute, second, us, None)
  else if Ascii.eqb (peek buf tzinfo_pos) "Z" then
    if Ascii.eqb (peek buf (S tzinfo_pos)) NUL
    then Return (hour, minute, second, us, Some (0, 0))
    else Raise ValueError
  else
    let tzsign := if Ascii.eqb (peek buf tzinfo_pos) "-" then -1 else 1 in
    z <- parse_hh_mm_ss_ff buf (S tzinfo_pos) p_end ;;
    let '(tzhour, tzminute, tzsecond, tzus, rv) := z in
    if rv then Raise ValueError
    else
      Return (hour, minute, second, us,
              Some (tzsign * (tzhour * 3600 + tzminute * 60 + tzsecond),
                    tzsign * tzus)).

(** The [tzinfo] of the result: none, UTC for a zero offset in seconds, or
    a fixed offset, which has to lie strictly within a day. *)
Definition tzinfo_from_isoformat_results (tz : option (Z * Z))
  : result (option Z) :=
  match tz with
  | None => Return None
  | Some (tzoffset, tzus) =>
      if tzoffset =? 0 then Return (Some 0)
      else
        let off := tzoffset * 1000000 + tzus in
        if (- DAY_US <? off) && (off <? DAY_US) then Return (Some off)
        else Raise ValueError
  end.

Definition fromisoformat (date_string : string) : result datetime :=
  let len := String.length date_string in
  if (len <? 7)%nat then Raise ValueError
  else
    match find_isoformat_datetime_separator date_string len with
    | None => Raise ValueError
    | Some separator_location =>
        ymd <- parse_isoformat_date date_string separator_location ;;
        let '(year, month, day) := ymd in
        if (separator_location <? len)%nat then
          t <- parse_isoformat_time date_string (S separator_location) len ;;
          let '(hour, minute, second, us, tz) := t in
          tzinfo <- tzinfo_from_isoformat_results tz ;;
          new_datetime year month day hour minute second us tzinfo
        else new_datetime year month day 0 0 0 0 None
    end.

(** ** More strings *)

(** [s.replace(c, new)] for a one-character pattern [c]: every occurrence
    is rewritten. *)
Fixpoint replace_char (c : ascii) (new s : string) : string :=
  match s with
  | EmptyString => EmptyString
  | String a s' =>
      if Ascii.eqb a c then new ++ replace_char c new s'
      else String a (replace_char c new s')
  end.

(** [sub in s] on strings *)
Fixpoint is_substring (sub s : string) : bool :=
  String.prefix sub s ||
  match s with
  | EmptyString => false
  | String _ s' => is_substring sub s'
  end.

Definition digit_char (k : Z) : ascii := ascii_of_nat (48 + Z.to_nat k).

(** ["%02d" % n] for [0 <= n <= 99] *)
Definition pad2 (n : Z) : string :=
  String (digit_char (n / 10)) (String (digit_char (n mod 10)) EmptyString).

(** ["%04d" % n] for [0 <= n <= 9999] *)
Definition pad4 (n : Z) : string := pad2 (n / 100) ++ pad2 (n mod 100).

(** ["%06d" % n] for [0 <= n <= 999999] *)
Definition pad6 (n : Z) : string := pad2 (n / 10000) ++ pad4 (n mod 10000).

(** [d.strftime("%Y-%m-%d")].  The C library formats [%Y] without padding,
    so a year below 1000 has fewer than four digits. *)
Definition strftime_Ymd (d : datetime) : string :=
  str_of_int (dt_year d) ++ "-" ++ pad2 (dt_month d) ++ "-" ++ pad2 (dt_day d).

(** [d.isoformat()] of a naive datetime *)
Definition isoformat (d : datetime) : string :=
  pad4 (dt_year d) ++ "-" ++ pad2 (dt_month d) ++ "-" ++ pad2 (dt_day d)
  ++ "T" ++ pad2 (dt_hour d) ++ ":" ++ pad2 (dt_minute d) ++ ":"
  ++ pad2 (dt_second d)
  ++ (if dt_microsecond d =? 0 then "" else "." ++ pad6 (dt_microsecond d)).

(** [s.encode("utf-8")] for code points below 256 *)
Definition utf8_char (c : ascii) : list Byte.byte :=
  let n := N_of_ascii c in
  if (n <? 128)%N then [byte_of_ascii c]
  else [byte_of_ascii (ascii_of_N (192 + n / 64));
        byte_of_ascii (ascii_of_N (128 + n mod 64))].

Definition utf8_encode (s : string) : list Byte.byte :=
  flat_map utf8_char (list_ascii_of_string s).

(** [s.lower()] on ASCII letters *)
Definition lower_char (c : ascii) : ascii :=
  let n := nat_of_ascii c in
  if (65 <=? n)%nat && (n <=? 90)%nat then ascii_of_nat (n + 32) else c.

Definition lower (s : string) : string :=
  string_of_list_ascii (map lower_char (list_ascii_of_string s)).

(** ** Dynamic operations on values *)

Definition is_none (v : pyval) : bool :=
  match v with VNone => true | _ => false end.

(** [v == s] for a string [s] *)
Definition eq_str (v : pyval) (s : string) : bool :=
  match v with VStr s' => String.eqb s' s | _ => false end.

(** [v == z] for an int [z] *)
Definition eq_int (v : pyval) (z : Z) : bool :=
  match as_num v with Some n => num_eq n (NInt z) | None => false end.

(** [key in obj] for a string [key] *)
Definition py_contains (obj : pyval) (key : string) : result bool :=
  match obj with
  | VDict d => Return (dict_mem key d)
  | VStr s => Return (is_substring key s)
  | VList l => Return (existsb (fun v => eq_str v key) l)
  | _ => Raise TypeError
  end.

(** [obj[key]] for a string [key] *)
Definition py_index (obj : pyval) (key : string) : result pyval :=
  match obj with
  | VDict d => dict_index d key
  | _ => Raise TypeError
  end.

(** [try: body except (ValueError, AttributeError): handler] *)
Definition try_except {A : Type} (body : result A) (handled : exn -> bool)
    (handler : result A) : result A :=
  match body with
  | Return a => Return a
  | Raise e => if handled e then handler else Raise e
  end.

(** [v.replace("Z", "+00:00")]: of the built-in classes of the values
    only [str] has the method. *)
Definition py_replace_Z (v : pyval) : result string :=
  match v with
  | VStr s => Return (replace_char "Z" "+00:00" s)
  | _ => Raise AttributeError
  end.

(** ** Validators (utils.py) *)

Definition is_valid_date_string (date_string : pyval) : result bool :=
  try_except
    (s <- py_replace_Z date_string ;;
     _ <- fromisoformat s ;;
     Return true)
    (fun e => match e with ValueError | AttributeError => true | _ => false end)
    (Return false).

(** [all(field in obj and obj[field] is not None for field in
    required_fields)]: the fields are tried in order and the first failure
    stops the scan. *)
Fixpoint has_required_fields (obj : pyval) (required_fields : list string)
  : result bool :=
  match required_fields with
  | [] => Return true
  | field :: rest =>
      present <- py_contains obj field ;;
      if present then
        v <- py_index obj field ;;
        if negb (is_none v) then has_required_fields obj rest
        else Return false
      else Return false
  end.


(** [[f(i) for i in range(n)]] for a fallible [f] *)
Fixpoint for_range {A : Type} (f : Z -> result A) (start : Z) (n : nat)
  : result (list A) :=
  match n with
  | O => Return []
  | S n' =>
      x <- f start ;;
      xs <- for_range f (start + 1) n' ;;
      Return (x :: xs)
  end.

Definition generate_date_range (start_date : datetime) (days : Z)
  : result (list string) :=
  for_range (fun i => d <- add_days start_date i ;; Return (strftime_Ymd d))
            0 (Z.to_nat days).

(** ** Builders and formatters (utils.py) *)

Section Builtins.

(** [repr()] of a float, a list or a dict, [json.dumps] and [json.loads]
    are CPython's own code; they are parameters of the development.  Each
    of them may raise. *)
Variable py_repr : pyval -> result string.
Variable json_dumps : pyval -> result string.
Variable json_loads : string -> result pyval.

(** [str(v)] *)
Definition py_str (v : pyval) : result string :=
  match v with
  | VNone => Return "None"
  | VBool true => Return "True"
  | VBool false => Return "False"
  | VInt z => int_str z
  | VStr s => Return s
  | VFloat _ | VList _ | VDict _ => py_repr v
  end.

(** [x or default] for an optional dict: [None] and [{}] are falsy. *)
Definition or_dict (x : option pydict) (default : pydict) : pydict :=
  match x with
  | Some ((_ :: _) as d) => d
  | _ => default
  end.

(** [json.dumps(body) if body else None] *)
Definition dumps_if (body : option pydict) : result pyval :=
  match body with
  | Some ((_ :: _) as d) => s <- json_dumps (VDict d) ;; Return (VStr s)
  | _ => Return VNone
  end.

Definition create_api_gateway_event
    (body path_parameters query_parameters headers : option pydict)
    (http_method path : string) : result pydict :=
  serialized <- dumps_if body ;;
  Return
    [("httpMethod", VStr http_method);
     ("path", VStr path);
     ("pathParameters", VDict (or_dict path_parameters []));
     ("queryStringParameters", VDict (or_dict query_parameters []));
     ("headers",
      VDict (or_dict headers [("Content-Type", VStr "application/json")]));
     ("body", serialized);
     ("requestContext",
      VDict [("requestId", VStr "test-request-id");
             ("authorizer",
              VDict [("claims", VDict [("sub", VStr "test-user-123")])])]);
     ("isBase64Encoded", VBool false)].

Definition create_csv_content (headers : list string) (rows : list (list string))
  : string :=
  let header_line := join "," headers in
  let data_lines := join nl (map (join ",") rows) in
  header_line ++ nl ++ data_lines.

(** [record.get(h, "")] *)
Definition get_or_empty (record : pydict) (h : string) : pyval :=
  match dict_get record h with
  | Some v => v
  | None => VStr ""
  end.

Definition create_sales_csv (records : list pydict) : result string :=
  match records with
  | [] => Return ("date,sku,quantity" ++ nl)
  | first :: _ =>
      let headers := dict_keys first in
      rows <- mapM (fun record =>
                      mapM (fun h => py_str (get_or_empty record h)) headers)
                records ;;
      Return (create_csv_content headers rows)
  end.

(** *** [mock_dynamodb_item] *)

Definition tagged (tag : string) (v : pyval) : pyval := VDict [(tag, v)].

Fixpoint format_value (value : pyval) : result pyval :=
  if isinstance value TStr then
    Return (tagged "S" value)
  else if isinstance value TInt || isinstance value TFloat then
    s <- py_str value ;;
    Return (tagged "N" (VStr s))
  else if isinstance value TBool then
    Return (tagged "BOOL" value)
  else if isinstance value TDict then
    m <- match value with
         | VDict d =>
             mapM (fun kv => v <- format_value (snd kv) ;; Return (fst kv, v))
               d
         | _ => Return []
         end ;;
    Return (tagged "M" (VDict m))
  else if isinstance value TList then
    l <- match value with
         | VList l => mapM format_value l
         | _ => Return []
         end ;;
    Return (tagged "L" (VList l))
  else match value with
       | VNone => Return (tagged "NULL" (VBool true))
       | _ => s <- py_str value ;; Return (tagged "S" (VStr s))
       end.

(** [{k: format_value(v) for k, v in item.items()}] *)
Definition mock_dynamodb_item (item : pydict) : result pydict :=
  mapM (fun kv => v <- format_value (snd kv) ;; Return (fst kv, v)) item.

(** *** [assert_api_response] *)

(** [for key in keys: assert key in body] *)
Fixpoint assert_keys (body : pyval) (keys : list string) : result unit :=
  match keys with
  | [] => Return tt
  | key :: rest =>
      present <- py_contains body key ;;
      _ <- assert present ;;
      assert_keys body rest
  end.

Definition assert_api_response (response : pydict) (expected_status : Z)
    (expected_body_keys : option (list string)) : result pyval :=
  _ <- assert (dict_mem "statusCode" response) ;;
  status <- dict_index response "statusCode" ;;
  _ <- assert (eq_int status expected_status) ;;
  _ <- assert (dict_mem "body" response) ;;
  raw <- dict_index response "body" ;;
  body <- match raw with
          | VStr s => json_loads s
          | _ => Return raw
          end ;;
  _ <- match expected_body_keys with
       | Some ((_ :: _) as keys) => assert_keys body keys
       | _ => Return tt
       end ;;
  Return body.

End Builtins.

(** ** Mock objects (utils.py) *)

(** [create_lambda_context] returns an instance of a class it defines
    inside the call.  The class has no [__eq__], so two contexts are equal
    under [==] only when they are one object: an object carries the
    address the allocator gave it, and the allocator, which the function
    threads, never gives the address of a live object again. *)
Record MockLambdaContext : Type := mkMockLambdaContext {
  address : nat;
  function_name : string;
  memory_limit_in_mb : Z;
  invoked_function_arn : string;
  aws_request_id : string;
  log_group_name : string;
  log_stream_name : string;
  remaining_time : Z
}.

Definition get_remaining_time_in_millis (self : MockLambdaContext) : Z :=
  remaining_time self.

(** [a == b] on contexts: [object.__eq__], the identity. *)
Definition context_eq (a b : MockLambdaContext) : bool :=
  Nat.eqb (address a) (address b).

(** [next] is the next free address; the function returns the new object
    and the next free address after it. *)
Definition create_lambda_context (function_name : string)
    (memory_limit timeout : Z) (next : nat) : MockLambdaContext * nat :=
  (mkMockLambdaContext
     next
     function_name
     memory_limit
     ("arn:aws:lambda:us-east-1:123456789012:function:" ++ function_name)
     "test-request-id"
     ("/aws/lambda/" ++ function_name)
     "test-stream"
     (timeout * 1000),
   S next).

(** The dict [mock_s3_object] returns has six fixed keys. *)
Record s3_object : Type := mks3_object {
  Bucket : string;
  Key : string;
  Body : list Byte.byte;
  ContentLength : Z;
  ContentType : string;
  LastModified : datetime
}.

(** [now] is the reading of [datetime.now()]. *)
Definition mock_s3_object (now : datetime) (bucket key content : string)
  : s3_object :=
  mks3_object bucket key (utf8_encode content)
    (Z.of_nat (String.length content)) "text/csv" now.

(** ** Result validators (utils.py) *)

Definition assert_r (c : result bool) : result unit :=
  b <- c ;; assert b.

Definition check_prediction (prediction : pyval) : result unit :=
  _ <- assert_r (has_required_fields prediction
                   ["date"; "demandForecast"; "lowerBound"; "upperBound"]) ;;
  date <- py_index prediction "date" ;;
  _ <- assert_r (is_valid_date_string date) ;;
  demand <- py_index prediction "demandForecast" ;;
  _ <- assert_r (py_ge demand (VInt 0)) ;;
  lower <- py_index prediction "lowerBound" ;;
  _ <- assert_r (py_le lower demand) ;;
  upper <- py_index prediction "upperBound" ;;
  assert_r (py_ge upper demand).

(** [for x in l: body(x)] *)
Fixpoint for_each {A : Type} (body : A -> result unit) (l : list A)
  : result unit :=
  match l with
  | [] => Return tt
  | x :: rest => _ <- body x ;; for_each body rest
  end.

Definition assert_forecast_result_valid (forecast : pydict) : result unit :=
  let required_fields :=
    ["sku"; "category"; "predictions"; "confidence"; "methodology"] in
  _ <- assert_r (has_required_fields (VDict forecast) required_fields) ;;
  confidence <- dict_index forecast "confidence" ;;
  _ <- assert_r (is_valid_confidence confidence) ;;
  methodology <- dict_index forecast "methodology" ;;
  _ <- assert (existsb (eq_str methodology) ["ml"; "pattern"; "hybrid"]) ;;
  predictions <- dict_index forecast "predictions" ;;
  _ <- assert (isinstance predictions TList) ;;
  match predictions with
  | VList l =>
      _ <- assert (0 <? Z.of_nat (List.length l)) ;;
      for_each check_prediction l
  | _ => Raise AssertionError
  end.

(** [has_required_fields(risk[key], fields)] followed by
    [is_valid_confidence(risk[key][prob])] *)
Definition check_risk_part (risk : pydict) (key : string)
    (fields : list string) (prob : string) : result unit :=
  part <- dict_index risk key ;;
  _ <- assert_r (has_required_fields part fields) ;;
  part <- dict_index risk key ;;
  p <- py_index part prob ;;
  assert_r (is_valid_confidence p).

Definition assert_risk_assessment_valid (risk : pydict) : result unit :=
  let required_fields :=
    ["sku"; "category"; "currentStock"; "stockoutRisk"; "overstockRisk";
     "recommendation"] in
  _ <- assert_r (has_required_fields (VDict risk) required_fields) ;;
  _ <- check_risk_part risk "stockoutRisk"
         ["probability"; "daysUntilStockout"; "potentialLostSales"]
         "probability" ;;
  _ <- check_risk_part risk "overstockRisk"
         ["probability"; "excessUnits"; "carryingCost"] "probability" ;;
  recommendation <- dict_index risk "recommendation" ;;
  _ <- assert_r (has_required_fields recommendation
                   ["action"; "suggestedQuantity"; "urgency"; "confidence"]) ;;
  action <- py_index recommendation "action" ;;
  _ <- assert (existsb (eq_str action) ["reorder"; "reduce"; "maintain"]) ;;
  urgency <- py_index recommendation "urgency" ;;
  _ <- assert (existsb (eq_str urgency) ["low"; "medium"; "high"]) ;;
  confidence <- py_index recommendation "confidence" ;;
  assert_r (is_valid_confidence confidence).

(** ** Hypothesis strategies (strategies.py)

    A strategy consumes part of the choice sequence the test runner feeds
    it and yields a value; [draw] inside a composite strategy threads the
    sequence.  The primitive strategies of the Hypothesis library are
    parameters. *)

Inductive alphabet : Type :=
| any_character
| characters (whitelist_categories : list string).

Definition f_5 : float := S754_finite false 5629499534213120 (-50).       (* 5.0 *)
Definition f_500 : float := S754_finite false 8796093022208000 (-44).     (* 500.0 *)
Definition f_10000 : float := S754_finite false 5497558138880000 (-39).   (* 10000.0 *)

Definition BUSINESS_TYPES : list string :=
  ["grocery"; "apparel"; "electronics"; "general"].
Definition STORE_SIZES : list string := ["small"; "medium"; "large"].
Definition REGIONS : list string :=
  ["north"; "south"; "east"; "west"; "central"].
Definition RISK_TOLERANCES : list string :=
  ["conservative"; "moderate"; "aggressive"].
Definition DATA_QUALITIES : list string := ["poor"; "fair"; "good"].

Section Strategies.

Variable Choices : Type.

Definition Strategy (A : Type) : Type := Choices -> result (A * Choices).

Definition ret {A : Type} (a : A) : Strategy A := fun c => Return (a, c).

Definition draw {A B : Type} (s : Strategy A) (k : A -> Strategy B)
  : Strategy B :=
  fun c =>
    match s c with
    | Return (a, c') => k a c'
    | Raise e => Raise e
    end.

Definition lift {A : Type} (r : result A) : Strategy A :=
  fun c =>
    match r with
    | Return a => Return (a, c)
    | Raise e => Raise e
    end.

Notation "x <~ s ;; k" := (draw s (fun x => k))
  (at level 61, s at next level, right associativity).

(** [st.integers(min_value, max_value)] *)
Variable integers : Z -> Z -> Strategy Z.
(** [st.text(alphabet, min_size, max_size)] *)
Variable text : alphabet -> nat -> nat -> Strategy string.
(** [st.sampled_from(elements)] *)
Variable sampled_from : list string -> Strategy string.
(** [st.floats(min_value, max_value, allow_nan, allow_infinity)] *)
Variable floats : float -> float -> option bool -> option bool -> Strategy float.
(** [st.booleans()] *)
Variable booleans : Strategy bool.
(** [st.lists(elements, min_size, max_size, unique)] *)
Variable lists : forall A : Type, Strategy A -> nat -> nat -> bool -> Strategy (list A).

(** [now] is the reading of [datetime.now()]. *)
Definition sales_record_strategy (now : datetime) : Strategy pydict :=
  days_ago <~ integers 0 730 ;;
  date <~ lift (sub_days now days_ago) ;;
  sku <~ text (characters ["Lu"; "Nd"]) 5 10 ;;
  quantity <~ integers 1 1000 ;;
  category <~
    sampled_from ["grocery"; "apparel"; "electronics"; "home"; "beauty"] ;;
  price <~ floats f_one f_10000 (Some false) (Some false) ;;
  ret [("date", VStr (strftime_Ymd date));
       ("sku", VStr sku);
       ("quantity", VInt quantity);
       ("category", VStr category);
       ("price", VFloat price)].

Definition sales_data_list_strategy (now : datetime) (min_size max_size : nat)
  : Strategy (list pydict) :=
  lists pydict (sales_record_strategy now) min_size max_size false.

Definition festival_names : list string :=
  ["Diwali"; "Eid"; "Holi"; "Christmas"; "Pongal"; "Onam"; "Durga Puja"].

Definition festival_event_strategy (now : datetime) : Strategy pydict :=
  days_ahead <~ integers 1 365 ;;
  date <~ lift (add_days now days_ahead) ;;
  id_name <~ sampled_from festival_names ;;
  name <~ sampled_from festival_names ;;
  region <~ lists string (sampled_from REGIONS) 1 3 true ;;
  grocery <~ floats f_one f_5 None None ;;
  apparel <~ floats f_one f_5 None None ;;
  electronics <~ floats f_one f_5 None None ;;
  duration <~ integers 1 10 ;;
  preparationDays <~ integers 7 30 ;;
  ret [("festivalId", VStr (lower id_name ++ "-" ++ str_of_int (dt_year date)));
       ("name", VStr name);
       ("date", VStr (strftime_Ymd date));
       ("region", VList (map VStr region));
       ("category", VStr "festival");
       ("demandMultipliers",
        VDict [("grocery", VFloat grocery);
               ("apparel", VFloat apparel);
               ("electronics", VFloat electronics)]);
       ("duration", VInt duration);
       ("preparationDays", VInt preparationDays)].

Definition user_profile_strategy (now : datetime) : Strategy pydict :=
  uid <~ text (characters ["Ll"; "Nd"]) 8 12 ;;
  name <~ text any_character 5 50 ;;
  type <~ sampled_from BUSINESS_TYPES ;;
  city <~ text any_character 3 30 ;;
  state <~ text any_character 3 30 ;;
  region <~ sampled_from REGIONS ;;
  size <~ sampled_from STORE_SIZES ;;
  hasHistoricalData <~ booleans ;;
  dataQuality <~ sampled_from DATA_QUALITIES ;;
  forecastHorizon <~ integers 7 14 ;;
  riskTolerance <~ sampled_from RISK_TOLERANCES ;;
  ret [("userId", VStr ("user-" ++ uid));
       ("businessInfo",
        VDict [("name", VStr name);
               ("type", VStr type);
               ("location",
                VDict [("city", VStr city);
                       ("state", VStr state);
                       ("region", VStr region)]);
               ("size", VStr size)]);
       ("dataCapabilities",
        VDict [("hasHistoricalData", VBool hasHistoricalData);
               ("dataQuality", VStr dataQuality);
               ("lastUpdated", VStr (isoformat now))]);
       ("preferences",
        VDict [("forecastHorizon", VInt forecastHorizon);
               ("riskTolerance", VStr riskTolerance)])].

Definition forecast_request_strategy : Strategy pydict :=
  uid <~ text (characters ["Ll"; "Nd"]) 8 12 ;;
  forecastHorizon <~ integers 7 14 ;;
  targetFestivals <~ lists string (text any_character 3 20) 0 3 false ;;
  dataMode <~ sampled_from ["structured"; "low-data"] ;;
  confidence <~ floats f_zero f_one None None ;;
  ret [("userId", VStr ("user-" ++ uid));
       ("forecastHorizon", VInt forecastHorizon);
       ("targetFestivals", VList (map VStr targetFestivals));
       ("dataMode", VStr dataMode);
       ("confidence", VFloat confidence)].

Definition inventory_data_strategy : Strategy pydict :=
  sku <~ text (characters ["Lu"; "Nd"]) 5 10 ;;
  category <~ sampled_from ["grocery"; "apparel"; "electronics"] ;;
  currentStock <~ integers 0 10000 ;;
  reorderPoint <~ integers 10 500 ;;
  leadTimeDays <~ integers 1 30 ;;
  ret [("sku", VStr sku);
       ("category", VStr category);
       ("currentStock", VInt currentStock);
       ("reorderPoint", VInt reorderPoint);
       ("leadTimeDays", VInt leadTimeDays)].

End Strategies.

Arguments ret {Choices A} a.
Arguments draw {Choices A B} s k.
Arguments lift {Choices A} r.

(** * Properties *)

(** ** [mock_dynamodb_item] *)


(** C1 (the code departs from the claim): on the input
    [{"a": 1, "b": "x", "c": True, "d": None}] the function
    [mock_dynamodb_item] tags [1] with [N], ["x"] with [S] and [None] with
    [NULL] as claimed, but it tags the boolean [True] with [N] and the
    string ["True"], not with [BOOL]. *)
Theorem mock_dynamodb_item_tags_bool_as_number :
  forall py_repr,
    mock_dynamodb_item py_repr
      [("a", VInt 1); ("b", VStr "x"); ("c", VBool true); ("d", VNone)]
    = Return [("a", VDict [("N", VStr "1")]);
              ("b", VDict [("S", VStr "x")]);
              ("c", VDict [("N", VStr "True")]);
              ("d", VDict [("NULL", VBool true)])].
Proof. intros py_repr. reflexivity. Qed.

(** ** [create_sales_csv] *)

(** C5: [create_sales_csv([])] is the header line ["date,sku,quantity\n"],
    and the single record [{date: "2023-10-01", sku: "SKU001",
    quantity: 10}] yields the header line followed by the data line
    [2023-10-01,SKU001,10]. *)
Theorem create_sales_csv_examples :
  forall py_repr,
    create_sales_csv py_repr [] = Return ("date,sku,quantity" ++ nl)
    /\ create_sales_csv py_repr
         [[("date", VStr "2023-10-01"); ("sku", VStr "SKU001");
           ("quantity", VInt 10)]]
       = Return ("date,sku,quantity" ++ nl ++ "2023-10-01,SKU001,10").
Proof. intros py_repr. split; reflexivity. Qed.

(** ** [calculate_percentage_difference] *)

(** A number is zero: the int [0], or the float [0.0] or [-0.0]. *)
Definition num_is_zero (n : num) : bool :=
  match n with
  | NInt z => z =? 0
  | NFloat (S754_zero _) => true
  | NFloat _ => false
  end.

Lemma num_eq_zero : forall n, num_eq n (NInt 0) = num_is_zero n.
Proof.
  intros [z | f]; unfold num_eq; simpl.
  - destruct (Z.compare_spec z 0) as [H | H | H]; symmetry.
    + now apply Z.eqb_eq.
    + apply Z.eqb_neq; lia.
    + apply Z.eqb_neq; lia.
  - destruct f as [s | s | | s m e]; simpl; try reflexivity.
    + now destruct s.
    + assert (Hm : cond_Zopp s (Z.pos m) <> 0) by (destruct s; simpl; lia).
      destruct (0 <=? e) eqn:He.
      * apply Z.leb_le in He.
        assert (Hp : 0 < 2 ^ e) by (apply Z.pow_pos_nonneg; lia).
        destruct (Z.compare_spec (cond_Zopp s (Z.pos m) * 2 ^ e) 0) as [H | H | H];
          try reflexivity.
        apply Z.mul_eq_0 in H. lia.
      * simpl.
        destruct (Z.compare_spec (cond_Zopp s (Z.pos m)) 0) as [H | H | H];
          try reflexivity.
        contradiction.
Qed.

(** C3: [calculate_percentage_difference(0, 0)] is [0.0] and
    [calculate_percentage_difference(0, 5)] is [+inf]; for every zero
    baseline the result is [0.0] when the comparison is zero too and
    [+inf] when it is not. *)
Theorem calculate_percentage_difference_zero_baseline :
  calculate_percentage_difference (NInt 0) (NInt 0) = Return (NFloat f_zero)
  /\ calculate_percentage_difference (NInt 0) (NInt 5) = Return (NFloat f_inf)
  /\ forall baseline comparison,
       num_is_zero baseline = true ->
       calculate_percentage_difference baseline comparison
       = Return (NFloat (if num_is_zero comparison then f_zero else f_inf)).
Proof.
  split; [reflexivity | split; [reflexivity |]].
  intros baseline comparison Hb.
  unfold calculate_percentage_difference, num_ne.
  rewrite !num_eq_zero, Hb.
  now destruct (num_is_zero comparison).
Qed.

Lemma calculate_percentage_difference_zero_baseline_witness :
  num_is_zero (NFloat (S754_zero true)) = true
  /\ calculate_percentage_difference (NFloat (S754_zero true)) (NFloat S754_nan)
     = Return (NFloat f_inf).
Proof.
  split; [reflexivity |].
  apply (proj2 (proj2 calculate_percentage_difference_zero_baseline)
           (NFloat (S754_zero true)) (NFloat S754_nan)).
  reflexivity.
Defined.

(** ** [create_api_gateway_event] *)

Section ApiGatewayEvent.

Variable json_dumps : pyval -> result string.

Lemma dict_get_cons :
  forall k' v d k,
    dict_get ((k', v) :: d) k = if String.eqb k' k then Some v else dict_get d k.
Proof. reflexivity. Qed.

(** A body is serialized exactly when it is a non-empty dict. *)
Lemma dumps_if_falsy :
  forall body,
    body = None \/ body = Some [] -> dumps_if json_dumps body = Return VNone.
Proof. intros body [-> | ->]; reflexivity. Qed.

Lemma dumps_if_truthy :
  forall kv d,
    dumps_if json_dumps (Some (kv :: d))
    = (s <- json_dumps (VDict (kv :: d)) ;; Return (VStr s)).
Proof. reflexivity. Qed.

Lemma event_fields :
  forall body pp qp h m p ev,
    create_api_gateway_event json_dumps body pp qp h m p = Return ev ->
    exists serialized,
      dumps_if json_dumps body = Return serialized
      /\ dict_get ev "body" = Some serialized
      /\ forall k, k <> "body" ->
           dict_get ev k
           = dict_get
               [("httpMethod", VStr m);
                ("path", VStr p);
                ("pathParameters", VDict (or_dict pp []));
                ("queryStringParameters", VDict (or_dict qp []));
                ("headers",
                 VDict (or_dict h [("Content-Type", VStr "application/json")]));
                ("requestContext",
                 VDict [("requestId", VStr "test-request-id");
                        ("authorizer",
                         VDict [("claims",
                                 VDict [("sub", VStr "test-user-123")])])]);
                ("isBase64Encoded", VBool false)] k.
Proof.
  intros body pp qp h m p ev H.
  unfold create_api_gateway_event in H.
  destruct (dumps_if json_dumps body) as [serialized | e]; simpl in H;
    [| discriminate].
  injection H as <-.
  exists serialized. split; [reflexivity | split; [reflexivity |]].
  intros k Hk. rewrite !dict_get_cons.
  repeat match goal with
         | |- context [String.eqb ?a k] =>
             destruct (String.eqb_spec a k); try congruence
         end.
Qed.

End ApiGatewayEvent.

(** C9: [create_api_gateway_event] serializes the body only when it is a
    non-empty dict.  With [None] or [{}] the event is returned with its
    ["body"] field [None]; with a non-empty dict the event is returned
    with the string [json.dumps] returns for the body in this field, and
    when [json.dumps] raises the call raises the same; every other field
    of the event is the same whatever the body. *)
Theorem create_api_gateway_event_body :
  forall json_dumps pp qp h m p,
    (forall body,
        body = None \/ body = Some [] ->
        exists ev,
          create_api_gateway_event json_dumps body pp qp h m p = Return ev
          /\ dict_get ev "body" = Some VNone)
    /\ (forall kv d s,
          json_dumps (VDict (kv :: d)) = Return s ->
          exists ev,
            create_api_gateway_event json_dumps (Some (kv :: d)) pp qp h m p
            = Return ev
            /\ dict_get ev "body" = Some (VStr s))
    /\ (forall kv d e,
          json_dumps (VDict (kv :: d)) = Raise e ->
          create_api_gateway_event json_dumps (Some (kv :: d)) pp qp h m p
          = Raise e)
    /\ (forall body1 body2 ev1 ev2,
          create_api_gateway_event json_dumps body1 pp qp h m p = Return ev1 ->
          create_api_gateway_event json_dumps body2 pp qp h m p = Return ev2 ->
          dict_keys ev1 = dict_keys ev2
          /\ forall k, k <> "body" -> dict_get ev1 k = dict_get ev2 k).
Proof.
  intros json_dumps pp qp h m p. split; [| split; [| split]].
  - intros body Hb.
    unfold create_api_gateway_event.
    rewrite (dumps_if_falsy json_dumps body Hb). simpl.
    eexists. split; reflexivity.
  - intros kv d s Hs.
    unfold create_api_gateway_event.
    rewrite dumps_if_truthy, Hs. cbn [bind].
    eexists. split; reflexivity.
  - intros kv d e He.
    unfold create_api_gateway_event.
    rewrite dumps_if_truthy, He. reflexivity.
  - intros body1 body2 ev1 ev2 H1 H2. split.
    + unfold create_api_gateway_event in H1, H2.
      destruct (dumps_if json_dumps body1); simpl in H1; [| discriminate].
      destruct (dumps_if json_dumps body2); simpl in H2; [| discriminate].
      injection H1 as <-. injection H2 as <-. reflexivity.
    + intros k Hk.
      destruct (event_fields json_dumps _ _ _ _ _ _ _ H1) as (_ & _ & _ & E1).
      destruct (event_fields json_dumps _ _ _ _ _ _ _ H2) as (_ & _ & _ & E2).
      now rewrite (E1 k Hk), (E2 k Hk).
Qed.

(** A serializer for the witnesses: it renders every body as ["{...}"]. *)
Definition sample_dumps (v : pyval) : result string := Return "{...}".

Lemma create_api_gateway_event_body_witness :
  exists ev,
    create_api_gateway_event sample_dumps
      (Some [("sku", VStr "SKU001"); ("days", VInt 7)]) None None None
      "POST" "/"
    = Return ev
    /\ dict_get ev "body" = Some (VStr "{...}").
Proof.
  apply (proj1 (proj2 (create_api_gateway_event_body sample_dumps
                         None None None "POST" "/"))
           ("sku", VStr "SKU001") [("days", VInt 7)] "{...}").
  reflexivity.
Defined.

(** ** [has_required_fields] *)

(** A field of [obj] is present: it is a key bound to something else than
    [None]. *)
Definition present (obj : pydict) (field : string) : Prop :=
  exists v, dict_get obj field = Some v /\ v <> VNone.

Definition present_b (obj : pydict) (field : string) : bool :=
  match dict_get obj field with
  | Some v => negb (is_none v)
  | None => false
  end.

Lemma present_b_spec :
  forall obj field, present_b obj field = true <-> present obj field.
Proof.
  intros obj field. unfold present_b, present.
  destruct (dict_get obj field) as [v |].
  - destruct v; simpl; split; intro H;
      try discriminate; try reflexivity;
      try (eexists; split; [reflexivity | discriminate]).
    destruct H as (v & Hv & Hn). injection Hv as <-. contradiction.
  - split; [discriminate |]. intros (v & Hv & _). discriminate.
Qed.

Lemma has_required_fields_dict :
  forall obj fields,
    has_required_fields (VDict obj) fields
    = Return (forallb (present_b obj) fields).
Proof.
  intros obj fields. induction fields as [| f fields IH]; [reflexivity |].
  simpl. unfold dict_mem, dict_index, present_b.
  destruct (dict_get obj f) as [v |]; simpl; [| reflexivity].
  destruct (is_none v); simpl; [reflexivity | exact IH].
Qed.

Lemma null_field_not_present :
  forall obj fields f,
    In f fields -> dict_get obj f = Some VNone ->
    forallb (present_b obj) fields = false.
Proof.
  intros obj fields f Hin Hf.
  destruct (forallb (present_b obj) fields) eqn:E; [| reflexivity].
  rewrite forallb_forall in E. specialize (E f Hin).
  unfold present_b in E. rewrite Hf in E. discriminate.
Qed.

(** C8: on a dict, [has_required_fields] returns a boolean, and [True]
    exactly when every listed field is a key whose value is not [None]; a
    field bound to [None] counts as missing, so [assert_forecast_result_valid]
    and [assert_risk_assessment_valid] fail their first assertion on a
    record that binds a required field to [None]. *)
Theorem has_required_fields_iff :
  forall obj : pydict,
    (forall fields,
        exists b,
          has_required_fields (VDict obj) fields = Return b
          /\ (b = true <-> Forall (present obj) fields))
    /\ (forall f,
          In f ["sku"; "category"; "predictions"; "confidence"; "methodology"] ->
          dict_get obj f = Some VNone ->
          assert_forecast_result_valid obj = Raise AssertionError)
    /\ (forall f,
          In f ["sku"; "category"; "currentStock"; "stockoutRisk";
                "overstockRisk"; "recommendation"] ->
          dict_get obj f = Some VNone ->
          assert_risk_assessment_valid obj = Raise AssertionError).
Proof.
  intros obj. split; [| split].
  - intros fields. exists (forallb (present_b obj) fields).
    split; [apply has_required_fields_dict |].
    rewrite forallb_forall, Forall_forall.
    split; intros H f Hf; apply present_b_spec; now apply H.
  - intros f Hin Hf. unfold assert_forecast_result_valid, assert_r.
    rewrite has_required_fields_dict.
    now rewrite (null_field_not_present obj _ f Hin Hf).
  - intros f Hin Hf. unfold assert_risk_assessment_valid, assert_r.
    rewrite has_required_fields_dict.
    now rewrite (null_field_not_present obj _ f Hin Hf).
Qed.

Lemma has_required_fields_iff_witness :
  assert_forecast_result_valid
    [("sku", VStr "SKU001"); ("category", VStr "grocery");
     ("predictions", VList []); ("confidence", VNone);
     ("methodology", VStr "ml")]
  = Raise AssertionError.
Proof.
  apply (proj1 (proj2 (has_required_fields_iff _)) "confidence").
  - simpl. tauto.
  - reflexivity.
Defined.

(** ** [is_valid_confidence] *)

(** The rational a finite float stands for. *)
Definition float_to_Q (f : float) : option Q :=
  match f with
  | S754_zero _ => Some (inject_Z 0)
  | S754_finite s m e =>
      let sm := cond_Zopp s (Z.pos m) in
      Some (if 0 <=? e then inject_Z (sm * 2 ^ e)
            else Qmake sm (Z.to_pos (2 ^ (- e))))
  | S754_infinity _ | S754_nan => None
  end.

Definition num_to_Q (n : num) : option Q :=
  match n with
  | NInt z => Some (inject_Z z)
  | NFloat f => float_to_Q f
  end.

(** [v] is a number whose value lies between 0 and 1, bounds included. *)
Definition in_unit_interval (v : pyval) : Prop :=
  exists n q,
    as_num v = Some n /\ num_to_Q n = Some q
    /\ (inject_Z 0 <= q)%Q /\ (q <= inject_Z 1)%Q.

(** A float value is a binary64 number. *)
Definition well_formed (v : pyval) : Prop :=
  match v with
  | VFloat f => valid_binary prec emax f = true
  | _ => True
  end.

Definition f_neg_1e_4 : float :=                       (* -0.0001 *)
  S754_finite true 7378697629483821 (-66).
Definition f_1_0001 : float :=                         (* 1.0001 *)
  S754_finite false 4504049987333233 (-52).

Lemma digits2_pos_bounds :
  forall m : positive,
    2 ^ (Z.pos (digits2_pos m) - 1) <= Z.pos m < 2 ^ Z.pos (digits2_pos m).
Proof.
  induction m as [p IH | p IH |]; simpl digits2_pos.
  - rewrite Pos2Z.inj_succ.
    replace (Z.succ (Z.pos (digits2_pos p)) - 1) with
      (Z.succ (Z.pos (digits2_pos p) - 1)) by lia.
    rewrite !Z.pow_succ_r by lia. lia.
  - rewrite Pos2Z.inj_succ.
    replace (Z.succ (Z.pos (digits2_pos p)) - 1) with
      (Z.succ (Z.pos (digits2_pos p) - 1)) by lia.
    rewrite !Z.pow_succ_r by lia. lia.
  - simpl. lia.
Qed.

(** A binary64 mantissa has at most 53 bits, and exactly 53 above the
    smallest exponent. *)
Lemma bounded_digits :
  forall m e,
    bounded prec emax m e = true ->
    Z.pos (digits2_pos m) <= 53
    /\ (-1074 < e -> Z.pos (digits2_pos m) = 53).
Proof.
  intros m e H. unfold bounded, canonical_mantissa, fexp, emin, prec, emax in H.
  apply andb_prop in H. destruct H as [H _]. apply Z.eqb_eq in H.
  lia.
Qed.

Lemma pow2_le : forall a b, 0 <= a <= b -> 2 ^ a <= 2 ^ b.
Proof. intros a b H. apply Z.pow_le_mono_r; lia. Qed.

Lemma SFcompare_one :
  forall m e,
    SFcompare (S754_finite false m e) f_one
    = Some match e ?= -52 with
           | Eq => Pos.compare_cont Eq m 4503599627370496
           | Lt => Lt
           | Gt => Gt
           end.
Proof. reflexivity. Qed.

(** [x <= 1.0] on a positive binary64 number, against its exact value. *)
Lemma finite_le_one :
  forall m e,
    bounded prec emax m e = true ->
    (SFleb (S754_finite false m e) f_one = true
     <-> if 0 <=? e then Z.pos m * 2 ^ e <= 1 else Z.pos m <= 2 ^ (- e)).
Proof.
  intros m e Hb.
  destruct (bounded_digits m e Hb) as [Hd Hn].
  pose proof (digits2_pos_bounds m) as [Hlo Hhi].
  unfold SFleb. rewrite SFcompare_one.
  destruct (Z.compare_spec e (-52)) as [He | He | He].
  - subst e. change (0 <=? -52) with false. cbv iota.
    change (2 ^ (- -52)) with 4503599627370496.
    rewrite Pos.compare_cont_spec. unfold Pos.switch_Eq.
    rewrite Pos2Z.inj_compare.
    destruct (Z.compare_spec (Z.pos m) (Z.pos 4503599627370496)) as [E | E | E];
      split; intro H; try reflexivity; try discriminate; lia.
  - destruct (0 <=? e) eqn:E0; [apply Z.leb_le in E0; lia |].
    split; [intros _ | reflexivity].
    assert (2 ^ Z.pos (digits2_pos m) <= 2 ^ (- e)) by (apply pow2_le; lia).
    lia.
  - split; [discriminate |]. intro H. exfalso.
    assert (Hd53 : Z.pos (digits2_pos m) = 53) by (apply Hn; lia).
    rewrite Hd53 in Hlo. change (2 ^ (53 - 1)) with 4503599627370496 in Hlo.
    destruct (0 <=? e) eqn:E0.
    + apply Z.leb_le in E0.
      assert (1 <= 2 ^ e) by (apply (pow2_le 0 e); lia).
      nia.
    + apply Z.leb_gt in E0.
      assert (2 ^ (- e) <= 2 ^ 51) by (apply pow2_le; lia).
      change (2 ^ 51) with 2251799813685248 in *. lia.
Qed.

Lemma pow2_pos : forall e, 0 <= e -> 0 < 2 ^ e.
Proof. intros e H. apply Z.pow_pos_nonneg; lia. Qed.

(** Unfold an inequality on explicit rationals into one on integers. *)
Ltac qle :=
  unfold Qle, inject_Z, Qnum, Qden, cond_Zopp in *; cbv beta iota in *.

Lemma Some_eq : forall (A : Type) (x y : A), Some x = Some y -> x = y.
Proof. intros A x y H. congruence. Qed.

(** The two comparisons of [is_valid_confidence] on a float. *)
Lemma float_in_unit_interval :
  forall f,
    valid_binary prec emax f = true ->
    (SFleb f_zero f && SFleb f f_one = true
     <-> exists q, float_to_Q f = Some q
                   /\ (inject_Z 0 <= q)%Q /\ (q <= inject_Z 1)%Q).
Proof.
  intros [s | s | | s m e] Hv.
  - (* zero *)
    split; [intros _ | reflexivity].
    exists (inject_Z 0). repeat split; qle; lia.
  - (* infinity *)
    split; [| intros (q & Hq & _); discriminate].
    destruct s; discriminate.
  - (* nan *)
    split; [discriminate | intros (q & Hq & _); discriminate].
  - (* finite *)
    change (valid_binary prec emax (S754_finite s m e))
      with (bounded prec emax m e) in Hv.
    unfold float_to_Q.
    destruct s.
    + (* negative *)
      split; [discriminate |].
      intros (q & Hq & H0 & _). exfalso.
      apply Some_eq in Hq. subst q.
      destruct (0 <=? e) eqn:E0; qle.
      * apply Z.leb_le in E0. pose proof (pow2_pos e E0).
        assert (0 < Z.pos m * 2 ^ e) by (apply Z.mul_pos_pos; lia).
        rewrite Z.mul_opp_l in H0. lia.
      * lia.
    + (* positive *)
      change (SFleb f_zero (S754_finite false m e)) with true.
      rewrite andb_true_l, (finite_le_one m e Hv).
      destruct (0 <=? e) eqn:E0.
      * apply Z.leb_le in E0. pose proof (pow2_pos e E0) as Hp.
        split.
        -- intro H. eexists. split; [reflexivity |].
           qle. split; nia.
        -- intros (q & Hq & _ & H1). apply Some_eq in Hq. subst q.
           qle. lia.
      * apply Z.leb_gt in E0.
        assert (Hp : 0 < 2 ^ (- e)) by (apply pow2_pos; lia).
        split.
        -- intro H. eexists. split; [reflexivity |].
           qle. rewrite Z2Pos.id by exact Hp. split; lia.
        -- intros (q & Hq & _ & H1). apply Some_eq in Hq. subst q.
           qle. rewrite Z2Pos.id in H1 by exact Hp. lia.
Qed.

Lemma is_valid_confidence_float :
  forall f,
    is_valid_confidence (VFloat f) = Return (SFleb f_zero f && SFleb f f_one).
Proof.
  intros f. unfold is_valid_confidence, is_in_range, py_le.
  cbn [val_of_num as_num bind]. unfold num_le. cbn [num_compare].
  unfold SFleb.
  destruct (SFcompare f_zero f) as [[| |] |]; reflexivity.
Qed.

Lemma float_int_compare_one :
  forall z,
    float_int_compare f_one z = Some (4503599627370496 ?= z * 4503599627370496).
Proof. reflexivity. Qed.

Lemma is_valid_confidence_int :
  forall z,
    is_valid_confidence (VInt z) = Return ((0 <=? z) && (z <=? 1)).
Proof.
  intros z. unfold is_valid_confidence, is_in_range, py_le.
  cbn [val_of_num as_num bind]. unfold num_le. cbn [num_compare].
  rewrite float_int_compare_one.
  change (float_int_compare f_zero z) with (Some (0 ?= z)).
  cbn [option_map].
  destruct (Z.compare_spec 0 z) as [H | H | H];
    destruct (Z.leb_spec 0 z); try lia; cbn [bind andb]; try reflexivity;
    destruct (Z.compare_spec 4503599627370496 (z * 4503599627370496));
    destruct (Z.leb_spec z 1); cbn [CompOpp]; try reflexivity; lia.
Qed.

Lemma int_in_unit_interval :
  forall v z,
    as_num v = Some (NInt z) ->
    ((0 <=? z) && (z <=? 1) = true <-> in_unit_interval v).
Proof.
  intros v z Hv. unfold in_unit_interval. rewrite Hv. split.
  - intro H. apply andb_prop in H. destruct H as [H0 H1].
    apply Z.leb_le in H0, H1.
    exists (NInt z), (inject_Z z). repeat split; unfold Qle; simpl; lia.
  - intros (n & q & Hn & Hq & H0 & H1).
    injection Hn as <-. simpl in Hq. injection Hq as <-.
    unfold Qle in H0, H1. simpl in H0, H1.
    apply andb_true_intro. split; apply Z.leb_le; lia.
Qed.

(** C4: for every value [x] of the built-in classes,
    [is_valid_confidence(x)] returns [True] exactly when [x] is a number
    (a [float], an [int] or a [bool]) with [0.0 <= x <= 1.0], both bounds
    included; it returns [True] at [0.0] and at [1.0] and [False] at
    [-0.0001] and at [1.0001]. *)
Theorem is_valid_confidence_iff :
  (forall x,
      well_formed x ->
      (is_valid_confidence x = Return true <-> in_unit_interval x))
  /\ is_valid_confidence (VFloat f_zero) = Return true
  /\ is_valid_confidence (VFloat f_one) = Return true
  /\ is_valid_confidence (VFloat f_neg_1e_4) = Return false
  /\ is_valid_confidence (VFloat f_1_0001) = Return false.
Proof.
  split; [| repeat split; reflexivity].
  intros x Hx. destruct x as [| b | z | f | s | l | d].
  - split; [discriminate | intros (n & q & H & _); discriminate].
  - change (is_valid_confidence (VBool b))
      with (is_valid_confidence (VInt (if b then 1 else 0))).
    rewrite is_valid_confidence_int.
    rewrite <- (int_in_unit_interval (VBool b) (if b then 1 else 0) eq_refl).
    split; intro H; [now injection H | now rewrite H].
  - rewrite is_valid_confidence_int.
    rewrite <- (int_in_unit_interval (VInt z) z eq_refl).
    split; intro H; [now injection H | now rewrite H].
  - rewrite is_valid_confidence_float. simpl in Hx.
    split.
    + intro H. injection H as H.
      apply (float_in_unit_interval f Hx) in H.
      destruct H as (q & Hq & H0 & H1).
      exists (NFloat f), q. repeat split; assumption.
    + intros (n & q & Hn & Hq & H0 & H1).
      injection Hn as <-. simpl in Hq.
      f_equal. apply (float_in_unit_interval f Hx).
      exists q. repeat split; assumption.
  - split; [discriminate | intros (n & q & H & _); discriminate].
  - split; [discriminate | intros (n & q & H & _); discriminate].
  - split; [discriminate | intros (n & q & H & _); discriminate].
Qed.

Lemma is_valid_confidence_iff_witness :
  well_formed (VFloat f_one)
  /\ (is_valid_confidence (VFloat f_one) = Return true
      <-> in_unit_interval (VFloat f_one)).
Proof.
  split; [reflexivity |].
  apply (proj1 is_valid_confidence_iff (VFloat f_one)).
  reflexivity.
Defined.

(** ** [is_valid_date_string] *)

(** A computation that raises nothing but [ValueError]. *)
Definition only_ValueError {A : Type} (r : result A) : Prop :=
  match r with
  | Return _ => True
  | Raise e => e = ValueError
  end.

Lemma only_ValueError_bind :
  forall (A B : Type) (r : result A) (k : A -> result B),
    only_ValueError r -> (forall a, only_ValueError (k a)) ->
    only_ValueError (bind r k).
Proof. intros A B [a | e] k Hr Hk; simpl; [apply Hk | exact Hr]. Qed.

Lemma only_ValueError_digits :
  forall buf p acc n, only_ValueError (digits_or_raise buf p acc n).
Proof.
  intros. unfold digits_or_raise.
  now destruct (parse_digits buf p acc n).
Qed.

Ltac only_ve :=
  repeat
    match goal with
    | |- only_ValueError (Return _) => exact I
    | |- only_ValueError (Raise ValueError) => reflexivity
    | |- only_ValueError (bind _ _) =>
        apply only_ValueError_bind; [| intros ?]
    | |- only_ValueError (digits_or_raise _ _ _ _) =>
        apply only_ValueError_digits
    | |- only_ValueError (let '(_, _) := ?x in _) => destruct x
    | |- only_ValueError (if ?c then _ else _) => destruct c
    | |- only_ValueError (match ?x with Some _ => _ | None => _ end) =>
        destruct x
    end.

Lemma only_ValueError_iso_to_ymd :
  forall y w d, only_ValueError (iso_to_ymd y w d).
Proof. intros. unfold iso_to_ymd. only_ve. Qed.

Lemma only_ValueError_date :
  forall s len, only_ValueError (parse_isoformat_date s len).
Proof.
  intros. unfold parse_isoformat_date.
  only_ve; apply only_ValueError_iso_to_ymd.
Qed.

Lemma only_ValueError_hms :
  forall buf p_end n i p has_sep vals,
    only_ValueError (parse_hms buf p_end n i p has_sep vals).
Proof.
  intros buf p_end n. induction n as [| n IH]; intros; simpl; [exact I |].
  only_ve; apply IH.
Qed.

Lemma only_ValueError_hh_mm_ss_ff :
  forall buf p p_end, only_ValueError (parse_hh_mm_ss_ff buf p p_end).
Proof.
  intros. unfold parse_hh_mm_ss_ff.
  apply only_ValueError_bind; [apply only_ValueError_hms |].
  intros [vals [rv | q]]; only_ve.
Qed.

Lemma only_ValueError_time :
  forall buf p p_end, only_ValueError (parse_isoformat_time buf p p_end).
Proof.
  intros. unfold parse_isoformat_time.
  apply only_ValueError_bind; [apply only_ValueError_hh_mm_ss_ff |].
  intros [[[[h m] s] us] rv].
  only_ve; try apply only_ValueError_hh_mm_ss_ff.
Qed.

Lemma only_ValueError_new_datetime :
  forall y m d hh mm ss us tz,
    only_ValueError (new_datetime y m d hh mm ss us tz).
Proof. intros. unfold new_datetime. only_ve. Qed.

(** Whatever the string, [datetime.fromisoformat] returns or raises
    [ValueError]. *)
Lemma only_ValueError_fromisoformat :
  forall s, only_ValueError (fromisoformat s).
Proof.
  intros s. unfold fromisoformat.
  destruct (_ <? 7)%nat; [reflexivity |].
  destruct (find_isoformat_datetime_separator _ _) as [sep |]; [| reflexivity].
  apply only_ValueError_bind; [apply only_ValueError_date |].
  intros [[y m] d].
  destruct (_ <? _)%nat; [| apply only_ValueError_new_datetime].
  apply only_ValueError_bind; [apply only_ValueError_time |].
  intros [[[[hh mm] ss] us] tz].
  apply only_ValueError_bind.
  - unfold tzinfo_from_isoformat_results.
    destruct tz as [[off tzus] |]; only_ve.
  - intros tzinfo. apply only_ValueError_new_datetime.
Qed.

(** On a string the validator returns a boolean and never raises: [True]
    when the string with every [Z] rewritten to [+00:00] parses, [False]
    when it does not. *)
Lemma is_valid_date_string_total :
  forall s,
    is_valid_date_string (VStr s)
    = Return (is_return (fromisoformat (replace_char "Z" "+00:00" s))).
Proof.
  intros s. unfold is_valid_date_string. simpl.
  pose proof (only_ValueError_fromisoformat (replace_char "Z" "+00:00" s)) as H.
  destruct (fromisoformat _) as [d | e]; simpl in *; [reflexivity |].
  now subst e.
Qed.

(** As the specification words it: only a trailing [Z] is rewritten. *)
Definition rewrite_trailing_Z (s : string) : string :=
  let n := String.length s in
  if Ascii.eqb (peek s (n - 1)) "Z" && (0 <? n)%nat
  then String.substring 0 (n - 1) s ++ "+00:00"
  else s.

(** C7 (the code departs from the claim): [is_valid_date_string] rewrites
    every [Z], not only a trailing one.  The string
    [2023-10-01T12:00:00Z:30] has no trailing [Z] and is not an ISO 8601
    date-time, with or without the rewriting of a trailing [Z], yet the
    validator returns [True] on it, because the inner [Z] becomes the
    offset [+00:00:30]. *)
Theorem is_valid_date_string_rewrites_every_Z :
  is_valid_date_string (VStr "2023-10-01T12:00:00Z:30") = Return true
  /\ rewrite_trailing_Z "2023-10-01T12:00:00Z:30" = "2023-10-01T12:00:00Z:30"
  /\ fromisoformat "2023-10-01T12:00:00Z:30" = Raise ValueError
  /\ replace_char "Z" "+00:00" "2023-10-01T12:00:00Z:30"
     = "2023-10-01T12:00:00+00:00:30".
Proof. repeat split; vm_compute; reflexivity. Qed.

(** ** The clock *)

(** Concrete strategies, for running the generators: a choice sequence is
    a list of integers and each draw maps the next one into the range of
    the strategy. *)
Module Sample.

Definition Choices : Type := list Z.

Definition next (c : Choices) : Z * Choices :=
  match c with
  | [] => (0, [])
  | n :: c' => (n, c')
  end.

Definition integers (lo hi : Z) : Strategy Choices Z :=
  fun c => let '(n, c') := next c in Return (lo + n mod (hi - lo + 1), c').

Fixpoint repeat_char (a : ascii) (n : nat) : string :=
  match n with
  | O => EmptyString
  | S n' => String a (repeat_char a n')
  end.

Definition text (a : alphabet) (min_size max_size : nat)
  : Strategy Choices string :=
  fun c => Return (repeat_char "7" min_size, c).

Definition sampled_from (l : list string) : Strategy Choices string :=
  fun c =>
    let '(n, c') := next c in
    Return (nth (Z.to_nat (n mod Z.of_nat (List.length l))) l "", c').

Definition floats (lo hi : float) (allow_nan allow_infinity : option bool)
  : Strategy Choices float :=
  fun c => Return (lo, c).

Definition clock : datetime := mkdatetime 2026 11 3 9 30 0 0 None.
Definition later : datetime := mkdatetime 2026 11 4 9 30 0 0 None.

End Sample.

Lemma mock_s3_object_at_two_times :
  mock_s3_object Sample.clock "bucket" "key" "a,b"
  <> mock_s3_object Sample.later "bucket" "key" "a,b".
Proof. discriminate. Qed.

(** C2, as claimed, fails: two calls of [mock_s3_object] with equal
    arguments return different objects when the clock has moved.  What
    holds instead is [equal_results_of_two_calls], at the end. *)
Lemma mock_s3_object_not_pure :
  ~ (forall now1 now2 bucket key content,
        mock_s3_object now1 bucket key content
        = mock_s3_object now2 bucket key content).
Proof.
  intro H. exact (mock_s3_object_at_two_times (H _ _ _ _ _)).
Qed.

(** ** The calendar *)

Lemma is_leap_cases :
  forall y,
    is_leap y = true
    <-> y mod 4 = 0 /\ (y mod 100 <> 0 \/ y mod 400 = 0).
Proof.
  intros y. unfold is_leap.
  destruct (Z.eqb_spec (y mod 4) 0), (Z.eqb_spec (y mod 100) 0),
    (Z.eqb_spec (y mod 400) 0); simpl; split; intro H;
    try reflexivity; try discriminate; lia.
Qed.

(** A year has 365 days, and 366 when it is a leap year. *)
Lemma days_before_year_succ :
  forall y,
    days_before_year (y + 1) = days_before_year y + 365 + b2z (is_leap y).
Proof.
  intros y. unfold days_before_year.
  replace (y + 1 - 1) with y by lia.
  destruct (is_leap y) eqn:E; unfold b2z.
  - apply is_leap_cases in E. Z.div_mod_to_equations. lia.
  - assert (H : ~ (y mod 4 = 0 /\ (y mod 100 <> 0 \/ y mod 400 = 0))).
    { intro H. apply is_leap_cases in H. congruence. }
    Z.div_mod_to_equations. lia.
Qed.

Lemma days_before_year_mono :
  forall a b, a <= b -> days_before_year a <= days_before_year b.
Proof.
  intros a b H. unfold days_before_year.
  Z.div_mod_to_equations. lia.
Qed.

(** The month tables, with the leap day taken as a boolean. *)
Definition dim (leap : bool) (month : Z) : Z :=
  if (month =? 2) && leap then 29 else tbl DAYS_IN_MONTH month.

Definition dbm (leap : bool) (month : Z) : Z :=
  tbl DAYS_BEFORE_MONTH month + b2z ((2 <? month) && leap).

Lemma days_in_month_dim :
  forall y m, days_in_month y m = dim (is_leap y) m.
Proof. reflexivity. Qed.

Lemma days_before_month_dbm :
  forall y m, days_before_month y m = dbm (is_leap y) m.
Proof. reflexivity. Qed.

Lemma month_cases :
  forall m,
    1 <= m <= 12 ->
    m = 1 \/ m = 2 \/ m = 3 \/ m = 4 \/ m = 5 \/ m = 6 \/ m = 7 \/ m = 8
    \/ m = 9 \/ m = 10 \/ m = 11 \/ m = 12.
Proof. intros m H. lia. Qed.

Ltac each_month m H :=
  destruct (month_cases m H) as
    [-> | [-> | [-> | [-> | [-> | [-> | [-> | [-> | [-> | [-> | [-> | ->]]]]]]]]]]].

(** Evaluate the month tables at a given month. *)
Ltac eval_tables :=
  repeat match goal with
         | H : context [dim ?l ?m] |- _ =>
             let v := eval vm_compute in (dim l m) in
             change (dim l m) with v in H
         | |- context [dim ?l ?m] =>
             let v := eval vm_compute in (dim l m) in
             change (dim l m) with v
         | H : context [dbm ?l ?m] |- _ =>
             let v := eval vm_compute in (dbm l m) in
             change (dbm l m) with v in H
         | |- context [dbm ?l ?m] =>
             let v := eval vm_compute in (dbm l m) in
             change (dbm l m) with v
         end;
  unfold b2z in *.

Lemma day_of_year_bounds :
  forall leap m d,
    1 <= m <= 12 -> 1 <= d <= dim leap m ->
    1 <= dbm leap m + d <= 365 + b2z leap.
Proof.
  intros leap m d Hm Hd.
  each_month m Hm; destruct leap; eval_tables; lia.
Qed.

(** Within a year the day of the year grows with the month. *)
Lemma day_of_year_month_lt :
  forall leap m d m',
    1 <= m <= 12 -> 1 <= m' <= 12 -> m < m' -> d <= dim leap m ->
    dbm leap m + d <= dbm leap m'.
Proof.
  intros leap m d m' Hm Hm' Hlt Hd.
  each_month m Hm; each_month m' Hm'; try lia;
    destruct leap; eval_tables; lia.
Qed.

Definition valid_date (y m d : Z) : Prop :=
  1 <= m <= 12 /\ 1 <= d <= days_in_month y m.

(** [ymd2ord] is strictly monotone for the lexicographic order on valid
    dates. *)
Lemma ymd2ord_lt :
  forall y m d y' m' d',
    valid_date y m d -> valid_date y' m' d' ->
    y < y' \/ (y = y' /\ (m < m' \/ (m = m' /\ d < d'))) ->
    ymd2ord y m d < ymd2ord y' m' d'.
Proof.
  intros y m d y' m' d' [Hm Hd] [Hm' Hd'] H.
  unfold ymd2ord. rewrite !days_before_month_dbm.
  rewrite days_in_month_dim in Hd, Hd'.
  pose proof (day_of_year_bounds _ _ _ Hm Hd) as B.
  pose proof (day_of_year_bounds _ _ _ Hm' Hd') as B'.
  destruct H as [Hy | [-> [Hlt | [-> Hlt]]]].
  - pose proof (days_before_year_succ y) as S.
    pose proof (days_before_year_mono (y + 1) y' ltac:(lia)). lia.
  - pose proof (day_of_year_month_lt (is_leap y') m d m' Hm Hm' Hlt
                  ltac:(lia)).
    lia.
  - lia.
Qed.

Lemma ymd2ord_compare :
  forall y m d y' m' d',
    valid_date y m d -> valid_date y' m' d' ->
    lex_compare [y; m; d] [y'; m'; d']
    = (ymd2ord y m d ?= ymd2ord y' m' d').
Proof.
  intros y m d y' m' d' V V'. simpl. symmetry.
  destruct (Z.compare_spec y y') as [-> | Hy | Hy].
  - destruct (Z.compare_spec m m') as [-> | Hm | Hm].
    + destruct (Z.compare_spec d d') as [-> | Hd | Hd].
      * apply Z.compare_refl.
      * apply Z.compare_lt_iff. apply ymd2ord_lt; auto.
      * apply Z.compare_gt_iff. apply ymd2ord_lt; auto.
    + apply Z.compare_lt_iff. apply ymd2ord_lt; auto.
    + apply Z.compare_gt_iff. apply ymd2ord_lt; auto.
  - apply Z.compare_lt_iff. apply ymd2ord_lt; auto.
  - apply Z.compare_gt_iff. apply ymd2ord_lt; auto.
Qed.

(** The month and the day of the month of day [n] of a year, counted from
    0: the last step of [ord2ymd]. *)
Definition month_day (n : Z) (leapyear : bool) : Z * Z :=
  let month := Z.shiftr (n + 50) 5 in
  let preceding :=
    tbl DAYS_BEFORE_MONTH month + b2z ((2 <? month) && leapyear) in
  if n <? preceding then
    let month := month - 1 in
    let preceding :=
      preceding - (tbl DAYS_IN_MONTH month + b2z ((month =? 2) && leapyear)) in
    (month, n - preceding + 1)
  else (month, n - preceding + 1).

Definition month_day_ok (leap : bool) (n : Z) : bool :=
  let '(m, d) := month_day n leap in
  (1 <=? m) && (m <=? 12) && (1 <=? d) && (d <=? dim leap m)
  && (dbm leap m + d =? n + 1).

Lemma month_day_table :
  forall leap,
    forallb (fun k => month_day_ok leap (Z.of_nat k)) (seq 0 365) = true.
Proof. intros [|]; vm_compute; reflexivity. Qed.

Lemma month_day_spec :
  forall leap n,
    0 <= n < 365 ->
    let '(m, d) := month_day n leap in
    1 <= m <= 12 /\ 1 <= d <= dim leap m /\ dbm leap m + d = n + 1.
Proof.
  intros leap n Hn.
  pose proof (month_day_table leap) as T.
  rewrite forallb_forall in T.
  specialize (T (Z.to_nat n)).
  rewrite Z2Nat.id in T by lia.
  assert (Hin : In (Z.to_nat n) (seq 0 365)) by (apply in_seq; lia).
  specialize (T Hin). unfold month_day_ok in T.
  destruct (month_day n leap) as [m d].
  repeat (apply andb_prop in T; destruct T as [T ?]).
  repeat match goal with
         | H : (_ <=? _) = true |- _ => apply Z.leb_le in H
         | H : (_ =? _) = true |- _ => apply Z.eqb_eq in H
         end.
  lia.
Qed.

(** [ord2ymd], with its last step named. *)
Lemma ord2ymd_unfold :
  forall n,
    ord2ymd n =
    let n0 := n - 1 in
    let a := n0 / 146097 in
    let r400 := n0 mod 146097 in
    let b := r400 / 36524 in
    let r100 := r400 mod 36524 in
    let c := r100 / 1461 in
    let r4 := r100 mod 1461 in
    let e := r4 / 365 in
    let r1 := r4 mod 365 in
    let year := a * 400 + 1 + b * 100 + c * 4 + e in
    if (e =? 4) || (b =? 4) then (year - 1, 12, 31)
    else
      let '(m, d) := month_day r1 ((e =? 3) && (negb (c =? 24) || (b =? 3))) in
      (year, m, d).
Proof.
  intros n. unfold ord2ymd, month_day, DI400Y, DI100Y, DI4Y. cbv zeta.
  destruct (_ || _); [reflexivity |].
  destruct (_ <? _); reflexivity.
Qed.

(** The leap years, by the position in the 400-year cycle. *)
Lemma is_leap_cycle :
  forall a b c e,
    0 <= b <= 3 -> 0 <= c <= 24 -> 0 <= e <= 3 ->
    is_leap (a * 400 + 1 + b * 100 + c * 4 + e)
    = (e =? 3) && (negb (c =? 24) || (b =? 3)).
Proof.
  intros a b c e Hb Hc He.
  destruct (is_leap _) eqn:L.
  - apply is_leap_cases in L. symmetry.
    destruct (Z.eqb_spec e 3), (Z.eqb_spec c 24), (Z.eqb_spec b 3);
      simpl; try reflexivity; exfalso; Z.div_mod_to_equations; lia.
  - assert (N : ~ ((a * 400 + 1 + b * 100 + c * 4 + e) mod 4 = 0
                   /\ ((a * 400 + 1 + b * 100 + c * 4 + e) mod 100 <> 0
                       \/ (a * 400 + 1 + b * 100 + c * 4 + e) mod 400 = 0))).
    { intro N. apply is_leap_cases in N. congruence. }
    symmetry.
    destruct (Z.eqb_spec e 3), (Z.eqb_spec c 24), (Z.eqb_spec b 3);
      simpl; try reflexivity; exfalso; apply N; Z.div_mod_to_equations; lia.
Qed.

Lemma days_before_year_cycle :
  forall a b c e,
    0 <= b <= 3 -> 0 <= c <= 24 -> 0 <= e <= 3 ->
    days_before_year (a * 400 + 1 + b * 100 + c * 4 + e)
    = a * 146097 + b * 36524 + c * 1461 + e * 365.
Proof.
  intros a b c e Hb Hc He. unfold days_before_year.
  Z.div_mod_to_equations. lia.
Qed.

(** The last day of a year is the day before the first of the next. *)
Lemma ymd2ord_december_31 :
  forall y, ymd2ord y 12 31 = days_before_year (y + 1).
Proof.
  intros y. rewrite days_before_year_succ.
  unfold ymd2ord. rewrite days_before_month_dbm.
  destruct (is_leap y); eval_tables; lia.
Qed.

Lemma december_31_valid : forall y, valid_date y 12 31.
Proof.
  intros y. unfold valid_date. rewrite days_in_month_dim.
  destruct (is_leap y); eval_tables; lia.
Qed.

(** [ord2ymd] yields a valid date, the one whose ordinal is [n]. *)
Lemma ord2ymd_spec :
  forall n,
    let '(y, m, d) := ord2ymd n in
    valid_date y m d /\ ymd2ord y m d = n.
Proof.
  intros n. rewrite ord2ymd_unfold. cbv zeta.
  pose proof (Z.mod_pos_bound (n - 1) 146097 ltac:(lia)) as B400.
  pose proof (Z.div_mod (n - 1) 146097 ltac:(lia)) as E400.
  set (a := (n - 1) / 146097) in *.
  set (r400 := (n - 1) mod 146097) in *.
  pose proof (Z.mod_pos_bound r400 36524 ltac:(lia)) as B100.
  pose proof (Z.div_mod r400 36524 ltac:(lia)) as E100.
  set (b := r400 / 36524) in *.
  set (r100 := r400 mod 36524) in *.
  pose proof (Z.mod_pos_bound r100 1461 ltac:(lia)) as B4.
  pose proof (Z.div_mod r100 1461 ltac:(lia)) as E4.
  set (c := r100 / 1461) in *.
  set (r4 := r100 mod 1461) in *.
  pose proof (Z.mod_pos_bound r4 365 ltac:(lia)) as B1.
  pose proof (Z.div_mod r4 365 ltac:(lia)) as E1.
  set (e := r4 / 365) in *.
  set (r1 := r4 mod 365) in *.
  clearbody a r400 b r100 c r4 e r1.
  assert (Hb : 0 <= b <= 4) by lia.
  assert (Hc : 0 <= c <= 24) by lia.
  assert (He : 0 <= e <= 4) by lia.
  destruct (Z.eqb_spec e 4) as [E | E]; simpl orb.
  - (* 31 December, end of a 4-year cycle *)
    split; [apply december_31_valid |].
    rewrite ymd2ord_december_31.
    replace (a * 400 + 1 + b * 100 + c * 4 + e - 1 + 1)
      with (a * 400 + 1 + b * 100 + (c + 1) * 4 + 0) by lia.
    rewrite days_before_year_cycle; lia.
  - destruct (Z.eqb_spec b 4) as [B | B].
    + (* 31 December, end of a 400-year cycle *)
      split; [apply december_31_valid |].
      rewrite ymd2ord_december_31.
      replace (a * 400 + 1 + b * 100 + c * 4 + e - 1 + 1)
        with ((a + 1) * 400 + 1 + 0 * 100 + 0 * 4 + 0) by lia.
      rewrite days_before_year_cycle; lia.
    + rewrite <- (is_leap_cycle a b c e) by lia.
      set (y := a * 400 + 1 + b * 100 + c * 4 + e).
      pose proof (month_day_spec (is_leap y) r1 B1) as M.
      destruct (month_day r1 (is_leap y)) as [m d].
      destruct M as (Hm & Hd & Hdoy).
      split; [split; [exact Hm | rewrite days_in_month_dim; exact Hd] |].
      unfold ymd2ord. rewrite days_before_month_dbm.
      unfold y at 1. rewrite days_before_year_cycle by lia. lia.
Qed.

(** ** Datetimes on the time line *)

Record valid_fields (d : datetime) : Prop := {
  vf_year : 1 <= dt_year d <= 9999;
  vf_date : valid_date (dt_year d) (dt_month d) (dt_day d);
  vf_hour : 0 <= dt_hour d <= 23;
  vf_minute : 0 <= dt_minute d <= 59;
  vf_second : 0 <= dt_second d <= 59;
  vf_microsecond : 0 <= dt_microsecond d <= 999999;
  vf_tzinfo : forall off, dt_tzinfo d = Some off -> - DAY_US < off < DAY_US
}.

Lemma valid_datetime_fields :
  forall d, valid_datetime d = true <-> valid_fields d.
Proof.
  intros d.
  unfold valid_datetime, check_date_fields, check_time_fields, check_tzinfo,
    MINYEAR, MAXYEAR.
  split.
  - intro H.
    destruct (dt_tzinfo d) as [o |] eqn:Etz;
      repeat match goal with
             | H : (_ && _) = true |- _ => apply andb_prop in H; destruct H
             | H : (_ <=? _) = true |- _ => apply Z.leb_le in H
             | H : (_ <? _) = true |- _ => apply Z.ltb_lt in H
             end;
      (split; try (unfold valid_date; lia));
      intros off E; rewrite Etz in E; inversion E; subst; lia.
  - intros [Hy [Hm Hd] Hh Hmi Hs Hus Htz].
    repeat (apply andb_true_intro; split);
      try (apply Z.leb_le; lia).
    destruct (dt_tzinfo d) as [off |]; [| reflexivity].
    specialize (Htz off eq_refl).
    apply andb_true_intro; split; apply Z.ltb_lt; lia.
Qed.







Lemma january_1_valid : forall y, valid_date y 1 1.
Proof.
  intros y. unfold valid_date. rewrite days_in_month_dim.
  destruct (is_leap y); eval_tables; lia.
Qed.

(** The years of the calendar are those of the ordinals 1 to
    [MAXORDINAL]. *)
Lemma ymd2ord_year_bounds :
  forall y m d,
    valid_date y m d ->
    1 <= ymd2ord y m d <= MAXORDINAL -> 1 <= y <= 9999.
Proof.
  intros y m d V H.
  assert (V1 : valid_date 1 1 1) by apply january_1_valid.
  assert (V9 : valid_date 9999 12 31) by apply december_31_valid.
  change MAXORDINAL with (ymd2ord 9999 12 31) in H.
  change 1 with (ymd2ord 1 1 1) in H at 1.
  destruct (Z.lt_ge_cases y 1) as [Lo | Lo].
  - pose proof (ymd2ord_lt y m d 1 1 1 V V1 ltac:(lia)). lia.
  - destruct (Z.lt_ge_cases 9999 y) as [Hi | Hi]; [| lia].
    pose proof (ymd2ord_lt 9999 12 31 y m d V9 V ltac:(lia)). lia.
Qed.

(** [d + timedelta(days=k)] within the calendar: the ordinal moves by [k],
    the time of day and the offset stay. *)
Lemma add_days_spec :
  forall d k,
    valid_fields d ->
    1 <= toordinal d + k <= MAXORDINAL ->
    exists d',
      add_days d k = Return d'
      /\ valid_fields d'
      /\ toordinal d' = toordinal d + k
      /\ time_of_day d' = time_of_day d
      /\ dt_tzinfo d' = dt_tzinfo d.
Proof.
  intros d k V H.
  assert (Hd : 1 <= toordinal d <= MAXORDINAL).
  { destruct V as [Hy Hdate _ _ _ _ _].
    assert (V1 : valid_date 1 1 1) by apply january_1_valid.
    assert (V9 : valid_date 9999 12 31) by apply december_31_valid.
    change MAXORDINAL with (ymd2ord 9999 12 31).
    change 1 with (ymd2ord 1 1 1) at 1. unfold toordinal.
    split.
    - destruct (Z.eq_dec (dt_year d) 1) as [E | E].
      + rewrite E in *. destruct Hdate as [Hm Hdd].
        unfold ymd2ord. rewrite !days_before_month_dbm.
        rewrite days_in_month_dim in Hdd.
        pose proof (day_of_year_bounds _ _ _ Hm Hdd).
        change (dbm (is_leap 1) 1) with 0. lia.
      + pose proof (ymd2ord_lt 1 1 1 _ _ _ V1 Hdate ltac:(lia)). lia.
    - destruct (Z.eq_dec (dt_year d) 9999) as [E | E].
      + rewrite E in *. destruct Hdate as [Hm Hdd].
        unfold ymd2ord. rewrite !days_before_month_dbm.
        rewrite days_in_month_dim in Hdd.
        pose proof (day_of_year_bounds _ _ _ Hm Hdd).
        change (dbm (is_leap 9999) 12) with 334.
        change (b2z (is_leap 9999)) with 0 in *. lia.
      + pose proof (ymd2ord_lt _ _ _ 9999 12 31 Hdate V9 ltac:(lia)). lia. }
  unfold add_days. unfold MAXORDINAL in *.
  destruct (Z.ltb_spec k (-999999999)); [lia |].
  destruct (Z.ltb_spec 999999999 k); [lia |].
  cbn [orb].
  destruct (Z.ltb_spec 0 (toordinal d + k)); [| lia].
  destruct (Z.leb_spec (toordinal d + k) 3652059); [| lia].
  cbn [andb].
  pose proof (ord2ymd_spec (toordinal d + k)) as S.
  destruct (ord2ymd (toordinal d + k)) as [[y m] dd].
  destruct S as [Vd E].
  eexists. split; [reflexivity |].
  destruct V as [Hy Hdate Hh Hmi Hs Hus Htz].
  split; [| split; [exact E | split; reflexivity]].
  split; cbn; try assumption.
  apply (ymd2ord_year_bounds y m dd Vd). rewrite E. unfold MAXORDINAL. lia.
Qed.

(** ** [is_in_festival_period] *)

Section FestivalPeriod.

Variables (festival_date : datetime) (duration : Z).
Hypothesis festival_valid : valid_fields festival_date.
Hypothesis duration_nonneg : 0 <= duration.
Hypothesis end_in_calendar : toordinal festival_date + duration <= MAXORDINAL.




End FestivalPeriod.



(** ** Formatting a date and parsing it back *)

Lemma digit_cases :
  forall k,
    0 <= k <= 9 ->
    k = 0 \/ k = 1 \/ k = 2 \/ k = 3 \/ k = 4 \/ k = 5 \/ k = 6 \/ k = 7
    \/ k = 8 \/ k = 9.
Proof. intros k H. lia. Qed.

(** A decimal digit is a digit character, is worth itself, and is none of
    the characters the parser branches on. *)
Lemma digit_char_spec :
  forall k,
    0 <= k <= 9 ->
    is_digit (digit_char k) = true
    /\ digit_val (digit_char k) = k
    /\ Ascii.eqb (digit_char k) "-" = false
    /\ Ascii.eqb (digit_char k) "W" = false
    /\ Ascii.eqb (digit_char k) "Z" = false.
Proof.
  intros k H.
  destruct (digit_cases k H)
    as [-> | [-> | [-> | [-> | [-> | [-> | [-> | [-> | [-> | ->]]]]]]]]];
    repeat split; reflexivity.
Qed.

(** The date [c0 c1 c2 c3 - c4 c5 - c6 c7]. *)
Definition date_string (c0 c1 c2 c3 c4 c5 c6 c7 : ascii) : string :=
  String c0 (String c1 (String c2 (String c3 (String "-"
    (String c4 (String c5 (String "-"
      (String c6 (String c7 EmptyString))))))))).

Definition dec2 (a b : ascii) : Z := (0 * 10 + digit_val a) * 10 + digit_val b.

Definition dec4 (a b c d : ascii) : Z :=
  (((0 * 10 + digit_val a) * 10 + digit_val b) * 10 + digit_val c) * 10
  + digit_val d.

(** A digit character is not one of the characters the parser branches
    on. *)
Lemma is_digit_not_special :
  forall c,
    is_digit c = true ->
    Ascii.eqb c "-" = false /\ Ascii.eqb c "W" = false
    /\ Ascii.eqb c "Z" = false.
Proof.
  intros [[|] [|] [|] [|] [|] [|] [|] [|]] H;
    try discriminate H; repeat split; reflexivity.
Qed.

Section DateString.

Variables c0 c1 c2 c3 c4 c5 c6 c7 : ascii.
Hypothesis H0 : is_digit c0 = true.
Hypothesis H1 : is_digit c1 = true.
Hypothesis H2 : is_digit c2 = true.
Hypothesis H3 : is_digit c3 = true.
Hypothesis H4 : is_digit c4 = true.
Hypothesis H5 : is_digit c5 = true.
Hypothesis H6 : is_digit c6 = true.
Hypothesis H7 : is_digit c7 = true.

Let s : string := date_string c0 c1 c2 c3 c4 c5 c6 c7.

Lemma date_string_separator :
  find_isoformat_datetime_separator s 10 = Some 10%nat.
Proof.
  destruct (is_digit_not_special c4 H4) as (_ & W4 & _).
  unfold find_isoformat_datetime_separator.
  change (peek s 4) with "-"%char. change (peek s 5) with c4.
  now rewrite W4.
Qed.

Lemma date_string_year :
  digits_or_raise s 0 0 4 = Return (dec4 c0 c1 c2 c3, 4%nat).
Proof.
  unfold digits_or_raise, parse_digits.
  change (peek s 0) with c0. change (peek s 1) with c1.
  change (peek s 2) with c2. change (peek s 3) with c3.
  now rewrite H0, H1, H2, H3.
Qed.

Lemma date_string_month :
  digits_or_raise s 5 0 2 = Return (dec2 c4 c5, 7%nat).
Proof.
  unfold digits_or_raise, parse_digits.
  change (peek s 5) with c4. change (peek s 6) with c5.
  now rewrite H4, H5.
Qed.

Lemma date_string_day :
  digits_or_raise s 8 0 2 = Return (dec2 c6 c7, 10%nat).
Proof.
  unfold digits_or_raise, parse_digits.
  change (peek s 8) with c6. change (peek s 9) with c7.
  now rewrite H6, H7.
Qed.

Lemma date_string_date :
  parse_isoformat_date s 10
  = Return (dec4 c0 c1 c2 c3, dec2 c4 c5, dec2 c6 c7).
Proof.
  destruct (is_digit_not_special c4 H4) as (_ & W4 & _).
  unfold parse_isoformat_date.
  rewrite date_string_year. cbn [bind].
  change (peek s 4) with "-"%char.
  change (Ascii.eqb "-" "-") with true. cbv iota.
  change (peek s 5) with c4. rewrite W4.
  rewrite date_string_month. cbn [bind].
  change (peek s 7) with "-"%char.
  change (Ascii.eqb "-" "-") with true. cbn [andb negb].
  rewrite date_string_day. reflexivity.
Qed.

(** [fromisoformat] on [YYYY-MM-DD] reads the three numbers and builds
    the date at midnight. *)
Lemma fromisoformat_date_string :
  fromisoformat s
  = new_datetime (dec4 c0 c1 c2 c3) (dec2 c4 c5) (dec2 c6 c7) 0 0 0 0 None.
Proof.
  unfold fromisoformat.
  change (String.length s) with 10%nat.
  change (10 <? 7)%nat with false. cbv iota.
  rewrite date_string_separator, date_string_date. cbn [bind].
  reflexivity.
Qed.

(** No character of the date is a [Z]. *)
Lemma date_string_replace : replace_char "Z" "+00:00" s = s.
Proof.
  destruct (is_digit_not_special c0 H0) as (_ & _ & Z0).
  destruct (is_digit_not_special c1 H1) as (_ & _ & Z1).
  destruct (is_digit_not_special c2 H2) as (_ & _ & Z2).
  destruct (is_digit_not_special c3 H3) as (_ & _ & Z3).
  destruct (is_digit_not_special c4 H4) as (_ & _ & Z4).
  destruct (is_digit_not_special c5 H5) as (_ & _ & Z5).
  destruct (is_digit_not_special c6 H6) as (_ & _ & Z6).
  destruct (is_digit_not_special c7 H7) as (_ & _ & Z7).
  unfold s, date_string. cbn [replace_char].
  change (Ascii.eqb "-" "Z") with false.
  now rewrite Z0, Z1, Z2, Z3, Z4, Z5, Z6, Z7.
Qed.

End DateString.

(** From 1000 on, the C library and Python agree on the year: it has its
    four digits. *)
Lemma str_of_int_table :
  forallb (fun k => String.eqb (str_of_int (Z.of_nat k)) (pad4 (Z.of_nat k)))
          (seq 1000 (9 * 1000)) = true.
Proof. vm_compute. reflexivity. Qed.

Lemma str_of_int_pad4 :
  forall y, 1000 <= y <= 9999 -> str_of_int y = pad4 y.
Proof.
  intros y Hy. pose proof str_of_int_table as T.
  rewrite forallb_forall in T.
  specialize (T (Z.to_nat y)). rewrite Z2Nat.id in T by lia.
  apply String.eqb_eq. apply T. apply in_seq. lia.
Qed.

Lemma dec2_digits :
  forall n,
    0 <= n <= 99 ->
    is_digit (digit_char (n / 10)) = true
    /\ is_digit (digit_char (n mod 10)) = true
    /\ dec2 (digit_char (n / 10)) (digit_char (n mod 10)) = n.
Proof.
  intros n Hn.
  assert (Ha : 0 <= n / 10 <= 9) by (Z.div_mod_to_equations; lia).
  assert (Hb : 0 <= n mod 10 <= 9) by (Z.div_mod_to_equations; lia).
  destruct (digit_char_spec _ Ha) as (Da & Va & _).
  destruct (digit_char_spec _ Hb) as (Db & Vb & _).
  repeat split; try assumption.
  unfold dec2. rewrite Va, Vb. Z.div_mod_to_equations. lia.
Qed.

(** A valid date from the year 1000 on, written by
    [strftime("%Y-%m-%d")], parses back to itself at midnight. *)
Lemma fromisoformat_strftime :
  forall d,
    valid_fields d -> 1000 <= dt_year d ->
    fromisoformat (strftime_Ymd d)
    = Return (mkdatetime (dt_year d) (dt_month d) (dt_day d) 0 0 0 0 None)
    /\ is_valid_date_string (VStr (strftime_Ymd d)) = Return true.
Proof.
  intros d V Hy.
  destruct V as [Hyear [Hm Hd] Hh Hmi Hs Hus Htz].
  assert (Hdim : days_in_month (dt_year d) (dt_month d) <= 31).
  { rewrite days_in_month_dim. revert Hm. generalize (dt_month d) as m.
    intros m Hm. each_month m Hm; destruct (is_leap (dt_year d));
      eval_tables; lia. }
  set (y := dt_year d) in *. set (m := dt_month d) in *.
  set (dd := dt_day d) in *.
  assert (Hhi : 0 <= y / 100 <= 99) by (Z.div_mod_to_equations; lia).
  assert (Hlo : 0 <= y mod 100 <= 99) by (Z.div_mod_to_equations; lia).
  destruct (dec2_digits (y / 100) Hhi) as (Y0 & Y1 & Yhi).
  destruct (dec2_digits (y mod 100) Hlo) as (Y2 & Y3 & Ylo).
  destruct (dec2_digits m ltac:(lia)) as (M0 & M1 & Mv).
  destruct (dec2_digits dd ltac:(lia)) as (D0 & D1 & Dv).
  assert (Hs4 :
    strftime_Ymd d
    = date_string (digit_char (y / 100 / 10)) (digit_char ((y / 100) mod 10))
        (digit_char (y mod 100 / 10)) (digit_char ((y mod 100) mod 10))
        (digit_char (m / 10)) (digit_char (m mod 10))
        (digit_char (dd / 10)) (digit_char (dd mod 10))).
  { unfold strftime_Ymd. fold y m dd. rewrite str_of_int_pad4 by lia.
    reflexivity. }
  assert (Hy4 :
    dec4 (digit_char (y / 100 / 10)) (digit_char ((y / 100) mod 10))
         (digit_char (y mod 100 / 10)) (digit_char ((y mod 100) mod 10)) = y).
  { unfold dec4, dec2 in *. Z.div_mod_to_equations. lia. }
  assert (Hparse :
    fromisoformat (strftime_Ymd d)
    = Return (mkdatetime y m dd 0 0 0 0 None)).
  { rewrite Hs4, fromisoformat_date_string by assumption.
    rewrite Hy4, Mv, Dv. unfold new_datetime.
    assert (Hv : valid_datetime (mkdatetime y m dd 0 0 0 0 None) = true).
    { apply valid_datetime_fields. split; cbn; try lia.
      - split; assumption.
      - discriminate. }
    now rewrite Hv. }
  split; [exact Hparse |].
  rewrite is_valid_date_string_total.
  rewrite Hs4, date_string_replace by assumption.
  rewrite <- Hs4, Hparse. reflexivity.
Qed.

(** ** [sales_record_strategy] *)

Lemma toordinal_bounds :
  forall d, valid_fields d -> 1 <= toordinal d <= MAXORDINAL.
Proof.
  intros d V. destruct V as [Hy Hdate _ _ _ _ _]. unfold toordinal.
  pose proof (january_1_valid 1) as V1.
  pose proof (december_31_valid 9999) as V9.
  change MAXORDINAL with (ymd2ord 9999 12 31).
  change 1 with (ymd2ord 1 1 1) at 1.
  assert (B : 1 <= dbm (is_leap (dt_year d)) (dt_month d) + dt_day d
              <= 365 + b2z (is_leap (dt_year d))).
  { destruct Hdate as [Hm Hdd]. rewrite days_in_month_dim in Hdd.
    exact (day_of_year_bounds _ _ _ Hm Hdd). }
  split.
  - destruct (Z.eq_dec (dt_year d) 1) as [E | E].
    + rewrite E in *. unfold ymd2ord. rewrite !days_before_month_dbm.
      change (dbm (is_leap 1) 1) with 0. lia.
    + pose proof (ymd2ord_lt 1 1 1 _ _ _ V1 Hdate ltac:(lia)). lia.
  - destruct (Z.eq_dec (dt_year d) 9999) as [E | E].
    + rewrite E in *. unfold ymd2ord. rewrite !days_before_month_dbm.
      change (dbm (is_leap 9999) 12) with 334.
      change (b2z (is_leap 9999)) with 0 in *. lia.
    + pose proof (ymd2ord_lt _ _ _ 9999 12 31 Hdate V9 ltac:(lia)). lia.
Qed.

(** A datetime of the year [y0] or later is not before its first day. *)
Lemma toordinal_from_year :
  forall d y0,
    valid_fields d -> y0 <= dt_year d -> ymd2ord y0 1 1 <= toordinal d.
Proof.
  intros d y0 V Hy. destruct V as [_ Hdate _ _ _ _ _]. unfold toordinal.
  destruct (Z.eq_dec (dt_year d) y0) as [E | E].
  - destruct Hdate as [Hm Hdd]. rewrite days_in_month_dim in Hdd.
    pose proof (day_of_year_bounds _ _ _ Hm Hdd) as B.
    rewrite E in *. unfold ymd2ord. rewrite !days_before_month_dbm.
    replace (dbm (is_leap y0) 1) with 0
      by (destruct (is_leap y0); reflexivity).
    lia.
  - pose proof (ymd2ord_lt y0 1 1 _ _ _ (january_1_valid y0) Hdate
                  ltac:(lia)).
    lia.
Qed.

(** A valid datetime that is not before the first day of the year [y0] is
    of the year [y0] or later. *)
Lemma year_from_toordinal :
  forall d y0,
    valid_fields d -> ymd2ord y0 1 1 <= toordinal d -> y0 <= dt_year d.
Proof.
  intros d y0 V H. destruct V as [_ Hdate _ _ _ _ _]. unfold toordinal in H.
  destruct (Z.lt_ge_cases (dt_year d) y0) as [L | L]; [| exact L].
  pose proof (ymd2ord_lt _ _ _ y0 1 1 Hdate (january_1_valid y0) ltac:(lia)).
  lia.
Qed.

(** Up to two years before a clock of the year 1002 or later the year has
    four digits. *)
Lemma sub_days_recent :
  forall now days_ago date,
    valid_fields now -> 1002 <= dt_year now -> 0 <= days_ago <= 730 ->
    sub_days now days_ago = Return date ->
    valid_fields date /\ 1000 <= dt_year date
    /\ toordinal date = toordinal now - days_ago.
Proof.
  intros now days_ago date V Hy Hk Hsub.
  pose proof (toordinal_bounds now V) as B.
  pose proof (toordinal_from_year now 1002 V Hy) as L.
  change (ymd2ord 1002 1 1) with (ymd2ord 1000 1 1 + 730) in L.
  assert (L0 : 1 <= ymd2ord 1000 1 1) by (vm_compute; discriminate).
  unfold sub_days in Hsub.
  destruct (Z.ltb_spec days_ago (-999999999)); [lia |].
  destruct (Z.ltb_spec 999999999 days_ago); [lia |].
  cbn [orb] in Hsub.
  destruct (add_days_spec now (- days_ago) V ltac:(lia))
    as (d' & Hadd & V' & Hord & _).
  rewrite Hadd in Hsub. injection Hsub as <-.
  split; [exact V' | split; [| lia]].
  apply (year_from_toordinal d' 1000 V'). lia.
Qed.

(** C6: whatever the draws, a record [sales_record_strategy] produces has a
    quantity that is an integer of at least 1 and a date that parses as an
    ISO 8601 date; [integers] stands for [st.integers], which draws within
    its bounds, and the clock reads a date of the year 1002 or later. *)
Theorem sales_record_strategy_valid :
  forall Choices integers text sampled_from floats now c record c',
    (forall lo hi c v c',
        lo <= hi -> integers lo hi c = Return (v, c') -> lo <= v <= hi) ->
    valid_datetime now = true ->
    1002 <= dt_year now ->
    sales_record_strategy Choices integers text sampled_from floats now c
    = Return (record, c') ->
    (exists quantity,
        dict_get record "quantity" = Some (VInt quantity) /\ 1 <= quantity)
    /\ (exists date,
          dict_get record "date" = Some (VStr date)
          /\ is_return (fromisoformat date) = true
          /\ is_valid_date_string (VStr date) = Return true).
Proof.
  intros Choices integers text sampled_from floats now c record c'
    Hint Vnow Hy Hrun.
  apply valid_datetime_fields in Vnow.
  unfold sales_record_strategy, draw in Hrun.
  destruct (integers 0 730 c) as [[days_ago c1] | e] eqn:Edays;
    [| discriminate].
  pose proof (Hint 0 730 c days_ago c1 ltac:(lia) Edays) as Hdays.
  unfold lift in Hrun.
  destruct (sub_days now days_ago) as [date | e] eqn:Esub; [| discriminate].
  destruct (text _ 5%nat 10%nat c1) as [[sku c2] | e]; [| discriminate].
  destruct (integers 1 1000 c2) as [[quantity c3] | e] eqn:Eq;
    [| discriminate].
  pose proof (Hint 1 1000 c2 quantity c3 ltac:(lia) Eq) as Hq.
  destruct (sampled_from _ c3) as [[category c4] | e]; [| discriminate].
  destruct (floats _ _ _ _ c4) as [[price c5] | e]; [| discriminate].
  unfold ret in Hrun. injection Hrun as <- <-.
  destruct (sub_days_recent now days_ago date Vnow Hy Hdays Esub)
    as (Vdate & Hyear & _).
  destruct (fromisoformat_strftime date Vdate Hyear) as [Hparse Hvalid].
  split.
  - exists quantity. split; [reflexivity | lia].
  - exists (strftime_Ymd date). split; [reflexivity |].
    split; [now rewrite Hparse | exact Hvalid].
Qed.

Lemma sample_integers_in_range :
  forall lo hi c v c',
    lo <= hi -> Sample.integers lo hi c = Return (v, c') -> lo <= v <= hi.
Proof.
  intros lo hi c v c' H E. unfold Sample.integers in E.
  destruct (Sample.next c) as [n c1]. injection E as <- <-.
  pose proof (Z.mod_pos_bound n (hi - lo + 1) ltac:(lia)). lia.
Qed.

Lemma sales_record_strategy_valid_witness :
  exists record c',
    sales_record_strategy Sample.Choices Sample.integers Sample.text
      Sample.sampled_from Sample.floats Sample.clock [10; 41; 2]
    = Return (record, c')
    /\ (exists quantity,
          dict_get record "quantity" = Some (VInt quantity) /\ 1 <= quantity)
    /\ (exists date,
          dict_get record "date" = Some (VStr date)
          /\ is_return (fromisoformat date) = true
          /\ is_valid_date_string (VStr date) = Return true).
Proof.
  eexists. eexists. split; [vm_compute; reflexivity |].
  eapply (sales_record_strategy_valid Sample.Choices Sample.integers
            Sample.text Sample.sampled_from Sample.floats Sample.clock
            [10; 41; 2]).
  - exact sample_integers_in_range.
  - reflexivity.
  - vm_compute. discriminate.
  - vm_compute. reflexivity.
Defined.

(** * Further properties of the helpers *)

(** ** [generate_date_range] *)

(** A comprehension over [range(n)] whose body returns at every index
    returns the list of the values, in order. *)
Lemma for_range_returns :
  forall (A : Type) (f : Z -> result A) (g : Z -> A) n start,
    (forall i, start <= i < start + Z.of_nat n -> f i = Return (g i)) ->
    for_range f start n
    = Return (map (fun k => g (start + Z.of_nat k)) (seq 0 n)).
Proof.
  intros A f g n. induction n as [| n IH]; intros start H.
  - reflexivity.
  - cbn [for_range]. rewrite (H start) by lia. cbn [bind].
    rewrite (IH (start + 1)) by (intros i Hi; apply H; lia).
    cbn [bind seq map]. rewrite Z.add_0_r. do 2 f_equal.
    rewrite <- seq_shift, map_map.
    apply map_ext. intros k. f_equal. lia.
Qed.

(** A comprehension over [range(n)] raises what its body raises at the
    first index where it fails. *)
Lemma for_range_raises :
  forall (A : Type) (f : Z -> result A) (e : exn) n start j,
    start <= j < start + Z.of_nat n ->
    (forall i, start <= i < j -> exists x, f i = Return x) ->
    f j = Raise e ->
    for_range f start n = Raise e.
Proof.
  intros A f e n. induction n as [| n IH]; intros start j Hj Hbefore Hfail.
  - lia.
  - cbn [for_range].
    destruct (Z.eq_dec start j) as [-> | N].
    + now rewrite Hfail.
    + destruct (Hbefore start ltac:(lia)) as [x Hx]. rewrite Hx. cbn [bind].
      rewrite (IH (start + 1) j) by
        (try lia; try assumption; intros i Hi; apply Hbefore; lia).
      reflexivity.
Qed.

(** The day [i] days after [start], as [add_days] computes it. *)
Definition day_after (start : datetime) (i : Z) : datetime :=
  match add_days start i with
  | Return d => d
  | Raise _ => start
  end.

Lemma generate_date_range_returns :
  forall start days,
    valid_fields start ->
    0 <= days ->
    toordinal start + days - 1 <= MAXORDINAL ->
    exists dates,
      generate_date_range start days = Return dates
      /\ Z.of_nat (List.length dates) = days
      /\ forall i,
           0 <= i < days ->
           exists d,
             add_days start i = Return d
             /\ valid_fields d
             /\ toordinal d = toordinal start + i
             /\ nth (Z.to_nat i) dates "" = strftime_Ymd d.
Proof.
  intros start days V Hdays Hend.
  pose proof (toordinal_bounds start V) as B.
  assert (Hday : forall i,
             0 <= i < 0 + Z.of_nat (Z.to_nat days) ->
             (d <- add_days start i ;; Return (strftime_Ymd d))
             = Return (strftime_Ymd (day_after start i))).
  { intros i Hi. unfold day_after.
    destruct (add_days_spec start i V ltac:(lia)) as (d & Hd & _).
    now rewrite Hd. }
  unfold generate_date_range.
  rewrite (for_range_returns _ _ _ _ _ Hday).
  eexists. split; [reflexivity | split].
  - rewrite length_map, length_seq. lia.
  - intros i Hi.
    set (g := fun k : nat => strftime_Ymd (day_after start (0 + Z.of_nat k))).
    assert (Hnth : nth (Z.to_nat i) (map g (seq 0 (Z.to_nat days))) ""
                   = strftime_Ymd (day_after start i)).
    { rewrite (nth_indep _ "" (g 0%nat))
        by (rewrite length_map, length_seq; lia).
      rewrite (map_nth g), seq_nth by lia.
      unfold g. do 2 f_equal. lia. }
    rewrite Hnth. unfold day_after.
    destruct (add_days_spec start i V ltac:(lia))
      as (d & Hd & Vd & Hord & _).
    rewrite Hd. now exists d.
Qed.

(** X1: for a start date from the year 1000 on and a range that stays
    within the calendar, [generate_date_range(start, days)] returns [days]
    strings; the string at index [i] is the date [i] days after [start],
    it parses with [datetime.fromisoformat], and the parsed date is day
    [toordinal(start) + i], so the dates are consecutive days. *)
Theorem generate_date_range_days :
  forall start days,
    valid_datetime start = true ->
    1000 <= dt_year start ->
    0 <= days ->
    toordinal start + days - 1 <= MAXORDINAL ->
    exists dates,
      generate_date_range start days = Return dates
      /\ Z.of_nat (List.length dates) = days
      /\ forall i,
           0 <= i < days ->
           exists parsed,
             fromisoformat (nth (Z.to_nat i) dates "") = Return parsed
             /\ toordinal parsed = toordinal start + i
             /\ is_valid_date_string (VStr (nth (Z.to_nat i) dates ""))
                = Return true.
Proof.
  intros start days V Hy Hdays Hend.
  apply valid_datetime_fields in V.
  destruct (generate_date_range_returns start days V Hdays Hend)
    as (dates & Hrun & Hlen & Hnth).
  exists dates. split; [exact Hrun | split; [exact Hlen |]].
  intros i Hi. destruct (Hnth i Hi) as (d & _ & Vd & Hord & ->).
  assert (Hyd : 1000 <= dt_year d).
  { apply (year_from_toordinal d 1000 Vd).
    pose proof (toordinal_from_year start 1000 V Hy). lia. }
  destruct (fromisoformat_strftime d Vd Hyd) as [Hparse Hvalid].
  eexists. split; [exact Hparse | split; [| exact Hvalid]].
  exact Hord.
Qed.

Lemma generate_date_range_days_witness :
  exists dates,
    generate_date_range (mkdatetime 2023 12 30 8 0 0 0 None) 4 = Return dates
    /\ Z.of_nat (List.length dates) = 4
    /\ nth 3 dates "" = "2024-01-02".
Proof.
  destruct (generate_date_range_days (mkdatetime 2023 12 30 8 0 0 0 None) 4
              eq_refl ltac:(vm_compute; discriminate) ltac:(lia)
              ltac:(vm_compute; discriminate)) as (dates & Hrun & Hlen & _).
  exists dates. split; [exact Hrun | split; [exact Hlen |]].
  vm_compute in Hrun. injection Hrun as <-. reflexivity.
Defined.

(** X2: [generate_date_range] returns the empty list when [days] is zero
    or negative, and raises [OverflowError] when the range runs past
    9999-12-31. *)
Theorem generate_date_range_edges :
  forall start days,
    valid_datetime start = true ->
    (days <= 0 -> generate_date_range start days = Return [])
    /\ (0 < days -> MAXORDINAL < toordinal start + days - 1 ->
        generate_date_range start days = Raise OverflowError).
Proof.
  intros start days V. apply valid_datetime_fields in V.
  pose proof (toordinal_bounds start V) as B.
  split.
  - intro H. unfold generate_date_range.
    replace (Z.to_nat days) with 0%nat by lia. reflexivity.
  - intros Hpos Hover. unfold generate_date_range.
    apply (for_range_raises _ _ _ _ _ (MAXORDINAL - toordinal start + 1)).
    + lia.
    + intros i Hi.
      destruct (add_days_spec start i V ltac:(lia)) as (d & Hd & _).
      rewrite Hd. eexists. reflexivity.
    + unfold add_days.
      destruct (_ || _); [reflexivity |].
      replace (toordinal start + (MAXORDINAL - toordinal start + 1))
        with (MAXORDINAL + 1) by lia.
      reflexivity.
Qed.

Lemma generate_date_range_edges_witness :
  generate_date_range (mkdatetime 9999 12 30 0 0 0 0 None) 3
  = Raise OverflowError.
Proof.
  apply (proj2 (generate_date_range_edges
                  (mkdatetime 9999 12 30 0 0 0 0 None) 3 eq_refl)).
  - lia.
  - vm_compute. reflexivity.
Defined.

(** ** [create_csv_content] and [create_sales_csv] *)

(** [s.split(sep)] for a one-character separator: how a reader cuts the
    content into lines and a line into fields. *)
Fixpoint split_char (sep : ascii) (s : string) : list string :=
  match s with
  | EmptyString => [EmptyString]
  | String c s' =>
      if Ascii.eqb c sep then EmptyString :: split_char sep s'
      else
        match split_char sep s' with
        | [] => [String c EmptyString]
        | p :: ps => String c p :: ps
        end
  end.

(** [sep in s] *)
Fixpoint has_char (sep : ascii) (s : string) : bool :=
  match s with
  | EmptyString => false
  | String c s' => Ascii.eqb c sep || has_char sep s'
  end.

Definition comma : ascii := ascii_of_nat 44.
Definition newline : ascii := ascii_of_nat 10.

Lemma split_char_clean :
  forall sep p rest,
    has_char sep p = false ->
    split_char sep (p ++ String sep rest) = p :: split_char sep rest.
Proof.
  intros sep p rest. induction p as [| c p IH]; intro H; cbn.
  - now rewrite Ascii.eqb_refl.
  - cbn in H. apply orb_false_elim in H. destruct H as [Hc Hp].
    rewrite Hc, (IH Hp). reflexivity.
Qed.

Lemma split_char_last :
  forall sep p, has_char sep p = false -> split_char sep p = [p].
Proof.
  intros sep p. induction p as [| c p IH]; intro H; cbn.
  - reflexivity.
  - cbn in H. apply orb_false_elim in H. destruct H as [Hc Hp].
    rewrite Hc, (IH Hp). reflexivity.
Qed.

(** Joining parts that are free of the separator and splitting again
    gives the parts back. *)
Lemma split_char_join :
  forall sep parts,
    parts <> [] ->
    forallb (fun p => negb (has_char sep p)) parts = true ->
    split_char sep (join (String sep EmptyString) parts) = parts.
Proof.
  intros sep parts. induction parts as [| p ps IH]; intros Hne Hclean.
  - contradiction.
  - cbn in Hclean. apply andb_prop in Hclean. destruct Hclean as [Hp Hps].
    apply negb_true_iff in Hp.
    destruct ps as [| q ps].
    + cbn. now apply split_char_last.
    + change (join (String sep "") (p :: q :: ps))
        with (p ++ String sep (join (String sep "") (q :: ps))).
      rewrite (split_char_clean sep p _ Hp).
      f_equal. apply IH; [discriminate | exact Hps].
Qed.

(** A joined line has a newline only if one of its fields has one. *)
Lemma has_char_append :
  forall sep a b, has_char sep (a ++ b) = has_char sep a || has_char sep b.
Proof.
  intros sep a b. induction a as [| c a IH]; cbn.
  - reflexivity.
  - now rewrite IH, orb_assoc.
Qed.

Lemma has_char_join :
  forall sep parts,
    forallb (fun p => negb (has_char sep p)) parts = true ->
    has_char sep (join (String comma EmptyString) parts)
    = (has_char sep (String comma EmptyString)
       && (1 <? Z.of_nat (List.length parts))).
Proof.
  intros sep parts. induction parts as [| p ps IH]; intro H.
  - cbn. now rewrite andb_false_r.
  - cbn in H. apply andb_prop in H. destruct H as [Hp Hps].
    apply negb_true_iff in Hp.
    destruct ps as [| q ps].
    + cbn [join List.length]. rewrite Hp.
      change (1 <? Z.of_nat 1) with false. now rewrite andb_false_r.
    + change (join (String comma "") (p :: q :: ps))
        with (p ++ String comma "" ++ join (String comma "") (q :: ps)).
      rewrite !has_char_append, Hp, (IH Hps). cbn [orb].
      destruct (has_char sep (String comma "")); cbn [orb andb].
      * symmetry. apply Z.ltb_lt. cbn [List.length]. lia.
      * reflexivity.
Qed.

(** A field is clean when it has neither a comma nor a newline. *)
Definition clean_field (p : string) : bool :=
  negb (has_char comma p) && negb (has_char newline p).

Definition clean_row (row : list string) : bool :=
  match row with
  | [] => false
  | _ => forallb clean_field row
  end.

Lemma clean_row_split :
  forall row,
    clean_row row = true ->
    split_char comma (join "," row) = row
    /\ has_char newline (join "," row) = false.
Proof.
  intros row H. unfold clean_row in H.
  destruct row as [| p ps]; [discriminate |].
  assert (Hc : forallb (fun p => negb (has_char comma p)) (p :: ps) = true).
  { rewrite forallb_forall in *. intros x Hx. specialize (H x Hx).
    unfold clean_field in H. now apply andb_prop in H. }
  assert (Hn : forallb (fun p => negb (has_char newline p)) (p :: ps) = true).
  { rewrite forallb_forall in *. intros x Hx. specialize (H x Hx).
    unfold clean_field in H. now apply andb_prop in H. }
  split.
  - apply (split_char_join comma); [discriminate | exact Hc].
  - change "," with (String comma EmptyString).
    rewrite (has_char_join newline _ Hn). reflexivity.
Qed.

Lemma csv_reads_back :
  forall headers rows,
    clean_row headers = true ->
    forallb clean_row rows = true ->
    map (split_char comma)
        (split_char newline (create_csv_content headers rows))
    = match rows with
      | [] => [headers; [""]]
      | _ => headers :: rows
      end.
Proof.
  intros headers rows Hh Hr.
  destruct (clean_row_split headers Hh) as [Hsplit Hnl].
  unfold create_csv_content.
  change nl with (String newline EmptyString).
  change (?a ++ String newline "" ++ ?b) with (a ++ String newline b).
  rewrite (split_char_clean newline _ _ Hnl). cbn [map].
  rewrite Hsplit.
  destruct rows as [| r rs]; [reflexivity |].
  f_equal.
  rewrite (split_char_join newline).
  - rewrite map_map. rewrite <- (map_id (r :: rs)) at 2.
    apply map_ext_in. intros row Hin.
    rewrite forallb_forall in Hr.
    now destruct (clean_row_split row (Hr row Hin)).
  - discriminate.
  - rewrite forallb_forall. intros line Hin.
    apply in_map_iff in Hin. destruct Hin as (row & <- & Hin).
    rewrite forallb_forall in Hr.
    destruct (clean_row_split row (Hr row Hin)) as [_ Hn].
    now rewrite Hn.
Qed.

(** X3: when no field has a comma or a newline and no row is empty, the
    content [create_csv_content] builds reads back: cut at the newlines
    and then at the commas it gives the headers and the rows.  With no row
    at all the content still ends with a newline, so a reader sees one
    more, empty, line. *)
Theorem create_csv_content_round_trip :
  forall headers rows,
    clean_row headers = true ->
    forallb clean_row rows = true ->
    map (split_char comma)
        (split_char newline (create_csv_content headers rows))
    = match rows with
      | [] => [headers; [""]]
      | _ => headers :: rows
      end.
Proof. exact csv_reads_back. Qed.

Lemma create_csv_content_round_trip_witness :
  map (split_char comma)
      (split_char newline
         (create_csv_content ["date"; "sku"]
            [["2023-10-01"; "A1"]; [""; "B2"]]))
  = [["date"; "sku"]; ["2023-10-01"; "A1"]; [""; "B2"]].
Proof.
  apply (create_csv_content_round_trip
           ["date"; "sku"] [["2023-10-01"; "A1"]; [""; "B2"]]);
    reflexivity.
Defined.

(** The fields are not quoted: a comma inside a field splits it in two
    for the reader. *)
Lemma create_csv_content_comma :
  map (split_char comma)
      (split_char newline (create_csv_content ["name"] [["Rice, 5kg"]]))
  = [["name"]; ["Rice"; " 5kg"]].
Proof. reflexivity. Qed.

(** A comprehension returns when its body returns at every element, and
    then it returns the values in order; it raises when the body raises
    at some element. *)
Lemma mapM_cons :
  forall (A B : Type) (f : A -> result B) x l,
    mapM f (x :: l) = (y <- f x ;; ys <- mapM f l ;; Return (y :: ys)).
Proof. reflexivity. Qed.

Lemma mapM_returns :
  forall (A B : Type) (f : A -> result B) l ys,
    mapM f l = Return ys <-> Forall2 (fun x y => f x = Return y) l ys.
Proof.
  intros A B f l. induction l as [| x l IH]; intros ys.
  - split.
    + intro H. injection H as <-. constructor.
    + intro H. inversion H. reflexivity.
  - rewrite mapM_cons. split.
    + intro H. destruct (f x) as [y | e] eqn:Ex; [| discriminate H].
      cbn [bind] in H.
      destruct (mapM f l) as [ys' | e] eqn:El; [| discriminate H].
      injection H as <-. constructor; [exact Ex |].
      now apply IH.
    + intro H. inversion H as [| x' y l' ys' Hx Hl]; subst.
      rewrite Hx. cbn [bind]. apply IH in Hl. now rewrite Hl.
Qed.

Lemma mapM_total :
  forall (A B : Type) (f : A -> result B) l,
    (forall x, In x l -> exists y, f x = Return y) ->
    exists ys, mapM f l = Return ys.
Proof.
  intros A B f l. induction l as [| x l IH]; intros H.
  - now exists [].
  - destruct (H x (or_introl eq_refl)) as [y Hy].
    destruct (IH (fun x' Hin => H x' (or_intror Hin))) as [ys Hys].
    exists (y :: ys). apply mapM_returns. constructor; [exact Hy |].
    now apply mapM_returns.
Qed.

Lemma mapM_raises :
  forall (A B : Type) (f : A -> result B) l x e,
    In x l -> f x = Raise e -> exists e', mapM f l = Raise e'.
Proof.
  intros A B f l x e Hin Hx.
  destruct (mapM f l) as [ys | e'] eqn:E; [| now exists e'].
  apply mapM_returns in E. exfalso.
  induction E as [| x' y l' ys' Hx' _ IH]; [contradiction |].
  destruct Hin as [-> | Hin]; [congruence | now apply IH].
Qed.

Section SalesCsv.

Variable py_repr : pyval -> result string.

(** The field of a record in column [h]: [str(record.get(h, ""))]. *)
Definition sales_field (record : pydict) (h : string) : result string :=
  py_str py_repr (get_or_empty record h).

(** What [create_sales_csv] returns for the records: the columns are the
    keys of the first record, every row has one field per column, and when
    the fields are clean the content reads back as the header followed by
    one row per record. *)
Definition sales_csv_of (records : list pydict) (content : string) : Prop :=
  let headers := match records with
                 | first :: _ => dict_keys first
                 | [] => []
                 end in
  exists rows,
    content = create_csv_content headers rows
    /\ Forall2 (fun record row =>
                  Forall2 (fun h field => sales_field record h = Return field)
                    headers row)
         records rows
    /\ (clean_row headers = true -> forallb clean_row rows = true ->
        map (split_char comma) (split_char newline content)
        = headers :: rows).

(** X4: for a non-empty list of records, [create_sales_csv] takes the
    columns from the keys of the first record, in their order, so a key
    only later records have is left out; every row has one field per
    column, the string of the record's value there, and a record without
    the column's key gives the empty field.  The call returns when [str]
    returns on every such value, and raises when it raises on one of them,
    as on an [int] of more than 4300 digits.  When the fields are clean the
    content reads back as the header followed by one row per record. *)
Theorem create_sales_csv_columns :
  forall first rest,
    let records := first :: rest in
    let headers := dict_keys first in
    (forall content,
        create_sales_csv py_repr records = Return content ->
        sales_csv_of records content)
    /\ ((forall record h,
           In record records -> In h headers ->
           exists field, sales_field record h = Return field) ->
        exists content, create_sales_csv py_repr records = Return content)
    /\ (forall record h e,
          In record records -> In h headers ->
          sales_field record h = Raise e ->
          exists e', create_sales_csv py_repr records = Raise e')
    /\ (forall record h,
          dict_get record h = None -> sales_field record h = Return "")
    /\ (forall record h z,
          dict_get record h = Some (VInt z) ->
          (MAX_STR_DIGITS < String.length (str_of_int (Z.abs z)))%nat ->
          sales_field record h = Raise ValueError).
Proof.
  intros first rest records headers.
  split; [| split; [| split; [| split]]].
  - intros content H. unfold create_sales_csv, records in H.
    fold headers in H.
    destruct (mapM _ (first :: rest)) as [rows | e] eqn:E; [| discriminate H].
    injection H as <-. exists rows.
    apply mapM_returns in E.
    split; [reflexivity | split].
    + eapply Forall2_impl; [| exact E].
      intros record row Hrow. now apply mapM_returns in Hrow.
    + intros Hh Hr. rewrite (csv_reads_back headers rows Hh Hr).
      inversion E. reflexivity.
  - intros Hall. unfold create_sales_csv, records. fold headers.
    destruct (mapM_total _ _
                (fun record => mapM (sales_field record) headers)
                (first :: rest)) as [rows Hrows].
    { intros record Hin. apply mapM_total.
      intros h Hh. exact (Hall record h Hin Hh). }
    unfold sales_field in Hrows. rewrite Hrows.
    now exists (create_csv_content headers rows).
  - intros record h e Hin Hh He. unfold create_sales_csv, records.
    fold headers.
    destruct (mapM_raises _ _ (sales_field record) headers h e Hh He)
      as [e1 H1].
    destruct (mapM_raises _ _
                (fun record => mapM (sales_field record) headers)
                (first :: rest) record e1 Hin H1) as [e2 H2].
    unfold sales_field in H2. rewrite H2. now exists e2.
  - intros record h Hnone. unfold sales_field, get_or_empty.
    now rewrite Hnone.
  - intros record h z Hz Hlong. unfold sales_field, get_or_empty.
    rewrite Hz. cbn [py_str]. unfold int_str.
    destruct (Nat.leb_spec (String.length (str_of_int (Z.abs z)))
                MAX_STR_DIGITS); [lia | reflexivity].
Qed.

End SalesCsv.

Lemma create_sales_csv_columns_witness :
  sales_csv_of (fun _ => Return "")
    [[("date", VStr "2023-10-01"); ("sku", VStr "SKU001")];
     [("sku", VStr "SKU002"); ("quantity", VInt 8)]]
    ("date,sku" ++ nl ++ "2023-10-01,SKU001" ++ nl ++ ",SKU002").
Proof.
  apply (proj1 (create_sales_csv_columns (fun _ => Return "")
                  [("date", VStr "2023-10-01"); ("sku", VStr "SKU001")]
                  [[("sku", VStr "SKU002"); ("quantity", VInt 8)]])).
  reflexivity.
Defined.

(** ** [mock_s3_object] *)

(** The characters of [s] outside ASCII. *)
Fixpoint non_ascii (s : string) : nat :=
  match s with
  | EmptyString => 0
  | String c s' =>
      (if (N_of_ascii c <? 128)%N then 0 else 1) + non_ascii s'
  end.

Lemma utf8_encode_length :
  forall s,
    List.length (utf8_encode s) = (String.length s + non_ascii s)%nat.
Proof.
  intros s. unfold utf8_encode.
  induction s as [| c s IH]; [reflexivity |].
  cbn [list_ascii_of_string flat_map String.length non_ascii].
  rewrite length_app, IH. unfold utf8_char.
  destruct (N_of_ascii c <? 128)%N; cbn [List.length]; lia.
Qed.

(** X5: [mock_s3_object] sets [ContentLength] to the number of characters
    of the content, while [Body] holds its UTF-8 bytes: on content of code
    points below 256 the body is longer than [ContentLength] by one byte
    per character outside ASCII, and the two agree exactly when the content
    is ASCII. *)
Theorem mock_s3_object_content_length :
  forall now bucket key content,
    let o := mock_s3_object now bucket key content in
    Z.of_nat (List.length (Body o))
    = ContentLength o + Z.of_nat (non_ascii content)
    /\ (Z.of_nat (List.length (Body o)) = ContentLength o
        <-> non_ascii content = 0%nat).
Proof.
  intros now bucket key content o. unfold o, mock_s3_object.
  cbn [Body ContentLength].
  rewrite utf8_encode_length. split; lia.
Qed.

(** ** [is_valid_date_string], on the values of the built-in classes *)

(** X6: on a value of the built-in classes [str], [NoneType], [bool],
    [int], [float], [list] and [dict], [is_valid_date_string] returns a
    boolean and raises nothing: on a string, whether the string, every [Z]
    rewritten, parses; on the others [False], because they have no
    [replace] method and the [AttributeError] is caught. *)
Theorem is_valid_date_string_never_raises :
  forall v,
    is_valid_date_string v
    = Return match v with
             | VStr s =>
                 is_return (fromisoformat (replace_char "Z" "+00:00" s))
             | VNone | VBool _ | VInt _ | VFloat _ | VList _ | VDict _ =>
                 false
             end.
Proof.
  intros v. destruct v; try reflexivity.
  apply is_valid_date_string_total.
Qed.

(** ** [is_in_range] and [is_valid_forecast_horizon] *)

Lemma num_le_nan_r : forall n, num_le n (NFloat S754_nan) = false.
Proof.
  intros [z | f]; unfold num_le; cbn [num_compare float_int_compare option_map].
  - reflexivity.
  - now destruct f.
Qed.

Lemma is_in_range_int :
  forall x lo hi,
    is_in_range (VInt x) (NInt lo) (NInt hi)
    = Return ((lo <=? x) && (x <=? hi)).
Proof.
  intros x lo hi. unfold is_in_range, py_le, num_le.
  cbn [val_of_num as_num num_compare bind].
  unfold Z.leb.
  destruct (lo ?= x); cbn [andb]; try reflexivity;
    destruct (x ?= hi); reflexivity.
Qed.

(** X7: [is_in_range] on integer bounds and an [int] value is the test
    [lo <= x <= hi]; NaN is in no range, whatever the bounds; [None], a
    [str], a [list] or a [dict], which do not compare with a number, raise
    [TypeError]. *)
Theorem is_in_range_cases :
  (forall x lo hi,
      is_in_range (VInt x) (NInt lo) (NInt hi)
      = Return ((lo <=? x) && (x <=? hi)))
  /\ (forall lo hi, is_in_range (VFloat S754_nan) lo hi = Return false)
  /\ (forall v lo hi, as_num v = None -> is_in_range v lo hi = Raise TypeError).
Proof.
  split; [exact is_in_range_int | split].
  - intros lo hi. unfold is_in_range, py_le.
    assert (E : as_num (val_of_num lo) = Some lo) by now destruct lo.
    rewrite E. cbn [as_num bind]. now rewrite num_le_nan_r.
  - intros v lo hi Hv. unfold is_in_range, py_le.
    assert (E : as_num (val_of_num lo) = Some lo) by now destruct lo.
    now rewrite E, Hv.
Qed.

Lemma is_in_range_cases_witness :
  as_num (VStr "0.5") = None
  /\ is_in_range (VStr "0.5") (NFloat f_zero) (NFloat f_one) = Raise TypeError.
Proof.
  split; [reflexivity |].
  apply (proj2 (proj2 is_in_range_cases)). reflexivity.
Defined.

Lemma horizon_in_range :
  forall h,
    7 <= h <= 14 -> is_valid_forecast_horizon (VInt h) = Return true.
Proof.
  intros h H. unfold is_valid_forecast_horizon. rewrite is_in_range_int.
  f_equal. apply andb_true_intro. split; apply Z.leb_le; lia.
Qed.

(** X8: [is_valid_forecast_horizon] accepts exactly the integers 7 to 14;
    the booleans, which count as 1 and 0, are out of range. *)
Theorem is_valid_forecast_horizon_int :
  (forall h,
      is_valid_forecast_horizon (VInt h) = Return true <-> 7 <= h <= 14)
  /\ (forall h, exists b, is_valid_forecast_horizon (VInt h) = Return b)
  /\ (forall b, is_valid_forecast_horizon (VBool b) = Return false).
Proof.
  pose proof is_in_range_int as Hint.
  split; [| split].
  - intros h. unfold is_valid_forecast_horizon. rewrite Hint.
    split.
    + intro H. injection H as H. apply andb_prop in H.
      destruct H as [H1 H2]. apply Z.leb_le in H1, H2. lia.
    + intro H. f_equal. apply andb_true_intro.
      split; apply Z.leb_le; lia.
  - intros h. unfold is_valid_forecast_horizon. rewrite Hint.
    eexists. reflexivity.
  - intros [|]; reflexivity.
Qed.

Lemma is_valid_forecast_horizon_int_witness :
  7 <= 10 <= 14 /\ is_valid_forecast_horizon (VInt 10) = Return true.
Proof.
  split; [lia |].
  apply (proj1 is_valid_forecast_horizon_int). lia.
Defined.

(** ** What the result validators accept *)

Lemma bind_returns :
  forall (A B : Type) (r : result A) (k : A -> result B) b,
    bind r k = Return b -> exists a, r = Return a /\ k a = Return b.
Proof.
  intros A B [a | e] k b H; [| discriminate]. exists a. now split.
Qed.

Lemma assert_returns : forall c u, assert c = Return u -> c = true.
Proof. intros [|] u H; [reflexivity | discriminate]. Qed.

Lemma assert_r_returns :
  forall c u, assert_r c = Return u -> c = Return true.
Proof.
  intros c u H. unfold assert_r in H.
  apply bind_returns in H. destruct H as (b & Hc & Hb).
  apply assert_returns in Hb. now subst b.
Qed.

Lemma assert_r_true : forall c, c = Return true -> assert_r c = Return tt.
Proof. intros c ->. reflexivity. Qed.

(** Only a dict has all of a non-empty list of fields. *)
Lemma has_required_fields_true :
  forall obj f fields,
    has_required_fields obj (f :: fields) = Return true ->
    exists d, obj = VDict d /\ forallb (present_b d) (f :: fields) = true.
Proof.
  intros obj f fields H.
  destruct obj as [| b | z | x | s | l | d];
    try discriminate H.
  - cbn in H. destruct (is_substring f s); discriminate.
  - cbn in H. destruct (existsb _ l); discriminate.
  - exists d. split; [reflexivity |].
    rewrite has_required_fields_dict in H. now injection H.
Qed.

Lemma present_b_get :
  forall d f, present_b d f = true -> exists v, dict_get d f = Some v.
Proof.
  intros d f H. unfold present_b in H.
  destruct (dict_get d f) as [v |]; [now exists v | discriminate].
Qed.

Lemma dict_index_get :
  forall d f v, dict_index d f = Return v <-> dict_get d f = Some v.
Proof.
  intros d f v. unfold dict_index.
  destruct (dict_get d f); split; intro H; try discriminate;
    injection H as ->; reflexivity.
Qed.

(** A prediction the validator accepts: a dict whose four fields are
    bound, with a date that parses, a forecast of at least 0, and bounds
    on either side of the forecast. *)
Definition prediction_ok (prediction : pyval) : Prop :=
  exists d date demand lower upper,
    prediction = VDict d
    /\ forallb (present_b d)
         ["date"; "demandForecast"; "lowerBound"; "upperBound"] = true
    /\ dict_get d "date" = Some date
    /\ is_valid_date_string date = Return true
    /\ dict_get d "demandForecast" = Some demand
    /\ py_ge demand (VInt 0) = Return true
    /\ dict_get d "lowerBound" = Some lower
    /\ py_le lower demand = Return true
    /\ dict_get d "upperBound" = Some upper
    /\ py_ge upper demand = Return true.

Lemma check_prediction_ok :
  forall p, check_prediction p = Return tt <-> prediction_ok p.
Proof.
  intros p. unfold check_prediction, prediction_ok. split.
  - intro H.
    apply bind_returns in H. destruct H as (u1 & H1 & H).
    apply assert_r_returns in H1.
    apply has_required_fields_true in H1. destruct H1 as (d & -> & Hf).
    cbn [py_index] in H.
    apply bind_returns in H. destruct H as (date & Hdate & H).
    apply bind_returns in H. destruct H as (u2 & H2 & H).
    apply bind_returns in H. destruct H as (demand & Hdemand & H).
    apply bind_returns in H. destruct H as (u3 & H3 & H).
    apply bind_returns in H. destruct H as (lower & Hlower & H).
    apply bind_returns in H. destruct H as (u4 & H4 & H).
    apply bind_returns in H. destruct H as (upper & Hupper & H).
    apply assert_r_returns in H2, H3, H4, H.
    apply dict_index_get in Hdate, Hdemand, Hlower, Hupper.
    exists d, date, demand, lower, upper. repeat split; assumption.
  - intros (d & date & demand & lower & upper & -> & Hf & Hdate & H2
            & Hdemand & H3 & Hlower & H4 & Hupper & H5).
    rewrite has_required_fields_dict, Hf. cbn [assert_r bind assert py_index].
    apply dict_index_get in Hdate, Hdemand, Hlower, Hupper.
    rewrite Hdate. cbn [bind]. rewrite H2. cbn [bind assert].
    rewrite Hdemand. cbn [bind]. rewrite H3. cbn [bind assert].
    rewrite Hlower. cbn [bind]. rewrite H4. cbn [bind assert].
    rewrite Hupper. cbn [bind]. rewrite H5. reflexivity.
Qed.

Lemma for_each_returns :
  forall (A : Type) (body : A -> result unit) l,
    for_each body l = Return tt <-> Forall (fun x => body x = Return tt) l.
Proof.
  intros A body l. induction l as [| x l IH]; cbn [for_each].
  - split; [constructor | reflexivity].
  - split.
    + intro H. apply bind_returns in H. destruct H as ([] & Hx & Hl).
      constructor; [exact Hx | now apply IH].
    + intro H. inversion H as [| ? ? Hx Hl]; subst.
      rewrite Hx. cbn [bind]. now apply IH.
Qed.

(** A forecast the validator accepts. *)
Definition forecast_ok (forecast : pydict) : Prop :=
  exists confidence methodology predictions,
    forallb (present_b forecast)
      ["sku"; "category"; "predictions"; "confidence"; "methodology"] = true
    /\ dict_get forecast "confidence" = Some confidence
    /\ is_valid_confidence confidence = Return true
    /\ dict_get forecast "methodology" = Some (VStr methodology)
    /\ In methodology ["ml"; "pattern"; "hybrid"]
    /\ dict_get forecast "predictions" = Some (VList predictions)
    /\ predictions <> []
    /\ Forall prediction_ok predictions.

Lemma methodology_in :
  forall v names,
    existsb (eq_str v) names = true <-> exists s, v = VStr s /\ In s names.
Proof.
  intros v names. rewrite existsb_exists. split.
  - intros (name & Hin & Heq). unfold eq_str in Heq.
    destruct v; try discriminate.
    apply String.eqb_eq in Heq. subst. eexists.
    split; [reflexivity | exact Hin].
  - intros (s & -> & Hin). exists s. split; [exact Hin |].
    apply String.eqb_refl.
Qed.

(** X9: among the forecasts made of values of the built-in classes,
    [assert_forecast_result_valid] returns, raising nothing, exactly on
    those that bind the five required fields to values other
    than [None], whose confidence [is_valid_confidence] accepts, whose
    methodology is ["ml"], ["pattern"] or ["hybrid"], and whose
    predictions are a non-empty list of dicts, each with a date that
    parses and [lowerBound <= demandForecast <= upperBound],
    [demandForecast >= 0]. *)
Theorem assert_forecast_result_valid_accepts :
  forall forecast,
    assert_forecast_result_valid forecast = Return tt <-> forecast_ok forecast.
Proof.
  intros forecast. unfold assert_forecast_result_valid, forecast_ok. split.
  - intro H.
    apply bind_returns in H. destruct H as (u1 & H1 & H).
    apply assert_r_returns in H1. rewrite has_required_fields_dict in H1.
    injection H1 as H1.
    apply bind_returns in H. destruct H as (confidence & Hc & H).
    apply bind_returns in H. destruct H as (u2 & H2 & H).
    apply bind_returns in H. destruct H as (methodology & Hm & H).
    apply bind_returns in H. destruct H as (u3 & H3 & H).
    apply bind_returns in H. destruct H as (predictions & Hp & H).
    apply bind_returns in H. destruct H as (u4 & H4 & H).
    apply assert_r_returns in H2. apply assert_returns in H3, H4.
    apply dict_index_get in Hc, Hm, Hp.
    apply methodology_in in H3. destruct H3 as (m & -> & Hin).
    destruct predictions as [| | | | | l |]; try discriminate H4.
    apply bind_returns in H. destruct H as (u5 & H5 & H).
    apply assert_returns in H5.
    exists confidence, m, l. repeat split; try assumption.
    + intros ->. discriminate H5.
    + apply for_each_returns in H.
      eapply Forall_impl; [| exact H].
      intros p Hp'. now apply check_prediction_ok.
  - intros (confidence & m & l & Hf & Hc & H2 & Hm & Hin & Hp & Hne & Hall).
    rewrite has_required_fields_dict, Hf. cbn [assert_r bind assert].
    apply dict_index_get in Hc, Hm, Hp.
    rewrite Hc. cbn [bind]. rewrite H2. cbn [bind assert].
    rewrite Hm. cbn [bind].
    assert (E : existsb (eq_str (VStr m)) ["ml"; "pattern"; "hybrid"] = true)
      by (apply methodology_in; now exists m).
    rewrite E. cbn [bind assert].
    rewrite Hp. cbn [bind isinstance assert].
    destruct l as [| p l]; [contradiction |].
    change (0 <? Z.of_nat (List.length (p :: l))) with true.
    cbn [assert bind].
    apply for_each_returns.
    eapply Forall_impl; [| exact Hall].
    intros q Hq. now apply check_prediction_ok.
Qed.

Definition sample_forecast : pydict :=
  [("sku", VStr "SKU001"); ("category", VStr "grocery");
   ("predictions",
    VList [VDict [("date", VStr "2023-11-12T00:00:00Z");
                  ("demandForecast", VInt 40);
                  ("lowerBound", VFloat f_one);
                  ("upperBound", VInt 55)]]);
   ("confidence", VFloat f_one); ("methodology", VStr "hybrid")].

Lemma assert_forecast_result_valid_accepts_witness :
  forecast_ok sample_forecast.
Proof.
  apply (proj1 (assert_forecast_result_valid_accepts sample_forecast)).
  vm_compute. reflexivity.
Defined.

(** A part of a risk assessment the validator accepts: a dict that binds
    the listed fields and whose probability is between 0 and 1. *)
Definition risk_part_ok (risk : pydict) (key : string) (fields : list string)
    (prob : string) : Prop :=
  exists d p,
    dict_get risk key = Some (VDict d)
    /\ forallb (present_b d) fields = true
    /\ dict_get d prob = Some p
    /\ is_valid_confidence p = Return true.

Lemma check_risk_part_ok :
  forall risk key f fields prob,
    check_risk_part risk key (f :: fields) prob = Return tt
    <-> risk_part_ok risk key (f :: fields) prob.
Proof.
  intros risk key f fields prob. unfold check_risk_part, risk_part_ok. split.
  - intro H.
    apply bind_returns in H. destruct H as (part & Hpart & H).
    apply bind_returns in H. destruct H as (u1 & H1 & H).
    apply bind_returns in H. destruct H as (part' & Hpart' & H).
    apply bind_returns in H. destruct H as (p & Hp & H).
    apply assert_r_returns in H1, H.
    rewrite Hpart in Hpart'. injection Hpart' as <-.
    apply has_required_fields_true in H1. destruct H1 as (d & -> & Hf).
    cbn [py_index] in Hp. apply dict_index_get in Hpart, Hp.
    exists d, p. repeat split; assumption.
  - intros (d & p & Hpart & Hf & Hp & Hvalid).
    apply dict_index_get in Hpart, Hp.
    rewrite Hpart. cbn [bind].
    rewrite has_required_fields_dict, Hf. cbn [assert_r bind assert py_index].
    rewrite Hp. cbn [bind].
    rewrite Hvalid. reflexivity.
Qed.

(** A risk assessment the validator accepts. *)
Definition risk_ok (risk : pydict) : Prop :=
  forallb (present_b risk)
    ["sku"; "category"; "currentStock"; "stockoutRisk"; "overstockRisk";
     "recommendation"] = true
  /\ risk_part_ok risk "stockoutRisk"
       ["probability"; "daysUntilStockout"; "potentialLostSales"] "probability"
  /\ risk_part_ok risk "overstockRisk"
       ["probability"; "excessUnits"; "carryingCost"] "probability"
  /\ exists r action urgency confidence,
       dict_get risk "recommendation" = Some (VDict r)
       /\ forallb (present_b r)
            ["action"; "suggestedQuantity"; "urgency"; "confidence"] = true
       /\ dict_get r "action" = Some (VStr action)
       /\ In action ["reorder"; "reduce"; "maintain"]
       /\ dict_get r "urgency" = Some (VStr urgency)
       /\ In urgency ["low"; "medium"; "high"]
       /\ dict_get r "confidence" = Some confidence
       /\ is_valid_confidence confidence = Return true.

(** X10: among the assessments made of values of the built-in classes,
    [assert_risk_assessment_valid] returns, raising nothing, exactly on
    those that bind the six required fields, whose stockout
    and overstock risks are dicts with their three fields bound and a
    probability between 0 and 1, and whose recommendation is a dict with
    its four fields bound, an action among ["reorder"], ["reduce"],
    ["maintain"], an urgency among ["low"], ["medium"], ["high"], and a
    confidence between 0 and 1. *)
Theorem assert_risk_assessment_valid_accepts :
  forall risk,
    assert_risk_assessment_valid risk = Return tt <-> risk_ok risk.
Proof.
  intros risk. unfold assert_risk_assessment_valid, risk_ok. split.
  - intro H.
    apply bind_returns in H. destruct H as (u1 & H1 & H).
    apply assert_r_returns in H1. rewrite has_required_fields_dict in H1.
    injection H1 as H1.
    apply bind_returns in H. destruct H as (u2 & H2 & H).
    apply bind_returns in H. destruct H as (u3 & H3 & H).
    destruct u2, u3.
    apply check_risk_part_ok in H2, H3.
    apply bind_returns in H. destruct H as (rec & Hrec & H).
    apply bind_returns in H. destruct H as (u4 & H4 & H).
    apply assert_r_returns in H4.
    apply has_required_fields_true in H4. destruct H4 as (r & -> & Hf).
    cbn [py_index] in H.
    apply bind_returns in H. destruct H as (action & Ha & H).
    apply bind_returns in H. destruct H as (u5 & H5 & H).
    apply bind_returns in H. destruct H as (urgency & Hu & H).
    apply bind_returns in H. destruct H as (u6 & H6 & H).
    apply bind_returns in H. destruct H as (confidence & Hc & H).
    apply assert_r_returns in H. apply assert_returns in H5, H6.
    apply methodology_in in H5, H6.
    destruct H5 as (a & -> & Hina). destruct H6 as (u & -> & Hinu).
    apply dict_index_get in Hrec, Ha, Hu, Hc.
    split; [exact H1 | split; [exact H2 | split; [exact H3 |]]].
    exists r, a, u, confidence. repeat split; assumption.
  - intros (Hf & H2 & H3 & r & a & u & confidence & Hrec & Hfr & Ha & Hina
            & Hu & Hinu & Hc & Hvalid).
    rewrite has_required_fields_dict, Hf. cbn [assert_r bind assert].
    apply check_risk_part_ok in H2, H3. rewrite H2, H3. cbn [bind].
    apply dict_index_get in Hrec, Ha, Hu, Hc.
    rewrite Hrec. cbn [bind].
    rewrite has_required_fields_dict, Hfr. cbn [bind assert py_index].
    rewrite Ha. cbn [bind].
    assert (Ea : existsb (eq_str (VStr a)) ["reorder"; "reduce"; "maintain"]
                 = true) by (apply methodology_in; now exists a).
    rewrite Ea. cbn [bind assert]. rewrite Hu. cbn [bind].
    assert (Eu : existsb (eq_str (VStr u)) ["low"; "medium"; "high"] = true)
      by (apply methodology_in; now exists u).
    rewrite Eu. cbn [bind assert]. rewrite Hc. cbn [bind].
    rewrite Hvalid. reflexivity.
Qed.

Definition sample_risk : pydict :=
  [("sku", VStr "SKU001"); ("category", VStr "grocery");
   ("currentStock", VInt 0);
   ("stockoutRisk",
    VDict [("probability", VFloat f_one); ("daysUntilStockout", VInt 0);
           ("potentialLostSales", VInt 120)]);
   ("overstockRisk",
    VDict [("probability", VInt 0); ("excessUnits", VInt 0);
           ("carryingCost", VFloat f_zero)]);
   ("recommendation",
    VDict [("action", VStr "reorder"); ("suggestedQuantity", VInt 200);
           ("urgency", VStr "high"); ("confidence", VFloat f_one)])].

Lemma assert_risk_assessment_valid_accepts_witness : risk_ok sample_risk.
Proof.
  apply (proj1 (assert_risk_assessment_valid_accepts sample_risk)).
  vm_compute. reflexivity.
Defined.

(** ** [assert_api_response] *)

Section ApiResponse.

Variable json_loads : string -> result pyval.

(** X11: on a response made of values of the built-in classes,
    [assert_api_response] fails with [AssertionError], before any lookup
    can raise [KeyError], when the response has no ["statusCode"], a
    status that is not equal to the expected one, or no ["body"]; a body
    that is not a string is returned as it is, without parsing, when no
    keys are expected. *)
Theorem assert_api_response_checks :
  forall response expected_status,
    (dict_get response "statusCode" = None ->
     forall keys,
       assert_api_response json_loads response expected_status keys
       = Raise AssertionError)
    /\ (forall status,
          dict_get response "statusCode" = Some status ->
          eq_int status expected_status = false ->
          forall keys,
            assert_api_response json_loads response expected_status keys
            = Raise AssertionError)
    /\ (forall status,
          dict_get response "statusCode" = Some status ->
          eq_int status expected_status = true ->
          dict_get response "body" = None ->
          forall keys,
            assert_api_response json_loads response expected_status keys
            = Raise AssertionError)
    /\ (forall status body,
          dict_get response "statusCode" = Some status ->
          eq_int status expected_status = true ->
          dict_get response "body" = Some body ->
          isinstance body TStr = false ->
          assert_api_response json_loads response expected_status None
          = Return body
          /\ assert_api_response json_loads response expected_status (Some [])
             = Return body).
Proof.
  intros response expected_status.
  unfold assert_api_response, dict_mem, dict_index.
  split; [| split; [| split]].
  - intros H keys. now rewrite H.
  - intros status H Hne keys. rewrite H. cbn [assert bind]. now rewrite Hne.
  - intros status H He Hb keys. rewrite H. cbn [assert bind].
    rewrite He. cbn [assert bind]. now rewrite Hb.
  - intros status body H He Hb Hs. rewrite H. cbn [assert bind].
    rewrite He. cbn [assert bind]. rewrite Hb. cbn [assert bind].
    destruct body; try discriminate Hs; split; reflexivity.
Qed.

(** X12: when [assert_api_response] returns a body and keys were
    expected, each expected key is in the body. *)
Theorem assert_api_response_keys :
  forall response expected_status key keys body,
    assert_api_response json_loads response expected_status
      (Some (key :: keys)) = Return body ->
    Forall (fun k => py_contains body k = Return true) (key :: keys).
Proof.
  intros response expected_status key keys body H.
  unfold assert_api_response in H.
  apply bind_returns in H. destruct H as (u1 & _ & H).
  apply bind_returns in H. destruct H as (status & _ & H).
  apply bind_returns in H. destruct H as (u2 & _ & H).
  apply bind_returns in H. destruct H as (u3 & _ & H).
  apply bind_returns in H. destruct H as (raw & _ & H).
  apply bind_returns in H. destruct H as (b & _ & H).
  apply bind_returns in H. destruct H as (u4 & Hkeys & H).
  injection H as ->.
  clear - Hkeys. revert Hkeys. generalize (key :: keys) as l.
  induction l as [| k l IH]; intro H; [constructor |].
  cbn [assert_keys] in H.
  apply bind_returns in H. destruct H as (present & Hp & H).
  apply bind_returns in H. destruct H as (u & Ha & H).
  apply assert_returns in Ha. subst present.
  constructor; [exact Hp | now apply IH].
Qed.

End ApiResponse.

Definition sample_loads (s : string) : result pyval :=
  Return (VDict [("forecasts", VList []); ("count", VInt 0)]).

Lemma assert_api_response_checks_witness :
  assert_api_response sample_loads [("body", VStr "{}")] 200 None
  = Raise AssertionError.
Proof.
  apply (proj1 (assert_api_response_checks sample_loads
                  [("body", VStr "{}")] 200)).
  reflexivity.
Defined.

Lemma assert_api_response_keys_witness :
  Forall (fun k => py_contains
                     (VDict [("forecasts", VList []); ("count", VInt 0)]) k
                   = Return true)
         ["count"; "forecasts"].
Proof.
  apply (assert_api_response_keys sample_loads
           [("statusCode", VInt 200); ("body", VStr "{}")] 200).
  reflexivity.
Defined.

(** ** What [is_valid_date_string] accepts *)

(** The characters of a date part: a digit, [-] or [W]. *)
Definition date_char (c : ascii) : bool :=
  is_digit c || Ascii.eqb c "-" || Ascii.eqb c "W".

Lemma digits_or_raise_2 :
  forall buf p r,
    digits_or_raise buf p 0 2 = Return r ->
    is_digit (peek buf p) = true /\ is_digit (peek buf (S p)) = true
    /\ snd r = S (S p).
Proof.
  intros buf p r H. unfold digits_or_raise in H. cbn [parse_digits] in H.
  destruct (is_digit (peek buf p)); [| discriminate].
  destruct (is_digit (peek buf (S p))); [| discriminate].
  injection H as <-. repeat split.
Qed.

Lemma digits_or_raise_4 :
  forall buf r,
    digits_or_raise buf 0 0 4 = Return r ->
    (forall i, (i < 4)%nat -> is_digit (peek buf i) = true) /\ snd r = 4%nat.
Proof.
  intros buf r H. unfold digits_or_raise in H. cbn [parse_digits] in H.
  destruct (is_digit (peek buf 0)) eqn:E0; [| discriminate].
  destruct (is_digit (peek buf 1)) eqn:E1; [| discriminate].
  destruct (is_digit (peek buf 2)) eqn:E2; [| discriminate].
  destruct (is_digit (peek buf 3)) eqn:E3; [| discriminate].
  injection H as <-. split; [| reflexivity].
  intros i Hi.
  destruct i as [| [| [| [| i]]]]; try assumption; lia.
Qed.

Lemma date_char_digit : forall c, is_digit c = true -> date_char c = true.
Proof. intros c H. unfold date_char. now rewrite H. Qed.

Lemma date_char_dash : forall c, Ascii.eqb c "-" = true -> date_char c = true.
Proof.
  intros c H. unfold date_char. rewrite H. now destruct (is_digit c).
Qed.

Lemma date_char_W : forall c, Ascii.eqb c "W" = true -> date_char c = true.
Proof.
  intros c H. unfold date_char. rewrite H.
  now destruct (is_digit c), (Ascii.eqb c "-").
Qed.

Create HintDb date_chars.
#[local] Hint Resolve date_char_digit date_char_dash date_char_W : date_chars.

(** A date part that parses starts with seven characters that are digits,
    [-] or [W], the first four of them digits. *)
Lemma parse_isoformat_date_chars :
  forall dtstr len ymd,
    parse_isoformat_date dtstr len = Return ymd ->
    (forall i, (i < 4)%nat -> is_digit (peek dtstr i) = true)
    /\ (forall i, (i < 7)%nat -> date_char (peek dtstr i) = true).
Proof.
  intros dtstr len ymd H. unfold parse_isoformat_date in H.
  destruct (digits_or_raise dtstr 0 0 4) as [[year p] | e] eqn:Ey;
    [| discriminate].
  destruct (digits_or_raise_4 _ _ Ey) as [Hyear Hp].
  cbn [snd] in Hp. subst p. cbn [bind] in H.
  split; [exact Hyear |].
  assert (Hall : date_char (peek dtstr 4) = true
                 /\ date_char (peek dtstr 5) = true
                 /\ date_char (peek dtstr 6) = true).
  { destruct (Ascii.eqb (peek dtstr 4) "-") eqn:E4.
    - destruct (Ascii.eqb (peek dtstr 5) "W") eqn:E5.
      + destruct (digits_or_raise dtstr 6 0 2) as [wp | e] eqn:Ew;
          [| discriminate].
        destruct (digits_or_raise_2 _ _ _ Ew) as (D6 & _ & _).
        auto with date_chars.
      + destruct (digits_or_raise dtstr 5 0 2) as [mp | e] eqn:Em;
          [| discriminate].
        destruct (digits_or_raise_2 _ _ _ Em) as (D5 & D6 & _).
        auto with date_chars.
    - destruct (Ascii.eqb (peek dtstr 4) "W") eqn:E4w.
      + destruct (digits_or_raise dtstr 5 0 2) as [wp | e] eqn:Ew;
          [| discriminate].
        destruct (digits_or_raise_2 _ _ _ Ew) as (D5 & D6 & _).
        auto with date_chars.
      + destruct (digits_or_raise dtstr 4 0 2) as [[month p] | e] eqn:Em;
          [| discriminate].
        destruct (digits_or_raise_2 _ _ _ Em) as (D4 & D5 & Hp).
        cbn [snd] in Hp. subst p. cbn [bind andb] in H.
        destruct (digits_or_raise dtstr 6 0 2) as [dp | e] eqn:Ed;
          [| discriminate].
        destruct (digits_or_raise_2 _ _ _ Ed) as (D6 & _ & _).
        auto with date_chars. }
  destruct Hall as (H4 & H5 & H6).
  intros i Hi.
  destruct i as [| [| [| [| [| [| [| i]]]]]]];
    try (apply date_char_digit, Hyear; lia); try assumption; lia.
Qed.

Lemma fromisoformat_date_chars :
  forall s d,
    fromisoformat s = Return d ->
    (7 <= String.length s)%nat
    /\ (forall i, (i < 4)%nat -> is_digit (peek s i) = true)
    /\ (forall i, (i < 7)%nat -> date_char (peek s i) = true).
Proof.
  intros s d H. unfold fromisoformat in H.
  destruct (Nat.ltb_spec (String.length s) 7); [discriminate |].
  split; [assumption |].
  destruct (find_isoformat_datetime_separator s (String.length s)) as [sep |];
    [| discriminate].
  destruct (parse_isoformat_date s sep) as [ymd | e] eqn:Ed; [| discriminate].
  exact (parse_isoformat_date_chars _ _ _ Ed).
Qed.

(** Where the rewritten string starts with [n] date characters, so does
    the string itself: no [Z] was among them. *)
Lemma replace_char_prefix :
  forall n s,
    (forall i, (i < n)%nat ->
               date_char (peek (replace_char "Z" "+00:00" s) i) = true) ->
    (n <= String.length s)%nat
    /\ forall i, (i < n)%nat ->
                 peek s i = peek (replace_char "Z" "+00:00" s) i.
Proof.
  induction n as [| n IH]; intros s H.
  - split; [lia | intros i Hi; lia].
  - destruct s as [| a s].
    + specialize (H 0%nat ltac:(lia)). discriminate H.
    + cbn [replace_char] in *.
      destruct (Ascii.eqb a "Z") eqn:Ea.
      * specialize (H 0%nat ltac:(lia)). discriminate H.
      * assert (Hs : forall i, (i < n)%nat ->
                       date_char (peek (replace_char "Z" "+00:00" s) i) = true).
        { intros i Hi. exact (H (S i) ltac:(lia)). }
        destruct (IH s Hs) as [Hlen Heq].
        split; [cbn [String.length]; lia |].
        intros [| i] Hi; [reflexivity |].
        exact (Heq i ltac:(lia)).
Qed.

(** X18: a string [is_valid_date_string] accepts has at least seven
    characters; its first four are digits and the next three are digits,
    [-] or [W].  So no string of fewer than seven characters is accepted,
    and none that has a [Z] among its first seven. *)
Theorem is_valid_date_string_shape :
  forall s,
    is_valid_date_string (VStr s) = Return true ->
    (7 <= String.length s)%nat
    /\ (forall i, (i < 4)%nat -> is_digit (peek s i) = true)
    /\ (forall i, (i < 7)%nat -> date_char (peek s i) = true).
Proof.
  intros s H. rewrite is_valid_date_string_total in H.
  destruct (fromisoformat (replace_char "Z" "+00:00" s)) as [d | e] eqn:E;
    [| discriminate].
  destruct (fromisoformat_date_chars _ _ E) as (_ & Hyear & Hchars).
  destruct (replace_char_prefix 7 s Hchars) as [Hlen Heq].
  split; [exact Hlen | split].
  - intros i Hi. rewrite (Heq i ltac:(lia)). now apply Hyear.
  - intros i Hi. rewrite (Heq i Hi). now apply Hchars.
Qed.

Lemma is_valid_date_string_shape_witness :
  is_valid_date_string (VStr "2023W01Z") = Return true
  /\ (7 <= String.length "2023W01Z")%nat
  /\ (forall i, (i < 4)%nat -> is_digit (peek "2023W01Z" i) = true)
  /\ (forall i, (i < 7)%nat -> date_char (peek "2023W01Z" i) = true).
Proof.
  split; [vm_compute; reflexivity |].
  apply (is_valid_date_string_shape "2023W01Z"). vm_compute. reflexivity.
Defined.

Lemma is_valid_date_string_short :
  forall s,
    (String.length s < 7)%nat -> is_valid_date_string (VStr s) = Return false.
Proof.
  intros s Hs. rewrite is_valid_date_string_total.
  destruct (fromisoformat (replace_char "Z" "+00:00" s)) as [d | e] eqn:E;
    [| reflexivity].
  destruct (fromisoformat_date_chars _ _ E) as (_ & _ & Hchars).
  destruct (replace_char_prefix 7 s Hchars) as [Hlen _]. lia.
Qed.

(** ** [mock_dynamodb_item], on any item *)


Section DynamoDBItem.

Variable py_repr : pyval -> result string.




(** [repr] of a float does not raise. *)
Hypothesis float_repr :
  forall f, exists s, py_repr (VFloat f) = Return s.


End DynamoDBItem.



(** ** The tests of test_example.py *)

(** [all(field in record for field in required_fields)] *)
Fixpoint all_in (record : pyval) (fields : list string) : result bool :=
  match fields with
  | [] => Return true
  | field :: rest =>
      b <- py_contains record field ;;
      if b then all_in record rest else Return false
  end.

Definition validate_sales_record (record : pyval) : result bool :=
  let required_fields := ["date"; "sku"; "quantity"] in
  all_in record required_fields.

(** [a > b] on values, one of them a number: [b < a]. *)
Definition py_gt (a b : pyval) : result bool :=
  match as_num a, as_num b with
  | Some x, Some y =>
      Return (match num_compare x y with Some Gt => true | _ => false end)
  | _, _ => Raise TypeError
  end.

(** [len(v)] *)
Definition py_len (v : pyval) : result Z :=
  match v with
  | VStr s => Return (Z.of_nat (String.length s))
  | VList l => Return (Z.of_nat (List.length l))
  | VDict d => Return (Z.of_nat (List.length d))
  | _ => Raise TypeError
  end.

(** [for x in v]: the elements of a list, the characters of a string,
    the keys of a dict; the other values are not iterable. *)
Definition py_iter (v : pyval) : result (list pyval) :=
  match v with
  | VList l => Return l
  | VStr s =>
      Return (map (fun c => VStr (String c EmptyString))
                (list_ascii_of_string s))
  | VDict d => Return (map VStr (dict_keys d))
  | VNone | VBool _ | VInt _ | VFloat _ => Raise TypeError
  end.

(** [v.items()] *)
Definition py_items (v : pyval) : result pydict :=
  match v with
  | VDict d => Return d
  | _ => Raise AttributeError
  end.

Definition test_property_all_generated_records_are_valid (record : pydict)
  : result unit :=
  _ <- assert_r (validate_sales_record (VDict record)) ;;
  quantity <- dict_index record "quantity" ;;
  _ <- assert (isinstance quantity TInt) ;;
  quantity <- dict_index record "quantity" ;;
  assert_r (py_gt quantity (VInt 0)).

Definition test_property_list_validation (records : list pydict)
  : result unit :=
  _ <- assert (0 <? Z.of_nat (List.length records)) ;;
  for_each (fun record => assert_r (validate_sales_record (VDict record)))
    records.

Definition test_property_festival_multipliers_valid (festival : pydict)
  : result unit :=
  multipliers <- dict_index festival "demandMultipliers" ;;
  items <- py_items multipliers ;;
  for_each (fun item =>
              _ <- assert_r (py_ge (snd item) (VFloat f_one)) ;;
              assert_r (py_le (snd item) (VFloat f_5)))
    items.

Definition test_property_festival_has_region (festival : pydict)
  : result unit :=
  region <- dict_index festival "region" ;;
  n <- py_len region ;;
  _ <- assert (0 <? n) ;;
  region <- dict_index festival "region" ;;
  l <- py_iter region ;;
  assert (forallb (fun r => isinstance r TStr) l).

Lemma all_in_dict :
  forall d fields,
    all_in (VDict d) fields = Return (forallb (fun f => dict_mem f d) fields).
Proof.
  intros d fields. induction fields as [| f fields IH]; [reflexivity |].
  cbn [all_in py_contains bind forallb].
  destruct (dict_mem f d); [exact IH | reflexivity].
Qed.

(** X20: [validate_sales_record] tests the keys only: on a dict it returns
    whether [date], [sku] and [quantity] are all keys.  It accepts every
    record [has_required_fields] accepts for these fields, and also a
    record that binds one of them to [None], which [has_required_fields]
    rejects. *)
Theorem validate_sales_record_keys :
  forall record : pydict,
    validate_sales_record (VDict record)
    = Return (dict_mem "date" record && dict_mem "sku" record
              && dict_mem "quantity" record)
    /\ (has_required_fields (VDict record) ["date"; "sku"; "quantity"]
        = Return true ->
        validate_sales_record (VDict record) = Return true)
    /\ (forall f,
          In f ["date"; "sku"; "quantity"] ->
          validate_sales_record (VDict record) = Return true ->
          dict_get record f = Some VNone ->
          has_required_fields (VDict record) ["date"; "sku"; "quantity"]
          = Return false).
Proof.
  intros record.
  assert (E : validate_sales_record (VDict record)
              = Return (dict_mem "date" record && dict_mem "sku" record
                        && dict_mem "quantity" record)).
  { unfold validate_sales_record. rewrite all_in_dict. cbn [forallb].
    now rewrite andb_true_r, andb_assoc. }
  split; [exact E | split].
  - intros H. rewrite E. rewrite has_required_fields_dict in H.
    injection H as H. cbn [forallb] in H.
    unfold present_b in H. unfold dict_mem.
    destruct (dict_get record "date"); [| discriminate].
    destruct (dict_get record "sku");
      [| now rewrite andb_false_r in H].
    destruct (dict_get record "quantity"); [reflexivity |].
    now rewrite !andb_false_r in H.
  - intros f Hf _ Hnone. rewrite has_required_fields_dict. f_equal.
    apply not_true_is_false. intro H.
    rewrite forallb_forall in H. specialize (H f Hf).
    unfold present_b in H. rewrite Hnone in H. discriminate.
Qed.

Lemma validate_sales_record_keys_witness :
  let record := [("date", VStr "2023-10-01"); ("sku", VStr "SKU001");
                 ("quantity", VNone)] in
  validate_sales_record (VDict record) = Return true
  /\ has_required_fields (VDict record) ["date"; "sku"; "quantity"]
     = Return false.
Proof.
  intros record. split; [reflexivity |].
  apply (proj2 (proj2 (validate_sales_record_keys record)) "quantity").
  - cbn [In]. tauto.
  - reflexivity.
  - reflexivity.
Defined.

(** ** [isoformat] and [fromisoformat] *)

(** A digit character is none of the characters the time parser branches
    on. *)
Lemma is_digit_not_time_special :
  forall c,
    is_digit c = true ->
    Ascii.eqb c ":" = false /\ Ascii.eqb c "." = false
    /\ Ascii.eqb c "," = false /\ Ascii.eqb c NUL = false
    /\ is_tz_char c = false.
Proof.
  intros [[|] [|] [|] [|] [|] [|] [|] [|]] H;
    try discriminate H; repeat split; reflexivity.
Qed.

(** One turn of the loop of [parse_hh_mm_ss_ff], on two digits. *)
Lemma parse_hms_step :
  forall buf p_end n i p has_separator vals,
    is_digit (peek buf p) = true ->
    is_digit (peek buf (S p)) = true ->
    parse_hms buf p_end (S n) i p has_separator vals
    = let c := peek buf (S (S p)) in
      let q := S (S (S p)) in
      let has_separator :=
        if (i =? 0)%nat then Ascii.eqb c ":" else has_separator in
      let vals := (vals ++ [dec2 (peek buf p) (peek buf (S p))])%list in
      if (p_end <=? q)%nat then
        Return (vals, HmsReturn (negb (Ascii.eqb c NUL)))
      else if has_separator && Ascii.eqb c ":" then
        parse_hms buf p_end n (S i) q has_separator vals
      else if Ascii.eqb c "." || Ascii.eqb c "," then
        Return (vals, HmsFraction q)
      else if negb has_separator then
        parse_hms buf p_end n (S i) (pred q) has_separator vals
      else Raise ValueError.
Proof.
  intros buf p_end n i p has_separator vals Ha Hb.
  cbn [parse_hms]. unfold digits_or_raise. cbn [parse_digits].
  rewrite Ha, Hb. reflexivity.
Qed.

(** No [Z], [+] or [-] from [pos] to [p_end]: the search ends at
    [p_end]. *)
Lemma find_tzinfo_none :
  forall buf p_end fuel pos,
    (pos < p_end)%nat -> (p_end <= S fuel + pos)%nat ->
    (forall i, (pos <= i < p_end)%nat -> is_tz_char (peek buf i) = false) ->
    find_tzinfo buf p_end fuel pos = p_end.
Proof.
  intros buf p_end fuel. induction fuel as [| fuel IH]; intros pos Hlt Hf Hno.
  - cbn [find_tzinfo]. rewrite (Hno pos) by lia. lia.
  - cbn [find_tzinfo]. rewrite (Hno pos) by lia.
    destruct (Nat.ltb_spec (S pos) p_end) as [L | L]; [| lia].
    apply IH; [exact L | lia |].
    intros i Hi. apply Hno. lia.
Qed.

(** The string [c0 c1 c2 c3 - c4 c5 - c6 c7 T t0 t1 : t2 t3 : t4 t5],
    followed by [fraction]. *)
Definition datetime_string (c0 c1 c2 c3 c4 c5 c6 c7 t0 t1 t2 t3 t4 t5 : ascii)
    (fraction : string) : string :=
  String c0 (String c1 (String c2 (String c3 (String "-"
    (String c4 (String c5 (String "-"
      (String c6 (String c7 (String "T"
        (String t0 (String t1 (String ":"
          (String t2 (String t3 (String ":"
            (String t4 (String t5 fraction)))))))))))))))))).

(** The fraction [. u0 u1 u2 u3 u4 u5]. *)
Definition fraction_string (u0 u1 u2 u3 u4 u5 : ascii) : string :=
  String "." (String u0 (String u1 (String u2 (String u3 (String u4
    (String u5 EmptyString)))))).

Definition dec6 (a b c d e f : ascii) : Z :=
  (((((0 * 10 + digit_val a) * 10 + digit_val b) * 10 + digit_val c) * 10
    + digit_val d) * 10 + digit_val e) * 10 + digit_val f.

Section DateTimeString.

Variables c0 c1 c2 c3 c4 c5 c6 c7 t0 t1 t2 t3 t4 t5 : ascii.
Hypothesis H0 : is_digit c0 = true.
Hypothesis H1 : is_digit c1 = true.
Hypothesis H2 : is_digit c2 = true.
Hypothesis H3 : is_digit c3 = true.
Hypothesis H4 : is_digit c4 = true.
Hypothesis H5 : is_digit c5 = true.
Hypothesis H6 : is_digit c6 = true.
Hypothesis H7 : is_digit c7 = true.
Hypothesis T0 : is_digit t0 = true.
Hypothesis T1 : is_digit t1 = true.
Hypothesis T2 : is_digit t2 = true.
Hypothesis T3 : is_digit t3 = true.
Hypothesis T4 : is_digit t4 = true.
Hypothesis T5 : is_digit t5 = true.

Let s (fraction : string) : string :=
  datetime_string c0 c1 c2 c3 c4 c5 c6 c7 t0 t1 t2 t3 t4 t5 fraction.

Let s19 : string := s "".

Variables u0 u1 u2 u3 u4 u5 : ascii.
Hypothesis U0 : is_digit u0 = true.
Hypothesis U1 : is_digit u1 = true.
Hypothesis U2 : is_digit u2 = true.
Hypothesis U3 : is_digit u3 = true.
Hypothesis U4 : is_digit u4 = true.
Hypothesis U5 : is_digit u5 = true.

Let s26 : string := s (fraction_string u0 u1 u2 u3 u4 u5).

Lemma datetime_string_separator :
  forall fraction,
    find_isoformat_datetime_separator (s fraction) (String.length (s fraction))
    = Some 10%nat.
Proof.
  intros fraction.
  destruct (is_digit_not_special c4 H4) as (_ & W4 & _).
  unfold find_isoformat_datetime_separator.
  change (String.length (s fraction))
    with (19 + String.length fraction)%nat.
  change (19 + String.length fraction =? 7)%nat with false. cbv iota.
  change (peek (s fraction) 4) with "-"%char.
  change (peek (s fraction) 5) with c4.
  now rewrite W4.
Qed.

Lemma datetime_string_date :
  forall fraction,
    parse_isoformat_date (s fraction) 10
    = Return (dec4 c0 c1 c2 c3, dec2 c4 c5, dec2 c6 c7).
Proof.
  intros fraction.
  destruct (is_digit_not_special c4 H4) as (_ & W4 & _).
  unfold parse_isoformat_date, digits_or_raise. cbn [parse_digits].
  change (peek (s fraction) 0) with c0. change (peek (s fraction) 1) with c1.
  change (peek (s fraction) 2) with c2. change (peek (s fraction) 3) with c3.
  rewrite H0, H1, H2, H3. cbn [bind].
  change (peek (s fraction) 4) with "-"%char.
  change (Ascii.eqb "-" "-") with true. cbv iota.
  change (peek (s fraction) 5) with c4. rewrite W4.
  cbn [parse_digits].
  change (peek (s fraction) 6) with c5. rewrite H4, H5. cbn [bind].
  change (peek (s fraction) 7) with "-"%char.
  change (Ascii.eqb "-" "-") with true. cbn [andb negb].
  cbn [parse_digits].
  change (peek (s fraction) 8) with c6. change (peek (s fraction) 9) with c7.
  rewrite H6, H7. reflexivity.
Qed.

(** The loop reads hour and minute and comes to the seconds. *)
Lemma datetime_string_hms :
  forall fraction p_end,
    (17 < p_end)%nat ->
    parse_hms (s fraction) p_end 3 0 11 true []
    = parse_hms (s fraction) p_end 1 2 17 true [dec2 t0 t1; dec2 t2 t3].
Proof.
  intros fraction p_end Hp.
  rewrite parse_hms_step by assumption.
  change (peek (s fraction) 11) with t0. change (peek (s fraction) 12) with t1.
  change (peek (s fraction) 13) with ":"%char.
  cbv zeta. change (0 =? 0)%nat with true. cbv iota.
  change (Ascii.eqb ":" ":") with true. cbn [andb app].
  destruct (Nat.leb_spec p_end 14); [lia |].
  rewrite parse_hms_step by assumption.
  change (peek (s fraction) 14) with t2. change (peek (s fraction) 15) with t3.
  change (peek (s fraction) 16) with ":"%char.
  cbv zeta. change (1 =? 0)%nat with false. cbv iota.
  change (Ascii.eqb ":" ":") with true. cbn [andb app].
  destruct (Nat.leb_spec p_end 17); [lia |].
  reflexivity.
Qed.

(** The time part has no [Z], [+] or [-]. *)
Lemma datetime_string_no_tz :
  forall i, (11 <= i < 19)%nat -> is_tz_char (peek s19 i) = false.
Proof.
  intros i Hi.
  destruct (is_digit_not_time_special t0 T0) as (_ & _ & _ & _ & Z0).
  destruct (is_digit_not_time_special t1 T1) as (_ & _ & _ & _ & Z1).
  destruct (is_digit_not_time_special t2 T2) as (_ & _ & _ & _ & Z2).
  destruct (is_digit_not_time_special t3 T3) as (_ & _ & _ & _ & Z3).
  destruct (is_digit_not_time_special t4 T4) as (_ & _ & _ & _ & Z4).
  destruct (is_digit_not_time_special t5 T5) as (_ & _ & _ & _ & Z5).
  do 11 (destruct i as [| i]; [lia |]).
  do 8 (destruct i as [| i]; [first [assumption | reflexivity] |]).
  lia.
Qed.

Lemma datetime_string_no_tz_fraction :
  forall i, (11 <= i < 26)%nat -> is_tz_char (peek s26 i) = false.
Proof.
  intros i Hi.
  destruct (is_digit_not_time_special t0 T0) as (_ & _ & _ & _ & Z0).
  destruct (is_digit_not_time_special t1 T1) as (_ & _ & _ & _ & Z1).
  destruct (is_digit_not_time_special t2 T2) as (_ & _ & _ & _ & Z2).
  destruct (is_digit_not_time_special t3 T3) as (_ & _ & _ & _ & Z3).
  destruct (is_digit_not_time_special t4 T4) as (_ & _ & _ & _ & Z4).
  destruct (is_digit_not_time_special t5 T5) as (_ & _ & _ & _ & Z5).
  destruct (is_digit_not_time_special u0 U0) as (_ & _ & _ & _ & V0).
  destruct (is_digit_not_time_special u1 U1) as (_ & _ & _ & _ & V1).
  destruct (is_digit_not_time_special u2 U2) as (_ & _ & _ & _ & V2).
  destruct (is_digit_not_time_special u3 U3) as (_ & _ & _ & _ & V3).
  destruct (is_digit_not_time_special u4 U4) as (_ & _ & _ & _ & V4).
  destruct (is_digit_not_time_special u5 U5) as (_ & _ & _ & _ & V5).
  do 11 (destruct i as [| i]; [lia |]).
  do 15 (destruct i as [| i]; [first [assumption | reflexivity] |]).
  lia.
Qed.

Lemma datetime_string_time :
  parse_isoformat_time s19 11 19
  = Return (dec2 t0 t1, dec2 t2 t3, dec2 t4 t5, 0, None).
Proof.
  unfold parse_isoformat_time.
  change (String.length s19) with 19%nat.
  rewrite find_tzinfo_none by (try lia; exact datetime_string_no_tz).
  unfold parse_hh_mm_ss_ff. unfold s19 at 1.
  rewrite datetime_string_hms by lia. fold s19.
  rewrite parse_hms_step by assumption.
  reflexivity.
Qed.

Lemma datetime_string_time_fraction :
  parse_isoformat_time s26 11 26
  = Return (dec2 t0 t1, dec2 t2 t3, dec2 t4 t5, dec6 u0 u1 u2 u3 u4 u5, None).
Proof.
  unfold parse_isoformat_time.
  change (String.length s26) with 26%nat.
  rewrite find_tzinfo_none by (try lia; exact datetime_string_no_tz_fraction).
  unfold parse_hh_mm_ss_ff. unfold s26 at 1.
  rewrite datetime_string_hms by lia. fold s26.
  rewrite parse_hms_step by assumption.
  change (peek s26 19) with "."%char.
  cbv zeta. change (2 =? 0)%nat with false. cbv iota.
  change (26 <=? 20)%nat with false. cbv iota.
  change (Ascii.eqb "." ":") with false.
  change (Ascii.eqb "." ".") with true.
  cbn [andb orb bind app nth].
  change (Nat.min (26 - 20) 6) with 6%nat.
  unfold digits_or_raise. cbn [parse_digits].
  change (peek s26 20) with u0. change (peek s26 21) with u1.
  change (peek s26 22) with u2. change (peek s26 23) with u3.
  change (peek s26 24) with u4. change (peek s26 25) with u5.
  rewrite U0, U1, U2, U3, U4, U5.
  reflexivity.
Qed.

(** [fromisoformat] on [YYYY-MM-DDTHH:MM:SS] and on
    [YYYY-MM-DDTHH:MM:SS.ffffff] reads the numbers and builds the naive
    datetime. *)
Lemma fromisoformat_datetime_string :
  fromisoformat s19
  = new_datetime (dec4 c0 c1 c2 c3) (dec2 c4 c5) (dec2 c6 c7)
      (dec2 t0 t1) (dec2 t2 t3) (dec2 t4 t5) 0 None.
Proof.
  unfold fromisoformat. unfold s19 at 2 3 4.
  rewrite datetime_string_separator, datetime_string_date. fold s19.
  change (String.length s19) with 19%nat.
  change (19 <? 7)%nat with false. change (10 <? 19)%nat with true.
  cbv iota. cbn [bind].
  rewrite datetime_string_time. reflexivity.
Qed.

Lemma fromisoformat_datetime_string_fraction :
  fromisoformat s26
  = new_datetime (dec4 c0 c1 c2 c3) (dec2 c4 c5) (dec2 c6 c7)
      (dec2 t0 t1) (dec2 t2 t3) (dec2 t4 t5) (dec6 u0 u1 u2 u3 u4 u5) None.
Proof.
  unfold fromisoformat. unfold s26 at 2 3 4.
  rewrite datetime_string_separator, datetime_string_date. fold s26.
  change (String.length s26) with 26%nat.
  change (26 <? 7)%nat with false. change (10 <? 26)%nat with true.
  cbv iota. cbn [bind].
  rewrite datetime_string_time_fraction. reflexivity.
Qed.

End DateTimeString.

Lemma replace_char_absent :
  forall c new s, has_char c s = false -> replace_char c new s = s.
Proof.
  intros c new s. induction s as [| a s IH]; intro H; [reflexivity |].
  cbn [has_char] in H. cbn [replace_char].
  destruct (Ascii.eqb a c); [discriminate H |].
  cbn [orb] in H. now rewrite IH.
Qed.

Lemma dec6_digits :
  forall n,
    0 <= n <= 999999 ->
    let a := n / 10000 in
    let b := n mod 10000 / 100 in
    let c := (n mod 10000) mod 100 in
    dec6 (digit_char (a / 10)) (digit_char (a mod 10))
         (digit_char (b / 10)) (digit_char (b mod 10))
         (digit_char (c / 10)) (digit_char (c mod 10)) = n.
Proof.
  intros n Hn a b c.
  assert (Ha : 0 <= a <= 99) by (subst a; Z.div_mod_to_equations; lia).
  assert (Hb : 0 <= b <= 99) by (subst b; Z.div_mod_to_equations; lia).
  assert (Hc : 0 <= c <= 99) by (subst c; Z.div_mod_to_equations; lia).
  destruct (dec2_digits a Ha) as (_ & _ & Va).
  destruct (dec2_digits b Hb) as (_ & _ & Vb).
  destruct (dec2_digits c Hc) as (_ & _ & Vc).
  assert (E : forall x0 x1 x2 x3 x4 x5,
             dec6 x0 x1 x2 x3 x4 x5
             = (dec2 x0 x1 * 100 + dec2 x2 x3) * 100 + dec2 x4 x5).
  { intros. unfold dec6, dec2. ring. }
  rewrite E, Va, Vb, Vc. subst a b c. Z.div_mod_to_equations. lia.
Qed.

Lemma has_char_Z_pad2 :
  forall n, 0 <= n <= 99 -> has_char "Z" (pad2 n) = false.
Proof.
  intros n Hn. destruct (dec2_digits n Hn) as (Da & Db & _).
  destruct (is_digit_not_special _ Da) as (_ & _ & Za).
  destruct (is_digit_not_special _ Db) as (_ & _ & Zb).
  unfold pad2. cbn [has_char]. now rewrite Za, Zb.
Qed.

Lemma has_char_Z_pad4 :
  forall n, 0 <= n <= 9999 -> has_char "Z" (pad4 n) = false.
Proof.
  intros n Hn. unfold pad4. rewrite has_char_append.
  rewrite !has_char_Z_pad2 by (Z.div_mod_to_equations; lia). reflexivity.
Qed.

Lemma has_char_Z_pad6 :
  forall n, 0 <= n <= 999999 -> has_char "Z" (pad6 n) = false.
Proof.
  intros n Hn. unfold pad6. rewrite has_char_append.
  rewrite has_char_Z_pad2, has_char_Z_pad4
    by (Z.div_mod_to_equations; lia).
  reflexivity.
Qed.

Lemma isoformat_parses :
  forall d,
    valid_datetime d = true -> dt_tzinfo d = None ->
    fromisoformat (isoformat d) = Return d
    /\ is_valid_date_string (VStr (isoformat d)) = Return true.
Proof.
  intros d V Htz.
  assert (Hparse : fromisoformat (isoformat d) = Return d).
  { pose proof V as Vb. apply valid_datetime_fields in V.
    destruct V as [Hyear [Hm Hd] Hh Hmi Hs Hus _].
    assert (Hdim : days_in_month (dt_year d) (dt_month d) <= 31).
    { rewrite days_in_month_dim. revert Hm. generalize (dt_month d) as m.
      intros m Hm. each_month m Hm; destruct (is_leap (dt_year d));
        eval_tables; lia. }
    destruct d as [y m dd h mi sec us tz]. cbn in Htz. subst tz.
    cbn [dt_year dt_month dt_day dt_hour dt_minute dt_second dt_microsecond]
      in *.
    assert (Hhi : 0 <= y / 100 <= 99) by (Z.div_mod_to_equations; lia).
    assert (Hlo : 0 <= y mod 100 <= 99) by (Z.div_mod_to_equations; lia).
    destruct (dec2_digits (y / 100) Hhi) as (Y0 & Y1 & Yhi).
    destruct (dec2_digits (y mod 100) Hlo) as (Y2 & Y3 & Ylo).
    destruct (dec2_digits m ltac:(lia)) as (M0 & M1 & Mv).
    destruct (dec2_digits dd ltac:(lia)) as (D0 & D1 & Dv).
    destruct (dec2_digits h ltac:(lia)) as (Hh0 & Hh1 & Hv).
    destruct (dec2_digits mi ltac:(lia)) as (Mi0 & Mi1 & Miv).
    destruct (dec2_digits sec ltac:(lia)) as (S0 & S1 & Sv).
    assert (Hy4 :
      dec4 (digit_char (y / 100 / 10)) (digit_char ((y / 100) mod 10))
           (digit_char (y mod 100 / 10)) (digit_char ((y mod 100) mod 10))
      = y).
    { unfold dec4, dec2 in *. Z.div_mod_to_equations. lia. }
    unfold isoformat.
    cbn [dt_year dt_month dt_day dt_hour dt_minute dt_second dt_microsecond].
    destruct (Z.eqb_spec us 0) as [-> | Hnz].
    - change (fromisoformat
                (datetime_string
                   (digit_char (y / 100 / 10)) (digit_char ((y / 100) mod 10))
                   (digit_char (y mod 100 / 10))
                   (digit_char ((y mod 100) mod 10))
                   (digit_char (m / 10)) (digit_char (m mod 10))
                   (digit_char (dd / 10)) (digit_char (dd mod 10))
                   (digit_char (h / 10)) (digit_char (h mod 10))
                   (digit_char (mi / 10)) (digit_char (mi mod 10))
                   (digit_char (sec / 10)) (digit_char (sec mod 10)) "")
              = Return (mkdatetime y m dd h mi sec 0 None)).
      rewrite fromisoformat_datetime_string by assumption.
      rewrite Hy4, Mv, Dv, Hv, Miv, Sv. unfold new_datetime.
      now rewrite Vb.
    - set (a := us / 10000). set (b := us mod 10000 / 100).
      set (c := (us mod 10000) mod 100).
      assert (Ha : 0 <= a <= 99) by (subst a; Z.div_mod_to_equations; lia).
      assert (Hb : 0 <= b <= 99) by (subst b; Z.div_mod_to_equations; lia).
      assert (Hc : 0 <= c <= 99) by (subst c; Z.div_mod_to_equations; lia).
      destruct (dec2_digits a Ha) as (A0 & A1 & _).
      destruct (dec2_digits b Hb) as (B0 & B1 & _).
      destruct (dec2_digits c Hc) as (C0 & C1 & _).
      change (fromisoformat
                (datetime_string
                   (digit_char (y / 100 / 10)) (digit_char ((y / 100) mod 10))
                   (digit_char (y mod 100 / 10))
                   (digit_char ((y mod 100) mod 10))
                   (digit_char (m / 10)) (digit_char (m mod 10))
                   (digit_char (dd / 10)) (digit_char (dd mod 10))
                   (digit_char (h / 10)) (digit_char (h mod 10))
                   (digit_char (mi / 10)) (digit_char (mi mod 10))
                   (digit_char (sec / 10)) (digit_char (sec mod 10))
                   (fraction_string
                      (digit_char (a / 10)) (digit_char (a mod 10))
                      (digit_char (b / 10)) (digit_char (b mod 10))
                      (digit_char (c / 10)) (digit_char (c mod 10))))
              = Return (mkdatetime y m dd h mi sec us None)).
      rewrite fromisoformat_datetime_string_fraction by assumption.
      rewrite Hy4, Mv, Dv, Hv, Miv, Sv.
      subst a b c. rewrite (dec6_digits us Hus).
      unfold new_datetime. now rewrite Vb. }
  split; [exact Hparse |].
  rewrite is_valid_date_string_total.
  rewrite replace_char_absent; [now rewrite Hparse |].
  clear Hparse. apply valid_datetime_fields in V.
  destruct V as [Hyear [Hm Hd] Hh Hmi Hs Hus _].
  assert (Hdim : days_in_month (dt_year d) (dt_month d) <= 31).
  { rewrite days_in_month_dim. revert Hm. generalize (dt_month d) as m.
    intros m Hm. each_month m Hm; destruct (is_leap (dt_year d));
      eval_tables; lia. }
  unfold isoformat. rewrite !has_char_append.
  rewrite has_char_Z_pad4 by lia.
  rewrite !has_char_Z_pad2 by lia.
  destruct (dt_microsecond d =? 0); [reflexivity |].
  rewrite has_char_append, has_char_Z_pad6 by lia. reflexivity.
Qed.

(** X25: [isoformat] and [fromisoformat] are inverse on naive datetimes:
    a valid datetime without [tzinfo] written by [isoformat] parses back
    to itself, so [is_valid_date_string] accepts what [isoformat]
    writes. *)
Theorem fromisoformat_isoformat :
  forall d,
    valid_datetime d = true -> dt_tzinfo d = None ->
    fromisoformat (isoformat d) = Return d
    /\ is_valid_date_string (VStr (isoformat d)) = Return true.
Proof. exact isoformat_parses. Qed.

Lemma fromisoformat_isoformat_witness :
  fromisoformat (isoformat Sample.clock) = Return Sample.clock
  /\ is_valid_date_string (VStr (isoformat Sample.clock)) = Return true.
Proof.
  apply (fromisoformat_isoformat Sample.clock); reflexivity.
Defined.

(** ** [generate_date_range] and [is_in_festival_period] together *)



(** ** [create_api_gateway_event], the other fields *)

(** X27: [create_api_gateway_event] never returns an event without
    headers: headers that are missing or empty are replaced by the JSON
    content type, and headers that are given are passed on.  Path and
    query parameters that are missing become empty dicts, and the method
    and the path are passed on. *)
Theorem create_api_gateway_event_defaults :
  forall json_dumps body pp qp headers http_method path event,
    create_api_gateway_event json_dumps body pp qp headers http_method path
    = Return event ->
    (exists h,
        dict_get event "headers" = Some (VDict h)
        /\ h <> []
        /\ (forall kv d, headers = Some (kv :: d) -> h = kv :: d)
        /\ (headers = None \/ headers = Some [] ->
            h = [("Content-Type", VStr "application/json")]))
    /\ dict_get event "pathParameters"
       = Some (VDict (match pp with Some d => d | None => [] end))
    /\ dict_get event "queryStringParameters"
       = Some (VDict (match qp with Some d => d | None => [] end))
    /\ dict_get event "httpMethod" = Some (VStr http_method)
    /\ dict_get event "path" = Some (VStr path).
Proof.
  intros json_dumps body pp qp headers http_method path event H.
  unfold create_api_gateway_event in H.
  destruct (dumps_if json_dumps body) as [serialized | e]; [| discriminate].
  cbn [bind] in H. injection H as <-.
  split; [| split; [| split; [| split]]].
  - eexists. split; [reflexivity |].
    destruct headers as [[| kv d] |]; cbn [or_dict].
    + split; [discriminate | split; [discriminate | reflexivity]].
    + split; [discriminate | split].
      * intros kv' d' E. now injection E as <- <-.
      * intros [E | E]; discriminate E.
    + split; [discriminate | split; [discriminate | reflexivity]].
  - destruct pp as [[| kv d] |]; reflexivity.
  - destruct qp as [[| kv d] |]; reflexivity.
  - reflexivity.
  - reflexivity.
Qed.

Lemma create_api_gateway_event_defaults_witness :
  exists h,
    dict_get
      [("httpMethod", VStr "GET"); ("path", VStr "/forecast");
       ("pathParameters", VDict []); ("queryStringParameters", VDict []);
       ("headers", VDict [("Content-Type", VStr "application/json")]);
       ("body", VNone);
       ("requestContext",
        VDict [("requestId", VStr "test-request-id");
               ("authorizer",
                VDict [("claims", VDict [("sub", VStr "test-user-123")])])]);
       ("isBase64Encoded", VBool false)] "headers" = Some (VDict h)
    /\ h <> [].
Proof.
  destruct (create_api_gateway_event_defaults
              (fun _ => Return "{}") None None None (Some []) "GET" "/forecast"
              _ eq_refl) as [(h & Hget & Hne & _) _].
  now exists h.
Defined.

(** ** [calculate_percentage_difference], a value against itself *)

Lemma iter_pos_shr_1_zero :
  forall p s,
    iter_pos shr_1 p {| shr_m := 0; shr_r := false; shr_s := s |}
    = {| shr_m := 0; shr_r := false; shr_s := s |}.
Proof.
  assert (E : forall s,
             shr_1 {| shr_m := 0; shr_r := false; shr_s := s |}
             = {| shr_m := 0; shr_r := false; shr_s := s |}) by reflexivity.
  induction p as [p IH | p IH |]; intros s; cbn [iter_pos].
  - now rewrite E, !IH.
  - now rewrite !IH.
  - apply E.
Qed.

Lemma shr_zero :
  forall s e n,
    shr_m (fst (shr {| shr_m := 0; shr_r := false; shr_s := s |} e n)) = 0
    /\ loc_of_shr_record
         (fst (shr {| shr_m := 0; shr_r := false; shr_s := s |} e n))
       = loc_of_shr_record {| shr_m := 0; shr_r := false; shr_s := s |}.
Proof.
  intros s e n. unfold shr.
  destruct n as [| p | p]; cbn [fst]; try (split; reflexivity).
  rewrite iter_pos_shr_1_zero. split; reflexivity.
Qed.

(** Rounding an exact zero gives zero. *)
Lemma binary_round_aux_zero :
  forall sx ex,
    binary_round_aux prec emax sx 0 ex loc_Exact = S754_zero sx.
Proof.
  intros sx ex. unfold binary_round_aux, shr_fexp.
  cbn [shr_record_of_loc].
  destruct (shr_zero false ex
              (fexp prec emax (Zdigits2 0 + ex) - ex)) as [M1 L1].
  destruct (shr _ ex _) as [mrs' e'] eqn:E1. cbn [fst] in M1, L1.
  rewrite M1, L1. cbn [loc_of_shr_record round_nearest_even].
  destruct (shr_zero false e'
              (fexp prec emax (Zdigits2 0 + e') - e')) as [M2 _].
  destruct (shr _ e' _) as [mrs'' e''] eqn:E2. cbn [fst] in M2.
  now rewrite M2.
Qed.

Lemma int_true_div_zero :
  forall a, a <> 0 -> int_true_div 0 a = Return (S754_zero (a <? 0)).
Proof.
  intros a Ha. unfold int_true_div.
  change (Z.abs 0) with 0. rewrite Z.shiftl_0_l.
  change (Z.div_eucl 0 (Z.abs a)) with (0, 0). cbv beta iota zeta.
  assert (L : new_location (Z.abs a) 0 = loc_Exact).
  { unfold new_location. destruct (Z.even (Z.abs a)); reflexivity. }
  rewrite L, binary_round_aux_zero. reflexivity.
Qed.

(** X28: the percentage difference of a value against itself is zero: for
    an int other than 0 and for a finite float other than 0.0 the result
    is the float zero with the sign of the value.  For an infinity it is
    NaN. *)
Theorem calculate_percentage_difference_same :
  (forall a,
      a <> 0 ->
      calculate_percentage_difference (NInt a) (NInt a)
      = Return (NFloat (S754_zero (a <? 0))))
  /\ (forall s m e,
        calculate_percentage_difference
          (NFloat (S754_finite s m e)) (NFloat (S754_finite s m e))
        = Return (NFloat (S754_zero s)))
  /\ (forall s,
        calculate_percentage_difference
          (NFloat (S754_infinity s)) (NFloat (S754_infinity s))
        = Return (NFloat S754_nan)).
Proof.
  split; [| split].
  - intros a Ha. unfold calculate_percentage_difference.
    rewrite num_eq_zero. cbn [num_is_zero].
    destruct (Z.eqb_spec a 0) as [E | _]; [contradiction |].
    cbn [num_sub bind num_div]. rewrite Z.sub_diag.
    rewrite (int_true_div_zero a Ha). cbn [bind num_mul].
    destruct (a <? 0); reflexivity.
  - intros s m e. unfold calculate_percentage_difference.
    rewrite num_eq_zero. cbn [num_is_zero num_sub bind SFsub].
    rewrite Z.sub_diag. cbn [binary_normalize num_div bind SFdiv num_mul].
    destruct s; reflexivity.
  - intros s. destruct s; reflexivity.
Qed.

Lemma calculate_percentage_difference_same_witness :
  calculate_percentage_difference (NInt (-40)) (NInt (-40))
  = Return (NFloat (S754_zero true)).
Proof.
  apply (proj1 calculate_percentage_difference_same (-40)). discriminate.
Defined.

(** ** What the strategies generate *)

Lemma is_in_range_float :
  forall v lo hi,
    is_in_range (VFloat v) (NFloat lo) (NFloat hi)
    = Return (SFleb lo v && SFleb v hi).
Proof.
  intros v lo hi. unfold is_in_range, py_le, num_le, SFleb.
  cbn [val_of_num as_num num_compare bind].
  destruct (SFcompare lo v) as [[| |] |]; reflexivity.
Qed.

Section GeneratedData.

Variable Choices : Type.
Variable integers : Z -> Z -> Strategy Choices Z.
Variable text : alphabet -> nat -> nat -> Strategy Choices string.
Variable sampled_from : list string -> Strategy Choices string.
Variable floats :
  float -> float -> option bool -> option bool -> Strategy Choices float.
Variable booleans : Strategy Choices bool.
Variable lists :
  forall A : Type,
    Strategy Choices A -> nat -> nat -> bool -> Strategy Choices (list A).

(** The contracts of the Hypothesis primitives: a draw lies within the
    bounds of its strategy, a sample is one of the elements, and a list
    has a length within its bounds and elements its element strategy
    draws. *)
Hypothesis integers_bounds :
  forall lo hi c v c',
    lo <= hi -> integers lo hi c = Return (v, c') -> lo <= v <= hi.
Hypothesis floats_bounds :
  forall lo hi nan inf c v c',
    SFleb lo hi = true ->
    floats lo hi nan inf c = Return (v, c') ->
    SFleb lo v = true /\ SFleb v hi = true.
Hypothesis sampled_from_in :
  forall l c v c',
    l <> [] -> sampled_from l c = Return (v, c') -> In v l.
Hypothesis lists_contract :
  forall (A : Type) (elements : Strategy Choices A) lo hi unique c l c',
    lists A elements lo hi unique c = Return (l, c') ->
    (lo <= List.length l <= hi)%nat
    /\ Forall (fun x => exists c1 c2, elements c1 = Return (x, c2)) l.

(** X13: a request [forecast_request_strategy] generates has a forecast
    horizon [is_valid_forecast_horizon] accepts, a confidence
    [is_valid_confidence] accepts, and a data mode that is ["structured"]
    or ["low-data"]. *)
Theorem forecast_request_strategy_valid :
  forall c request c',
    forecast_request_strategy Choices integers text sampled_from floats lists c
    = Return (request, c') ->
    (exists h,
        dict_get request "forecastHorizon" = Some h
        /\ is_valid_forecast_horizon h = Return true)
    /\ (exists p,
          dict_get request "confidence" = Some p
          /\ is_valid_confidence p = Return true)
    /\ (exists m,
          dict_get request "dataMode" = Some (VStr m)
          /\ In m ["structured"; "low-data"]).
Proof.
  intros c request c' H.
  unfold forecast_request_strategy, draw in H.
  destruct (text _ 8%nat 12%nat c) as [[uid c1] | e]; [| discriminate].
  destruct (integers 7 14 c1) as [[h c2] | e] eqn:Eh; [| discriminate].
  destruct (lists string _ 0%nat 3%nat false c2) as [[fest c3] | e];
    [| discriminate].
  destruct (sampled_from _ c3) as [[mode c4] | e] eqn:Em; [| discriminate].
  destruct (floats f_zero f_one None None c4) as [[p c5] | e] eqn:Ep;
    [| discriminate].
  unfold ret in H. injection H as <- <-.
  pose proof (integers_bounds 7 14 c1 h c2 ltac:(lia) Eh) as Hh.
  destruct (floats_bounds f_zero f_one _ _ _ _ _ eq_refl Ep) as [P0 P1].
  split; [| split].
  - exists (VInt h). split; [reflexivity |].
    now apply horizon_in_range.
  - exists (VFloat p). split; [reflexivity |].
    now rewrite is_valid_confidence_float, P0, P1.
  - exists mode. split; [reflexivity |].
    eapply sampled_from_in; [| exact Em]; discriminate.
Qed.

(** X14: an inventory record [inventory_data_strategy] generates has a
    stock between 0 and 10000, a reorder point between 10 and 500, a lead
    time between 1 and 30 days, and a category among ["grocery"],
    ["apparel"], ["electronics"]. *)
Theorem inventory_data_strategy_bounds :
  forall c record c',
    inventory_data_strategy Choices integers text sampled_from c
    = Return (record, c') ->
    exists category stock reorder lead,
      dict_get record "category" = Some (VStr category)
      /\ In category ["grocery"; "apparel"; "electronics"]
      /\ dict_get record "currentStock" = Some (VInt stock)
      /\ 0 <= stock <= 10000
      /\ dict_get record "reorderPoint" = Some (VInt reorder)
      /\ 10 <= reorder <= 500
      /\ dict_get record "leadTimeDays" = Some (VInt lead)
      /\ 1 <= lead <= 30.
Proof.
  intros c record c' H.
  unfold inventory_data_strategy, draw in H.
  destruct (text _ 5%nat 10%nat c) as [[sku c1] | e]; [| discriminate].
  destruct (sampled_from _ c1) as [[category c2] | e] eqn:Ec; [| discriminate].
  destruct (integers 0 10000 c2) as [[stock c3] | e] eqn:Es; [| discriminate].
  destruct (integers 10 500 c3) as [[reorder c4] | e] eqn:Er; [| discriminate].
  destruct (integers 1 30 c4) as [[lead c5] | e] eqn:El; [| discriminate].
  unfold ret in H. injection H as <- <-.
  exists category, stock, reorder, lead.
  pose proof (integers_bounds 0 10000 _ _ _ ltac:(lia) Es).
  pose proof (integers_bounds 10 500 _ _ _ ltac:(lia) Er).
  pose proof (integers_bounds 1 30 _ _ _ ltac:(lia) El).
  assert (In category ["grocery"; "apparel"; "electronics"])
    by (eapply sampled_from_in; [| exact Ec]; discriminate).
  repeat split; try reflexivity; try assumption; lia.
Qed.

(** A profile as [user_profile_strategy] generates them on the clock
    reading [now]. *)
Definition user_profile_ok (now : datetime) (profile : pydict) : Prop :=
  exists preferences info capabilities h tolerance type,
    dict_get profile "preferences" = Some (VDict preferences)
    /\ dict_get preferences "forecastHorizon" = Some h
    /\ is_valid_forecast_horizon h = Return true
    /\ dict_get preferences "riskTolerance" = Some (VStr tolerance)
    /\ In tolerance RISK_TOLERANCES
    /\ dict_get profile "businessInfo" = Some (VDict info)
    /\ dict_get info "type" = Some (VStr type)
    /\ In type BUSINESS_TYPES
    /\ dict_get profile "dataCapabilities" = Some (VDict capabilities)
    /\ dict_get capabilities "lastUpdated" = Some (VStr (isoformat now))
    /\ fromisoformat (isoformat now) = Return now
    /\ is_valid_date_string (VStr (isoformat now)) = Return true.

(** X15: a profile [user_profile_strategy] generates has, under
    [preferences], a forecast horizon [is_valid_forecast_horizon] accepts
    and a risk tolerance from [RISK_TOLERANCES], under [businessInfo] a
    type from [BUSINESS_TYPES], and under [dataCapabilities] a
    [lastUpdated] that [is_valid_date_string] accepts and that parses back
    to the reading of the clock, a valid datetime without [tzinfo]. *)
Theorem user_profile_strategy_valid :
  forall now c profile c',
    valid_datetime now = true -> dt_tzinfo now = None ->
    user_profile_strategy Choices integers text sampled_from booleans now c
    = Return (profile, c') ->
    user_profile_ok now profile.
Proof.
  intros now c profile c' Vnow Hnaive H.
  destruct (isoformat_parses now Vnow Hnaive) as [Hparse Hvalid].
  unfold user_profile_strategy, draw in H.
  destruct (text _ 8%nat 12%nat c) as [[uid c1] | e]; [| discriminate].
  destruct (text _ 5%nat 50%nat c1) as [[name c2] | e]; [| discriminate].
  destruct (sampled_from BUSINESS_TYPES c2) as [[type c3] | e] eqn:Et;
    [| discriminate].
  destruct (text _ 3%nat 30%nat c3) as [[city c4] | e]; [| discriminate].
  destruct (text _ 3%nat 30%nat c4) as [[state c5] | e]; [| discriminate].
  destruct (sampled_from REGIONS c5) as [[region c6] | e]; [| discriminate].
  destruct (sampled_from STORE_SIZES c6) as [[size c7] | e]; [| discriminate].
  destruct (booleans c7) as [[hist c8] | e]; [| discriminate].
  destruct (sampled_from DATA_QUALITIES c8) as [[quality c9] | e];
    [| discriminate].
  destruct (integers 7 14 c9) as [[h c10] | e] eqn:Eh; [| discriminate].
  destruct (sampled_from RISK_TOLERANCES c10) as [[tol c11] | e] eqn:Er;
    [| discriminate].
  unfold ret in H. injection H as <- <-.
  pose proof (integers_bounds 7 14 _ _ _ ltac:(lia) Eh) as Hh.
  unfold user_profile_ok.
  eexists _, _, _, (VInt h), tol, type.
  split; [reflexivity |]. split; [reflexivity |].
  split; [now apply horizon_in_range |].
  split; [reflexivity |].
  split; [eapply sampled_from_in; [| exact Er]; discriminate |].
  split; [reflexivity |]. split; [reflexivity |].
  split; [eapply sampled_from_in; [| exact Et]; discriminate |].
  split; [reflexivity |]. split; [reflexivity |].
  split; [exact Hparse | exact Hvalid].
Qed.

(** X16: a festival [festival_event_strategy] generates, on a clock of the
    year 1000 or later, has a date that parses as an ISO date and lies 1
    to 365 days after today, at least one and at most three regions, all
    from [REGIONS], demand multipliers that [is_in_range] places between
    1.0 and 5.0, and a duration of 1 to 10 days. *)
Theorem festival_event_strategy_valid :
  forall now c festival c',
    valid_datetime now = true ->
    1000 <= dt_year now ->
    festival_event_strategy Choices integers sampled_from floats lists now c
    = Return (festival, c') ->
    (exists date parsed,
        dict_get festival "date" = Some (VStr date)
        /\ fromisoformat date = Return parsed
        /\ 1 <= toordinal parsed - toordinal now <= 365)
    /\ (exists regions,
          dict_get festival "region" = Some (VList (map VStr regions))
          /\ (1 <= List.length regions <= 3)%nat
          /\ Forall (fun r => In r REGIONS) regions)
    /\ (exists multipliers,
          dict_get festival "demandMultipliers" = Some (VDict multipliers)
          /\ dict_keys multipliers = ["grocery"; "apparel"; "electronics"]
          /\ Forall (fun kv =>
                       is_in_range (snd kv) (NFloat f_one) (NFloat f_5)
                       = Return true) multipliers)
    /\ (exists duration,
          dict_get festival "duration" = Some (VInt duration)
          /\ 1 <= duration <= 10).
Proof.
  intros now c festival c' V Hy H.
  apply valid_datetime_fields in V.
  unfold festival_event_strategy, draw in H.
  destruct (integers 1 365 c) as [[ahead c1] | e] eqn:Ea; [| discriminate].
  unfold lift in H.
  destruct (add_days now ahead) as [date | e] eqn:Ed; [| discriminate].
  destruct (sampled_from festival_names c1) as [[id_name c2] | e];
    [| discriminate].
  destruct (sampled_from festival_names c2) as [[name c3] | e];
    [| discriminate].
  destruct (lists string _ 1%nat 3%nat true c3) as [[region c4] | e] eqn:Er;
    [| discriminate].
  destruct (floats f_one f_5 None None c4) as [[g c5] | e] eqn:Eg;
    [| discriminate].
  destruct (floats f_one f_5 None None c5) as [[a c6] | e] eqn:Eap;
    [| discriminate].
  destruct (floats f_one f_5 None None c6) as [[el c7] | e] eqn:Eel;
    [| discriminate].
  destruct (integers 1 10 c7) as [[duration c8] | e] eqn:Edu; [| discriminate].
  destruct (integers 7 30 c8) as [[prep c9] | e]; [| discriminate].
  unfold ret in H. injection H as <- <-.
  pose proof (integers_bounds 1 365 _ _ _ ltac:(lia) Ea) as Hahead.
  pose proof (integers_bounds 1 10 _ _ _ ltac:(lia) Edu) as Hdur.
  split; [| split; [| split]].
  - assert (Hord : 1 <= toordinal now + ahead <= MAXORDINAL).
    { pose proof (toordinal_bounds now V). split; [lia |].
      unfold add_days in Ed.
      destruct (_ || _); [discriminate |].
      destruct (0 <? toordinal now + ahead); [| discriminate].
      destruct (Z.leb_spec (toordinal now + ahead) MAXORDINAL);
        [assumption | discriminate]. }
    destruct (add_days_spec now ahead V Hord) as (d & Hd & Vd & Hdo & _).
    rewrite Hd in Ed. injection Ed as <-.
    assert (Hyd : 1000 <= dt_year d).
    { apply (year_from_toordinal d 1000 Vd).
      pose proof (toordinal_from_year now 1000 V Hy). lia. }
    destruct (fromisoformat_strftime d Vd Hyd) as [Hparse _].
    eexists _, _. split; [reflexivity | split; [exact Hparse |]].
    assert (Hmid : toordinal
                     (mkdatetime (dt_year d) (dt_month d) (dt_day d)
                        0 0 0 0 None) = toordinal d) by reflexivity.
    rewrite Hmid. lia.
  - destruct (lists_contract _ _ _ _ _ _ _ _ Er) as [Hlen Hall].
    exists region. split; [reflexivity | split; [exact Hlen |]].
    eapply Forall_impl; [| exact Hall].
    intros r (q1 & q2 & Hq).
    eapply sampled_from_in; [| exact Hq]; discriminate.
  - destruct (floats_bounds f_one f_5 _ _ _ _ _ eq_refl Eg) as [G0 G1].
    destruct (floats_bounds f_one f_5 _ _ _ _ _ eq_refl Eap) as [A0 A1].
    destruct (floats_bounds f_one f_5 _ _ _ _ _ eq_refl Eel) as [E0 E1].
    eexists. split; [reflexivity | split; [reflexivity |]].
    repeat constructor; cbn [snd]; rewrite is_in_range_float.
    + now rewrite G0, G1.
    + now rewrite A0, A1.
    + now rewrite E0, E1.
  - exists duration. split; [reflexivity | lia].
Qed.

Lemma sales_record_fields :
  forall now c record c',
    valid_datetime now = true ->
    1002 <= dt_year now ->
    sales_record_strategy Choices integers text sampled_from floats now c
    = Return (record, c') ->
    exists date parsed quantity category price,
      dict_get record "date" = Some (VStr date)
      /\ fromisoformat date = Return parsed
      /\ is_valid_date_string (VStr date) = Return true
      /\ 0 <= toordinal now - toordinal parsed <= 730
      /\ dict_get record "quantity" = Some (VInt quantity)
      /\ 1 <= quantity <= 1000
      /\ dict_get record "category" = Some (VStr category)
      /\ In category ["grocery"; "apparel"; "electronics"; "home"; "beauty"]
      /\ dict_get record "price" = Some (VFloat price)
      /\ is_in_range (VFloat price) (NFloat f_one) (NFloat f_10000)
         = Return true.
Proof.
  intros now c record c' V Hy H.
  apply valid_datetime_fields in V.
  unfold sales_record_strategy, draw in H.
  destruct (integers 0 730 c) as [[days_ago c1] | e] eqn:Ea; [| discriminate].
  unfold lift in H.
  destruct (sub_days now days_ago) as [date | e] eqn:Ed; [| discriminate].
  destruct (text _ 5%nat 10%nat c1) as [[sku c2] | e]; [| discriminate].
  destruct (integers 1 1000 c2) as [[quantity c3] | e] eqn:Eq; [| discriminate].
  destruct (sampled_from _ c3) as [[category c4] | e] eqn:Ec; [| discriminate].
  destruct (floats _ _ _ _ c4) as [[price c5] | e] eqn:Ep; [| discriminate].
  unfold ret in H. injection H as <- <-.
  pose proof (integers_bounds 0 730 _ _ _ ltac:(lia) Ea) as Hago.
  pose proof (integers_bounds 1 1000 _ _ _ ltac:(lia) Eq) as Hq.
  destruct (floats_bounds f_one f_10000 _ _ _ _ _ eq_refl Ep) as [P0 P1].
  destruct (sub_days_recent now days_ago date V Hy Hago Ed)
    as (Vd & Hyd & Hord).
  destruct (fromisoformat_strftime date Vd Hyd) as [Hparse Hvalid].
  eexists _, _, quantity, category, price.
  split; [reflexivity |]. split; [exact Hparse |]. split; [exact Hvalid |].
  split.
  { assert (Hmid : toordinal
                     (mkdatetime (dt_year date) (dt_month date) (dt_day date)
                        0 0 0 0 None) = toordinal date) by reflexivity.
    rewrite Hmid. lia. }
  split; [reflexivity |]. split; [exact Hq |]. split; [reflexivity |].
  split; [eapply sampled_from_in; [| exact Ec]; discriminate |].
  split; [reflexivity |].
  now rewrite is_in_range_float, P0, P1.
Qed.

(** A record as [sales_record_strategy] generates them.  [today] is the
    calendar day of the clock. *)
Definition sales_record_ok (today : Z) (record : pydict) : Prop :=
  exists date parsed quantity category price,
    dict_get record "date" = Some (VStr date)
    /\ fromisoformat date = Return parsed
    /\ is_valid_date_string (VStr date) = Return true
    /\ 0 <= today - toordinal parsed <= 730
    /\ dict_get record "quantity" = Some (VInt quantity)
    /\ 1 <= quantity <= 1000
    /\ dict_get record "category" = Some (VStr category)
    /\ In category ["grocery"; "apparel"; "electronics"; "home"; "beauty"]
    /\ dict_get record "price" = Some (VFloat price)
    /\ is_in_range (VFloat price) (NFloat f_one) (NFloat f_10000)
       = Return true.

(** X17: a list [sales_data_list_strategy] generates, on a clock of the
    year 1002 or later, has between [min_size] and [max_size] records, and
    every record has a date that parses as an ISO date at most 730 days
    before today, a quantity between 1 and 1000, a category among the five
    of the strategy, and a price that [is_in_range] places between 1.0 and
    10000.0. *)
Theorem sales_data_list_strategy_valid :
  forall now min_size max_size c records c',
    valid_datetime now = true ->
    1002 <= dt_year now ->
    sales_data_list_strategy Choices integers text sampled_from floats lists
      now min_size max_size c = Return (records, c') ->
    (min_size <= List.length records <= max_size)%nat
    /\ Forall (sales_record_ok (toordinal now)) records.
Proof.
  intros now min_size max_size c records c' V Hy H.
  unfold sales_data_list_strategy in H.
  destruct (lists_contract _ _ _ _ _ _ _ _ H) as [Hlen Hall].
  split; [exact Hlen |].
  eapply Forall_impl; [| exact Hall].
  intros record (c1 & c2 & Hrun).
  exact (sales_record_fields now c1 record c2 V Hy Hrun).
Qed.

(** X21: the two property tests of test_example.py on sales records pass
    on every example the strategies generate: a record of
    [sales_record_strategy] has the three required keys and an [int]
    quantity above 0, and a list of [sales_data_list_strategy] of 1 to 50
    records is not empty and has only such records. *)
Theorem sales_tests_pass :
  (forall now c record c',
      sales_record_strategy Choices integers text sampled_from floats now c
      = Return (record, c') ->
      test_property_all_generated_records_are_valid record = Return tt)
  /\ (forall now c records c',
        sales_data_list_strategy Choices integers text sampled_from floats
          lists now 1 50 c = Return (records, c') ->
        test_property_list_validation records = Return tt).
Proof.
  assert (Hrec : forall now c record c',
             sales_record_strategy Choices integers text sampled_from floats
               now c = Return (record, c') ->
             validate_sales_record (VDict record) = Return true
             /\ exists quantity,
                 dict_get record "quantity" = Some (VInt quantity)
                 /\ 1 <= quantity).
  { intros now c record c' H.
    unfold sales_record_strategy, draw in H.
    destruct (integers 0 730 c) as [[days_ago c1] | e]; [| discriminate].
    unfold lift in H.
    destruct (sub_days now days_ago) as [date | e]; [| discriminate].
    destruct (text _ 5%nat 10%nat c1) as [[sku c2] | e]; [| discriminate].
    destruct (integers 1 1000 c2) as [[quantity c3] | e] eqn:Eq;
      [| discriminate].
    destruct (sampled_from _ c3) as [[category c4] | e]; [| discriminate].
    destruct (floats _ _ _ _ c4) as [[price c5] | e]; [| discriminate].
    unfold ret in H. injection H as <- <-.
    pose proof (integers_bounds 1 1000 _ _ _ ltac:(lia) Eq) as Hq.
    split; [reflexivity |].
    exists quantity. split; [reflexivity | lia]. }
  split.
  - intros now c record c' H.
    destruct (Hrec _ _ _ _ H) as (Hv & quantity & Hget & Hq).
    unfold test_property_all_generated_records_are_valid.
    rewrite Hv. unfold dict_index. rewrite Hget.
    cbn [assert_r bind assert isinstance py_gt as_num num_compare].
    destruct (Z.compare_spec quantity 0); [lia | lia | reflexivity].
  - intros now c records c' H. unfold sales_data_list_strategy in H.
    destruct (lists_contract _ _ _ _ _ _ _ _ H) as [Hlen Hall].
    unfold test_property_list_validation.
    destruct (Z.ltb_spec 0 (Z.of_nat (List.length records))); [| lia].
    cbn [assert bind].
    clear Hlen H H0. induction Hall as [| record records Hx _ IH];
      [reflexivity |].
    destruct Hx as (c1 & c2 & Hrun).
    destruct (Hrec _ _ _ _ Hrun) as (Hv & _).
    cbn [for_each]. rewrite Hv. exact IH.
Qed.

(** X22: the two property tests of test_example.py on festivals pass on
    every example [festival_event_strategy] generates: each demand
    multiplier is at least 1.0 and at most 5.0, and the regions are a
    non-empty list of strings. *)
Theorem festival_tests_pass :
  forall now c festival c',
    festival_event_strategy Choices integers sampled_from floats lists now c
    = Return (festival, c') ->
    test_property_festival_multipliers_valid festival = Return tt
    /\ test_property_festival_has_region festival = Return tt.
Proof.
  intros now c festival c' H.
  unfold festival_event_strategy, draw in H.
  destruct (integers 1 365 c) as [[ahead c1] | e]; [| discriminate].
  unfold lift in H.
  destruct (add_days now ahead) as [date | e]; [| discriminate].
  destruct (sampled_from festival_names c1) as [[id_name c2] | e];
    [| discriminate].
  destruct (sampled_from festival_names c2) as [[name c3] | e];
    [| discriminate].
  destruct (lists string _ 1%nat 3%nat true c3) as [[region c4] | e] eqn:Er;
    [| discriminate].
  destruct (floats f_one f_5 None None c4) as [[g c5] | e] eqn:Eg;
    [| discriminate].
  destruct (floats f_one f_5 None None c5) as [[a c6] | e] eqn:Eap;
    [| discriminate].
  destruct (floats f_one f_5 None None c6) as [[el c7] | e] eqn:Eel;
    [| discriminate].
  destruct (integers 1 10 c7) as [[duration c8] | e]; [| discriminate].
  destruct (integers 7 30 c8) as [[prep c9] | e]; [| discriminate].
  unfold ret in H. injection H as <- <-.
  destruct (floats_bounds f_one f_5 _ _ _ _ _ eq_refl Eg) as [G0 G1].
  destruct (floats_bounds f_one f_5 _ _ _ _ _ eq_refl Eap) as [A0 A1].
  destruct (floats_bounds f_one f_5 _ _ _ _ _ eq_refl Eel) as [E0 E1].
  destruct (lists_contract _ _ _ _ _ _ _ _ Er) as [Hlen _].
  assert (Hle : forall x y,
             SFleb x y = true -> py_le (VFloat x) (VFloat y) = Return true).
  { intros x y Hxy. unfold py_le, num_le. cbn [as_num num_compare].
    unfold SFleb in Hxy. now rewrite Hxy. }
  split.
  - unfold test_property_festival_multipliers_valid, dict_index.
    cbn [dict_get String.eqb Ascii.eqb Bool.eqb bind py_items for_each snd].
    unfold py_ge.
    rewrite (Hle _ _ G0), (Hle _ _ G1), (Hle _ _ A0), (Hle _ _ A1),
      (Hle _ _ E0), (Hle _ _ E1).
    reflexivity.
  - unfold test_property_festival_has_region, dict_index.
    cbn [dict_get String.eqb Ascii.eqb Bool.eqb bind py_len py_iter].
    rewrite length_map.
    destruct (Z.ltb_spec 0 (Z.of_nat (List.length region))); [| lia].
    cbn [assert bind].
    assert (Hs : forallb (fun r => isinstance r TStr) (map VStr region) = true).
    { clear. induction region as [| r region IH]; [reflexivity | exact IH]. }
    now rewrite Hs.
Qed.

End GeneratedData.

(** Sample strategies for lists and booleans, and the contracts of the
    sample strategies. *)
Fixpoint draw_list {A : Type} (elements : Strategy Sample.Choices A) (n : nat)
  : Strategy Sample.Choices (list A) :=
  match n with
  | O => ret []
  | S n' =>
      draw elements (fun x => draw (draw_list elements n') (fun l =>
      ret (x :: l)))
  end.

Definition sample_lists (A : Type) (elements : Strategy Sample.Choices A)
    (min_size max_size : nat) (unique : bool)
  : Strategy Sample.Choices (list A) :=
  if (max_size <? min_size)%nat then lift (Raise ValueError)
  else draw_list elements min_size.

Definition sample_booleans : Strategy Sample.Choices bool :=
  fun c => let '(n, c') := Sample.next c in Return (Z.odd n, c').

Lemma SFleb_refl :
  forall x y, SFleb x y = true -> SFleb x x = true.
Proof.
  intros x y H. unfold SFleb in *.
  destruct x as [s | s | | s m e]; try reflexivity.
  - destruct s; reflexivity.
  - discriminate H.
  - unfold SFcompare. destruct s; rewrite Z.compare_refl.
    + now rewrite Pos.compare_cont_refl.
    + now rewrite Pos.compare_cont_refl.
Qed.

Lemma sample_floats_in_range :
  forall lo hi nan inf c v c',
    SFleb lo hi = true ->
    Sample.floats lo hi nan inf c = Return (v, c') ->
    SFleb lo v = true /\ SFleb v hi = true.
Proof.
  intros lo hi nan inf c v c' H E. unfold Sample.floats in E.
  injection E as <- <-. split; [exact (SFleb_refl lo hi H) | exact H].
Qed.

Lemma sample_sampled_from_in :
  forall l c v c',
    l <> [] -> Sample.sampled_from l c = Return (v, c') -> In v l.
Proof.
  intros l c v c' Hl E. unfold Sample.sampled_from in E.
  destruct (Sample.next c) as [n c1]. injection E as <- <-.
  apply nth_In.
  assert (0 < Z.of_nat (List.length l)) by (destruct l; [easy | cbn; lia]).
  pose proof (Z.mod_pos_bound n (Z.of_nat (List.length l)) ltac:(lia)). lia.
Qed.

Lemma draw_list_spec :
  forall (A : Type) (elements : Strategy Sample.Choices A) n c l c',
    draw_list elements n c = Return (l, c') ->
    List.length l = n
    /\ Forall (fun x => exists c1 c2, elements c1 = Return (x, c2)) l.
Proof.
  intros A elements n. induction n as [| n IH]; intros c l c' H.
  - injection H as <- <-. split; [reflexivity | constructor].
  - cbn [draw_list] in H. unfold draw at 1 in H.
    destruct (elements c) as [[x c1] | e] eqn:Ex; [| discriminate].
    unfold draw in H.
    destruct (draw_list elements n c1) as [[l1 c2] | e] eqn:El;
      [| discriminate].
    injection H as <- <-. destruct (IH _ _ _ El) as [Hlen Hall].
    split; [cbn; now rewrite Hlen |].
    constructor; [now exists c, c1 | exact Hall].
Qed.

Lemma sample_lists_contract :
  forall (A : Type) (elements : Strategy Sample.Choices A) lo hi unique c l c',
    sample_lists A elements lo hi unique c = Return (l, c') ->
    (lo <= List.length l <= hi)%nat
    /\ Forall (fun x => exists c1 c2, elements c1 = Return (x, c2)) l.
Proof.
  intros A elements lo hi unique c l c' H. unfold sample_lists in H.
  destruct (Nat.ltb_spec hi lo); [discriminate |].
  destruct (draw_list_spec _ _ _ _ _ _ H) as [Hlen Hall].
  split; [lia | exact Hall].
Qed.

Lemma forecast_request_strategy_valid_witness :
  exists request c',
    forecast_request_strategy Sample.Choices Sample.integers Sample.text
      Sample.sampled_from Sample.floats sample_lists [3; 1]
    = Return (request, c')
    /\ (exists h,
          dict_get request "forecastHorizon" = Some h
          /\ is_valid_forecast_horizon h = Return true)
    /\ (exists p,
          dict_get request "confidence" = Some p
          /\ is_valid_confidence p = Return true)
    /\ (exists m,
          dict_get request "dataMode" = Some (VStr m)
          /\ In m ["structured"; "low-data"]).
Proof.
  eexists. eexists. split; [vm_compute; reflexivity |].
  eapply (forecast_request_strategy_valid Sample.Choices Sample.integers
            Sample.text Sample.sampled_from Sample.floats sample_lists
            sample_integers_in_range sample_floats_in_range
            sample_sampled_from_in [3; 1]).
  vm_compute. reflexivity.
Defined.

Lemma inventory_data_strategy_bounds_witness :
  exists record c',
    inventory_data_strategy Sample.Choices Sample.integers Sample.text
      Sample.sampled_from [2; 120; 45; 6]
    = Return (record, c')
    /\ exists category stock reorder lead,
        dict_get record "category" = Some (VStr category)
        /\ In category ["grocery"; "apparel"; "electronics"]
        /\ dict_get record "currentStock" = Some (VInt stock)
        /\ 0 <= stock <= 10000
        /\ dict_get record "reorderPoint" = Some (VInt reorder)
        /\ 10 <= reorder <= 500
        /\ dict_get record "leadTimeDays" = Some (VInt lead)
        /\ 1 <= lead <= 30.
Proof.
  eexists. eexists. split; [vm_compute; reflexivity |].
  eapply (inventory_data_strategy_bounds Sample.Choices Sample.integers
            Sample.text Sample.sampled_from
            sample_integers_in_range sample_sampled_from_in [2; 120; 45; 6]).
  vm_compute. reflexivity.
Defined.

Lemma user_profile_strategy_valid_witness :
  exists profile c',
    user_profile_strategy Sample.Choices Sample.integers Sample.text
      Sample.sampled_from sample_booleans Sample.clock [1; 2; 0; 1; 2; 3; 1]
    = Return (profile, c')
    /\ user_profile_ok Sample.clock profile.
Proof.
  eexists. eexists. split; [vm_compute; reflexivity |].
  eapply (user_profile_strategy_valid Sample.Choices Sample.integers
            Sample.text Sample.sampled_from sample_booleans
            sample_integers_in_range sample_sampled_from_in
            Sample.clock [1; 2; 0; 1; 2; 3; 1]).
  - reflexivity.
  - reflexivity.
  - vm_compute. reflexivity.
Defined.

Lemma festival_event_strategy_valid_witness :
  exists festival c',
    festival_event_strategy Sample.Choices Sample.integers
      Sample.sampled_from Sample.floats sample_lists Sample.clock
      [59; 0; 0; 4; 2; 6]
    = Return (festival, c')
    /\ (exists date parsed,
          dict_get festival "date" = Some (VStr date)
          /\ fromisoformat date = Return parsed
          /\ 1 <= toordinal parsed - toordinal Sample.clock <= 365)
    /\ (exists regions,
          dict_get festival "region" = Some (VList (map VStr regions))
          /\ (1 <= List.length regions <= 3)%nat
          /\ Forall (fun r => In r REGIONS) regions)
    /\ (exists multipliers,
          dict_get festival "demandMultipliers" = Some (VDict multipliers)
          /\ dict_keys multipliers = ["grocery"; "apparel"; "electronics"]
          /\ Forall (fun kv =>
                       is_in_range (snd kv) (NFloat f_one) (NFloat f_5)
                       = Return true) multipliers)
    /\ (exists duration,
          dict_get festival "duration" = Some (VInt duration)
          /\ 1 <= duration <= 10).
Proof.
  eexists. eexists. split; [vm_compute; reflexivity |].
  eapply (festival_event_strategy_valid Sample.Choices Sample.integers
            Sample.sampled_from Sample.floats sample_lists
            sample_integers_in_range sample_floats_in_range
            sample_sampled_from_in sample_lists_contract
            Sample.clock [59; 0; 0; 4; 2; 6]).
  - reflexivity.
  - vm_compute. discriminate.
  - vm_compute. reflexivity.
Defined.

Lemma sales_data_list_strategy_valid_witness :
  exists records c',
    sales_data_list_strategy Sample.Choices Sample.integers Sample.text
      Sample.sampled_from Sample.floats sample_lists Sample.clock 2 5
      [10; 41; 2; 400; 7; 1]
    = Return (records, c')
    /\ (2 <= List.length records <= 5)%nat
    /\ Forall (sales_record_ok (toordinal Sample.clock)) records.
Proof.
  eexists. eexists. split; [vm_compute; reflexivity |].
  eapply (sales_data_list_strategy_valid Sample.Choices Sample.integers
            Sample.text Sample.sampled_from Sample.floats sample_lists
            sample_integers_in_range sample_floats_in_range
            sample_sampled_from_in sample_lists_contract
            Sample.clock 2%nat 5%nat [10; 41; 2; 400; 7; 1]).
  - reflexivity.
  - vm_compute. discriminate.
  - vm_compute. reflexivity.
Defined.

Lemma sales_tests_pass_witness :
  exists record c',
    sales_record_strategy Sample.Choices Sample.integers Sample.text
      Sample.sampled_from Sample.floats Sample.clock [10; 41; 2]
    = Return (record, c')
    /\ test_property_all_generated_records_are_valid record = Return tt.
Proof.
  eexists. eexists. split; [vm_compute; reflexivity |].
  eapply (proj1 (sales_tests_pass Sample.Choices Sample.integers Sample.text
                   Sample.sampled_from Sample.floats sample_lists
                   sample_integers_in_range sample_lists_contract)
            Sample.clock [10; 41; 2]).
  vm_compute. reflexivity.
Defined.

Lemma festival_tests_pass_witness :
  exists festival c',
    festival_event_strategy Sample.Choices Sample.integers
      Sample.sampled_from Sample.floats sample_lists Sample.clock
      [59; 0; 0; 4; 2; 6]
    = Return (festival, c')
    /\ test_property_festival_multipliers_valid festival = Return tt
    /\ test_property_festival_has_region festival = Return tt.
Proof.
  eexists. eexists. split; [vm_compute; reflexivity |].
  eapply (festival_tests_pass Sample.Choices Sample.integers
            Sample.sampled_from Sample.floats sample_lists
            sample_floats_in_range sample_lists_contract
            Sample.clock [59; 0; 0; 4; 2; 6]).
  vm_compute. reflexivity.
Defined.

(** ** [invalid_sales_record_strategy] and [questionnaire_response_strategy] *)

(** [record[k] = v] *)
Fixpoint dict_set (d : pydict) (k : string) (v : pyval) : pydict :=
  match d with
  | [] => [(k, v)]
  | (k', v') :: d' =>
      if String.eqb k' k then (k', v) :: d' else (k', v') :: dict_set d' k v
  end.

Section MoreStrategies.

Variable Choices : Type.
Variable integers : Z -> Z -> Strategy Choices Z.
(** [st.integers(max_value=m)] *)
Variable integers_at_most : Z -> Strategy Choices Z.
Variable text : alphabet -> nat -> nat -> Strategy Choices string.
Variable sampled_from : list string -> Strategy Choices string.
Variable floats :
  float -> float -> option bool -> option bool -> Strategy Choices float.
(** [st.floats(allow_nan=b)], without bounds *)
Variable any_floats : option bool -> Strategy Choices float.
Variable booleans : Strategy Choices bool.
Variable lists :
  forall A : Type,
    Strategy Choices A -> nat -> nat -> bool -> Strategy Choices (list A).
(** [st.one_of(strategies)] *)
Variable one_of : list (Strategy Choices pyval) -> Strategy Choices pyval.
(** [st.fixed_dictionaries(mapping)] *)
Variable fixed_dictionaries :
  list (string * Strategy Choices pyval) -> Strategy Choices pydict.

(** [st.just(v)] and [st.none()] *)
Definition just (v : pyval) : Strategy Choices pyval := ret v.
Definition none : Strategy Choices pyval := ret VNone.

(** A strategy of strings, ints or floats as one of values. *)
Definition as_values {A : Type} (f : A -> pyval) (s : Strategy Choices A)
  : Strategy Choices pyval :=
  draw s (fun x => ret (f x)).

Definition invalid_sales_record_strategy : Strategy Choices pydict :=
  let record : pydict := [] in
  draw booleans (fun with_date =>
  draw (if with_date : bool then
          draw (one_of [just (VStr "invalid-date");
                        as_values VStr (text any_character 0 5);
                        none])
            (fun v => ret (dict_set record "date" v))
        else ret record) (fun record =>
  draw booleans (fun with_sku =>
  draw (if with_sku : bool then
          draw (one_of [as_values VStr (text any_character 0 2); none])
            (fun v => ret (dict_set record "sku" v))
        else ret record) (fun record =>
  draw booleans (fun with_quantity =>
  draw (if with_quantity : bool then
          draw (one_of [as_values VInt (integers_at_most 0);
                        as_values VFloat (any_floats (Some true));
                        none])
            (fun v => ret (dict_set record "quantity" v))
        else ret record) (fun record =>
  ret record)))))).

Definition questionnaire_response_strategy : Strategy Choices pydict :=
  draw (text (characters ["Ll"; "Nd"]) 8 12) (fun uid =>
  draw (sampled_from BUSINESS_TYPES) (fun businessType =>
  draw (sampled_from STORE_SIZES) (fun storeSize =>
  draw (sampled_from ["Diwali"; "Eid"; "Holi"; "Christmas"]) (fun festival =>
  draw (floats f_zero f_500 None None) (fun salesIncrease =>
  draw (lists string (sampled_from ["grocery"; "apparel"; "electronics"])
          1 3 true) (fun topCategories =>
  draw (lists string (text any_character 3 20) 0 5 false) (fun stockoutItems =>
  draw (lists pydict
          (fixed_dictionaries
             [("category",
               as_values VStr
                 (sampled_from ["grocery"; "apparel"; "electronics"]));
              ("currentStock", as_values VInt (integers 0 10000));
              ("averageDailySales", as_values VInt (integers 1 500));
              ("confidence",
               as_values VStr (sampled_from ["low"; "medium"; "high"]))])
          1 5 false) (fun currentInventory =>
  draw (lists string (sampled_from ["Diwali"; "Eid"; "Holi"; "Christmas"])
          1 3 true) (fun targetFestivals =>
  ret [("userId", VStr ("user-" ++ uid));
       ("businessType", VStr businessType);
       ("storeSize", VStr storeSize);
       ("lastFestivalPerformance",
        VDict [("festival", VStr festival);
               ("salesIncrease", VFloat salesIncrease);
               ("topCategories", VList (map VStr topCategories));
               ("stockoutItems", VList (map VStr stockoutItems))]);
       ("currentInventory", VList (map VDict currentInventory));
       ("targetFestivals", VList (map VStr targetFestivals))]))))))))).

(** The contracts of the primitives. *)
Hypothesis integers_bounds :
  forall lo hi c v c',
    lo <= hi -> integers lo hi c = Return (v, c') -> lo <= v <= hi.
Hypothesis integers_at_most_bound :
  forall hi c v c', integers_at_most hi c = Return (v, c') -> v <= hi.
Hypothesis text_size :
  forall a lo hi c s c',
    (lo <= hi)%nat -> text a lo hi c = Return (s, c') ->
    (lo <= String.length s <= hi)%nat.
Hypothesis floats_bounds :
  forall lo hi nan inf c v c',
    SFleb lo hi = true ->
    floats lo hi nan inf c = Return (v, c') ->
    SFleb lo v = true /\ SFleb v hi = true.
Hypothesis sampled_from_in :
  forall l c v c',
    l <> [] -> sampled_from l c = Return (v, c') -> In v l.
Hypothesis lists_contract :
  forall (A : Type) (elements : Strategy Choices A) lo hi unique c l c',
    lists A elements lo hi unique c = Return (l, c') ->
    (lo <= List.length l <= hi)%nat
    /\ Forall (fun x => exists c1 c2, elements c1 = Return (x, c2)) l.
Hypothesis one_of_contract :
  forall strategies c v c',
    one_of strategies c = Return (v, c') ->
    exists s c1 c2, In s strategies /\ s c1 = Return (v, c2).
Hypothesis fixed_dictionaries_contract :
  forall mapping c d c',
    fixed_dictionaries mapping c = Return (d, c') ->
    Forall2 (fun kv ks =>
               fst kv = fst ks
               /\ exists c1 c2, snd ks c1 = Return (snd kv, c2))
      d mapping.

Lemma as_values_returns :
  forall (A : Type) (f : A -> pyval) (s : Strategy Choices A) c v c',
    as_values f s c = Return (v, c') ->
    exists x c1, s c = Return (x, c1) /\ v = f x.
Proof.
  intros A f s c v c' H. unfold as_values, draw in H.
  destruct (s c) as [[x c1] | e]; [| discriminate].
  injection H as <- <-. now exists x, c1.
Qed.

(** What may stand under [date], [sku] and [quantity]. *)
Definition invalid_date (v : pyval) : Prop :=
  is_valid_date_string v = Return false.

Definition invalid_sku (v : pyval) : Prop :=
  v = VNone \/ exists s, v = VStr s /\ (String.length s <= 2)%nat.

Definition invalid_quantity (v : pyval) : Prop :=
  v = VNone \/ (exists f, v = VFloat f) \/ exists z, v = VInt z /\ z <= 0.

Lemma drawn_date :
  forall c v c',
    one_of [just (VStr "invalid-date");
            as_values VStr (text any_character 0 5); none] c
    = Return (v, c') ->
    invalid_date v.
Proof.
  intros c v c' H.
  destruct (one_of_contract _ _ _ _ H) as (s & c1 & c2 & Hin & Hs).
  destruct Hin as [<- | [<- | [<- | []]]].
  - injection Hs as <- <-. vm_compute. reflexivity.
  - destruct (as_values_returns _ _ _ _ _ _ Hs) as (x & c3 & Hx & ->).
    pose proof (text_size _ 0%nat 5%nat _ _ _ ltac:(lia) Hx) as Hlen.
    apply is_valid_date_string_short. lia.
  - injection Hs as <- <-. reflexivity.
Qed.

Lemma drawn_sku :
  forall c v c',
    one_of [as_values VStr (text any_character 0 2); none] c = Return (v, c') ->
    invalid_sku v.
Proof.
  intros c v c' H.
  destruct (one_of_contract _ _ _ _ H) as (s & c1 & c2 & Hin & Hs).
  destruct Hin as [<- | [<- | []]].
  - destruct (as_values_returns _ _ _ _ _ _ Hs) as (x & c3 & Hx & ->).
    pose proof (text_size _ 0%nat 2%nat _ _ _ ltac:(lia) Hx) as Hlen.
    right. exists x. split; [reflexivity | lia].
  - injection Hs as <- <-. now left.
Qed.

Lemma drawn_quantity :
  forall c v c',
    one_of [as_values VInt (integers_at_most 0);
            as_values VFloat (any_floats (Some true)); none] c
    = Return (v, c') ->
    invalid_quantity v.
Proof.
  intros c v c' H.
  destruct (one_of_contract _ _ _ _ H) as (s & c1 & c2 & Hin & Hs).
  destruct Hin as [<- | [<- | [<- | []]]].
  - destruct (as_values_returns _ _ _ _ _ _ Hs) as (x & c3 & Hx & ->).
    pose proof (integers_at_most_bound _ _ _ _ Hx).
    right. right. now exists x.
  - destruct (as_values_returns _ _ _ _ _ _ Hs) as (x & c3 & Hx & ->).
    right. left. now exists x.
  - injection Hs as <- <-. now left.
Qed.

Lemma invalid_quantity_fails :
  forall v,
    invalid_quantity v ->
    (_ <- assert (isinstance v TInt) ;; assert_r (py_gt v (VInt 0)))
    = Raise AssertionError.
Proof.
  intros v [-> | [(f & ->) | (z & -> & Hz)]]; try reflexivity.
  cbn [isinstance assert bind assert_r py_gt as_num num_compare].
  destruct (Z.compare_spec z 0); try reflexivity. lia.
Qed.

(** X23: a record [invalid_sales_record_strategy] generates has its keys
    among [date], [sku] and [quantity], in this order.  A date it has is
    one [is_valid_date_string] rejects, a sku is [None] or a string of at
    most two characters, and a quantity is [None], a float or an integer
    of at most 0.  So the test of test_example.py for valid records fails
    on every such record with an [AssertionError]. *)
Theorem invalid_sales_record_strategy_invalid :
  forall c record c',
    invalid_sales_record_strategy c = Return (record, c') ->
    (exists with_date with_sku with_quantity : bool,
        dict_keys record
        = ((if with_date then ["date"] else [])
             ++ (if with_sku then ["sku"] else [])
             ++ (if with_quantity then ["quantity"] else []))%list)
    /\ (forall v, dict_get record "date" = Some v -> invalid_date v)
    /\ (forall v, dict_get record "sku" = Some v -> invalid_sku v)
    /\ (forall v, dict_get record "quantity" = Some v -> invalid_quantity v)
    /\ test_property_all_generated_records_are_valid record
       = Raise AssertionError.
Proof.
  intros c record c' H.
  unfold invalid_sales_record_strategy, draw, ret in H.
  destruct (booleans c) as [[with_date c1] | e]; [| discriminate].
  destruct with_date;
    [ destruct (one_of _ c1) as [[v1 c2] | e] eqn:E1; [| discriminate];
      apply drawn_date in E1
    | ].
  all: destruct (booleans _) as [[with_sku c3] | e]; [| discriminate].
  all: destruct with_sku;
    [ destruct (one_of _ c3) as [[v2 c4] | e] eqn:E2; [| discriminate];
      apply drawn_sku in E2
    | ].
  all: destruct (booleans _) as [[with_quantity c5] | e]; [| discriminate].
  all: destruct with_quantity;
    [ destruct (one_of _ c5) as [[v3 c6] | e] eqn:E3; [| discriminate];
      apply drawn_quantity in E3
    | ].
  all: injection H as <- <-.
  all: cbn [dict_set String.eqb Ascii.eqb Bool.eqb].
  all: split;
    [ first [ now exists false, false, false | now exists false, false, true
            | now exists false, true, false | now exists false, true, true
            | now exists true, false, false | now exists true, false, true
            | now exists true, true, false | now exists true, true, true ] |].
  all: split;
    [ intros v Hv; cbn [dict_get String.eqb Ascii.eqb Bool.eqb] in Hv;
      first [discriminate Hv | injection Hv as <-; assumption] |].
  all: split;
    [ intros v Hv; cbn [dict_get String.eqb Ascii.eqb Bool.eqb] in Hv;
      first [discriminate Hv | injection Hv as <-; assumption] |].
  all: split;
    [ intros v Hv; cbn [dict_get String.eqb Ascii.eqb Bool.eqb] in Hv;
      first [discriminate Hv | injection Hv as <-; assumption] |].
  all: try reflexivity.
  exact (invalid_quantity_fails v3 E3).
Qed.

(** An entry of [currentInventory]. *)
Definition inventory_entry_ok (entry : pydict) : Prop :=
  dict_keys entry
  = ["category"; "currentStock"; "averageDailySales"; "confidence"]
  /\ exists category stock sales confidence,
      dict_get entry "category" = Some (VStr category)
      /\ In category ["grocery"; "apparel"; "electronics"]
      /\ dict_get entry "currentStock" = Some (VInt stock)
      /\ 0 <= stock <= 10000
      /\ dict_get entry "averageDailySales" = Some (VInt sales)
      /\ 1 <= sales <= 500
      /\ dict_get entry "confidence" = Some (VStr confidence)
      /\ In confidence ["low"; "medium"; "high"].

Lemma drawn_inventory_entry :
  forall c entry c',
    fixed_dictionaries
      [("category",
        as_values VStr (sampled_from ["grocery"; "apparel"; "electronics"]));
       ("currentStock", as_values VInt (integers 0 10000));
       ("averageDailySales", as_values VInt (integers 1 500));
       ("confidence",
        as_values VStr (sampled_from ["low"; "medium"; "high"]))] c
    = Return (entry, c') ->
    inventory_entry_ok entry.
Proof.
  intros c entry c' H.
  pose proof (fixed_dictionaries_contract _ _ _ _ H) as F.
  inversion F as [| [k1 v1] ks1 e1 m1 (K1 & q1 & q1' & D1) F1]; subst.
  inversion F1 as [| [k2 v2] ks2 e2 m2 (K2 & q2 & q2' & D2) F2]; subst.
  inversion F2 as [| [k3 v3] ks3 e3 m3 (K3 & q3 & q3' & D3) F3]; subst.
  inversion F3 as [| [k4 v4] ks4 e4 m4 (K4 & q4 & q4' & D4) F4]; subst.
  inversion F4; subst.
  cbn [fst snd] in *. subst k1 k2 k3 k4.
  destruct (as_values_returns _ _ _ _ _ _ D1) as (category & r1 & E1 & ->).
  destruct (as_values_returns _ _ _ _ _ _ D2) as (stock & r2 & E2 & ->).
  destruct (as_values_returns _ _ _ _ _ _ D3) as (sales & r3 & E3 & ->).
  destruct (as_values_returns _ _ _ _ _ _ D4) as (confidence & r4 & E4 & ->).
  split; [reflexivity |].
  exists category, stock, sales, confidence.
  pose proof (integers_bounds 0 10000 _ _ _ ltac:(lia) E2).
  pose proof (integers_bounds 1 500 _ _ _ ltac:(lia) E3).
  split; [reflexivity |].
  split; [eapply sampled_from_in; [| exact E1]; discriminate |].
  split; [reflexivity |]. split; [assumption |].
  split; [reflexivity |]. split; [assumption |].
  split; [reflexivity |].
  eapply sampled_from_in; [| exact E4]; discriminate.
Qed.

Lemma drawn_samples :
  forall choices lo hi unique c l c',
    choices <> [] ->
    lists string (sampled_from choices) lo hi unique c = Return (l, c') ->
    (lo <= List.length l <= hi)%nat /\ Forall (fun x => In x choices) l.
Proof.
  intros choices lo hi unique c l c' Hne H.
  destruct (lists_contract _ _ _ _ _ _ _ _ H) as [Hlen Hall].
  split; [exact Hlen |].
  eapply Forall_impl; [| exact Hall].
  intros x (c1 & c2 & Hx). exact (sampled_from_in _ _ _ _ Hne Hx).
Qed.

(** A response as [questionnaire_response_strategy] generates them. *)
Definition questionnaire_ok (response : pydict) : Prop :=
  exists businessType storeSize performance salesIncrease topCategories
         inventory targetFestivals,
    dict_get response "businessType" = Some (VStr businessType)
    /\ In businessType BUSINESS_TYPES
    /\ dict_get response "storeSize" = Some (VStr storeSize)
    /\ In storeSize STORE_SIZES
    /\ dict_get response "lastFestivalPerformance" = Some (VDict performance)
    /\ dict_get performance "salesIncrease" = Some (VFloat salesIncrease)
    /\ is_in_range (VFloat salesIncrease) (NFloat f_zero) (NFloat f_500)
       = Return true
    /\ dict_get performance "topCategories"
       = Some (VList (map VStr topCategories))
    /\ (1 <= List.length topCategories <= 3)%nat
    /\ Forall (fun x => In x ["grocery"; "apparel"; "electronics"])
         topCategories
    /\ dict_get response "currentInventory"
       = Some (VList (map VDict inventory))
    /\ (1 <= List.length inventory <= 5)%nat
    /\ Forall inventory_entry_ok inventory
    /\ dict_get response "targetFestivals"
       = Some (VList (map VStr targetFestivals))
    /\ (1 <= List.length targetFestivals <= 3)%nat
    /\ Forall (fun x => In x ["Diwali"; "Eid"; "Holi"; "Christmas"])
         targetFestivals.

(** X24: a response [questionnaire_response_strategy] generates has a
    business type from [BUSINESS_TYPES] and a store size from
    [STORE_SIZES]; a sales increase that [is_in_range] places between 0.0
    and 500.0; one to three top categories and one to three target
    festivals, each from its list; and one to five inventory entries, each
    with the four keys of the source, a stock between 0 and 10000 and
    average daily sales between 1 and 500. *)
Theorem questionnaire_response_strategy_valid :
  forall c response c',
    questionnaire_response_strategy c = Return (response, c') ->
    questionnaire_ok response.
Proof.
  intros c response c' H.
  unfold questionnaire_response_strategy, draw in H.
  destruct (text _ 8%nat 12%nat c) as [[uid c1] | e]; [| discriminate].
  destruct (sampled_from BUSINESS_TYPES c1) as [[businessType c2] | e] eqn:Eb;
    [| discriminate].
  destruct (sampled_from STORE_SIZES c2) as [[storeSize c3] | e] eqn:Es;
    [| discriminate].
  destruct (sampled_from _ c3) as [[festival c4] | e]; [| discriminate].
  destruct (floats f_zero f_500 None None c4) as [[salesIncrease c5] | e]
    eqn:Ef; [| discriminate].
  destruct (lists string _ 1%nat 3%nat true c5) as [[topCategories c6] | e]
    eqn:Et; [| discriminate].
  destruct (lists string _ 0%nat 5%nat false c6) as [[stockoutItems c7] | e];
    [| discriminate].
  destruct (lists pydict _ 1%nat 5%nat false c7) as [[inventory c8] | e]
    eqn:Ei; [| discriminate].
  destruct (lists string _ 1%nat 3%nat true c8) as [[targetFestivals c9] | e]
    eqn:Eg; [| discriminate].
  unfold ret in H. injection H as <- <-.
  destruct (floats_bounds f_zero f_500 _ _ _ _ _ eq_refl Ef) as [F0 F1].
  destruct (drawn_samples ["grocery"; "apparel"; "electronics"]
              _ _ _ _ _ _ ltac:(discriminate) Et) as [Lt At].
  destruct (drawn_samples ["Diwali"; "Eid"; "Holi"; "Christmas"]
              _ _ _ _ _ _ ltac:(discriminate) Eg) as [Lg Ag].
  destruct (lists_contract _ _ _ _ _ _ _ _ Ei) as [Li Ai].
  unfold questionnaire_ok.
  eexists businessType, storeSize, _, salesIncrease, topCategories,
    inventory, targetFestivals.
  split; [reflexivity |].
  split; [eapply sampled_from_in; [| exact Eb]; discriminate |].
  split; [reflexivity |].
  split; [eapply sampled_from_in; [| exact Es]; discriminate |].
  split; [reflexivity |]. split; [reflexivity |].
  split; [now rewrite is_in_range_float, F0, F1 |].
  split; [reflexivity |]. split; [exact Lt |]. split; [exact At |].
  split; [reflexivity |]. split; [exact Li |].
  split.
  { eapply Forall_impl; [| exact Ai].
    intros entry (q1 & q2 & Hq). exact (drawn_inventory_entry _ _ _ Hq). }
  split; [reflexivity |]. split; [exact Lg | exact Ag].
Qed.

End MoreStrategies.

(** Sample strategies for the remaining primitives, with their
    contracts. *)
Definition sample_integers_at_most (hi : Z) : Strategy Sample.Choices Z :=
  fun c => let '(n, c') := Sample.next c in Return (hi - Z.abs n, c').

Definition sample_any_floats (allow_nan : option bool)
  : Strategy Sample.Choices float :=
  fun c => Return (S754_nan, c).

Definition sample_one_of (strategies : list (Strategy Sample.Choices pyval))
  : Strategy Sample.Choices pyval :=
  fun c =>
    let '(n, c') := Sample.next c in
    nth (Z.to_nat (n mod Z.of_nat (List.length strategies))) strategies
      (lift (Raise ValueError)) c'.

Fixpoint sample_fixed_dictionaries
    (mapping : list (string * Strategy Sample.Choices pyval))
  : Strategy Sample.Choices pydict :=
  match mapping with
  | [] => ret []
  | (k, s) :: rest =>
      draw s (fun v => draw (sample_fixed_dictionaries rest) (fun d =>
      ret ((k, v) :: d)))
  end.

Lemma sample_integers_at_most_bound :
  forall hi c v c', sample_integers_at_most hi c = Return (v, c') -> v <= hi.
Proof.
  intros hi c v c' H. unfold sample_integers_at_most in H.
  destruct (Sample.next c) as [n c1]. injection H as <- <-. lia.
Qed.

Lemma repeat_char_length :
  forall a n, String.length (Sample.repeat_char a n) = n.
Proof.
  intros a n. induction n as [| n IH]; [reflexivity |].
  cbn [Sample.repeat_char String.length]. now rewrite IH.
Qed.

Lemma sample_text_size :
  forall a lo hi c s c',
    (lo <= hi)%nat -> Sample.text a lo hi c = Return (s, c') ->
    (lo <= String.length s <= hi)%nat.
Proof.
  intros a lo hi c s c' Hle H. unfold Sample.text in H.
  injection H as <- <-. rewrite repeat_char_length. lia.
Qed.

Lemma sample_one_of_contract :
  forall strategies c v c',
    sample_one_of strategies c = Return (v, c') ->
    exists s c1 c2, In s strategies /\ s c1 = Return (v, c2).
Proof.
  intros strategies c v c' H. unfold sample_one_of in H.
  destruct (Sample.next c) as [n c1].
  destruct strategies as [| s0 rest].
  - destruct (Z.to_nat _); discriminate H.
  - set (l := s0 :: rest) in *.
    exists (nth (Z.to_nat (n mod Z.of_nat (List.length l))) l
              (lift (Raise ValueError))), c1, c'.
    split; [| exact H].
    apply nth_In.
    assert (0 < Z.of_nat (List.length l)) by (subst l; cbn; lia).
    pose proof (Z.mod_pos_bound n (Z.of_nat (List.length l)) ltac:(lia)).
    lia.
Qed.

Lemma sample_fixed_dictionaries_contract :
  forall mapping c d c',
    sample_fixed_dictionaries mapping c = Return (d, c') ->
    Forall2 (fun kv ks =>
               fst kv = fst ks
               /\ exists c1 c2, snd ks c1 = Return (snd kv, c2))
      d mapping.
Proof.
  induction mapping as [| [k s] rest IH]; intros c d c' H.
  - injection H as <- <-. constructor.
  - cbn [sample_fixed_dictionaries] in H. unfold draw at 1 in H.
    destruct (s c) as [[v c1] | e] eqn:Es; [| discriminate].
    unfold draw in H.
    destruct (sample_fixed_dictionaries rest c1) as [[d1 c2] | e] eqn:Ed;
      [| discriminate].
    injection H as <- <-.
    constructor; [| exact (IH _ _ _ Ed)].
    split; [reflexivity | now exists c, c1].
Qed.

Lemma invalid_sales_record_strategy_invalid_witness :
  exists record c',
    invalid_sales_record_strategy Sample.Choices sample_integers_at_most
      Sample.text sample_any_floats sample_booleans sample_one_of
      [1; 0; 1; 0; 1; 0; 4]
    = Return (record, c')
    /\ dict_keys record = ["date"; "sku"; "quantity"]
    /\ test_property_all_generated_records_are_valid record
       = Raise AssertionError.
Proof.
  eexists. eexists. split; [vm_compute; reflexivity |].
  split; [reflexivity |].
  eapply (invalid_sales_record_strategy_invalid Sample.Choices
            sample_integers_at_most Sample.text sample_any_floats
            sample_booleans sample_one_of
            sample_integers_at_most_bound sample_text_size
            sample_one_of_contract [1; 0; 1; 0; 1; 0; 4]).
  vm_compute. reflexivity.
Defined.

Lemma questionnaire_response_strategy_valid_witness :
  exists response c',
    questionnaire_response_strategy Sample.Choices Sample.integers Sample.text
      Sample.sampled_from Sample.floats sample_lists
      sample_fixed_dictionaries [1; 2; 3; 0; 0; 1; 250; 30; 2; 1]
    = Return (response, c')
    /\ questionnaire_ok response.
Proof.
  eexists. eexists. split; [vm_compute; reflexivity |].
  eapply (questionnaire_response_strategy_valid Sample.Choices
            Sample.integers Sample.text Sample.sampled_from Sample.floats
            sample_lists sample_fixed_dictionaries
            sample_integers_in_range sample_floats_in_range
            sample_sampled_from_in sample_lists_contract
            sample_fixed_dictionaries_contract
            [1; 2; 3; 0; 0; 1; 250; 30; 2; 1]).
  vm_compute. reflexivity.
Defined.

(** * Two calls with equal arguments *)

(** A valid date is determined by its ordinal. *)
Lemma ymd2ord_injective :
  forall y m d y' m' d',
    valid_date y m d -> valid_date y' m' d' ->
    ymd2ord y m d = ymd2ord y' m' d' ->
    y = y' /\ m = m' /\ d = d'.
Proof.
  intros y m d y' m' d' V V' H.
  pose proof (ymd2ord_lt y m d y' m' d' V V') as L1.
  pose proof (ymd2ord_lt y' m' d' y m d V' V) as L2.
  destruct (Z.lt_total y y') as [Hy | [Hy | Hy]]; [lia | | lia].
  destruct (Z.lt_total m m') as [Hm | [Hm | Hm]]; [lia | | lia].
  destruct (Z.lt_total d d') as [Hd | [Hd | Hd]]; [lia | | lia].
  now repeat split.
Qed.

(** From the year 1000 on, two valid dates are written alike by
    [strftime("%Y-%m-%d")] exactly when they are the same calendar day. *)
Lemma strftime_Ymd_same_day :
  forall d1 d2,
    valid_fields d1 -> valid_fields d2 ->
    1000 <= dt_year d1 -> 1000 <= dt_year d2 ->
    (strftime_Ymd d1 = strftime_Ymd d2 <-> toordinal d1 = toordinal d2).
Proof.
  intros d1 d2 V1 V2 Y1 Y2. split.
  - intro H.
    destruct (fromisoformat_strftime d1 V1 Y1) as [P1 _].
    destruct (fromisoformat_strftime d2 V2 Y2) as [P2 _].
    rewrite H, P2 in P1. injection P1 as Ey Em Ed.
    unfold toordinal. now rewrite Ey, Em, Ed.
  - intro H. unfold toordinal in H.
    destruct (ymd2ord_injective _ _ _ _ _ _ (vf_date d1 V1) (vf_date d2 V2) H)
      as (Ey & Em & Ed).
    unfold strftime_Ymd. now rewrite Ey, Em, Ed.
Qed.

(** A valid naive datetime is determined by what [isoformat] writes. *)
Lemma isoformat_injective :
  forall d1 d2,
    valid_datetime d1 = true -> valid_datetime d2 = true ->
    dt_tzinfo d1 = None -> dt_tzinfo d2 = None ->
    isoformat d1 = isoformat d2 -> d1 = d2.
Proof.
  intros d1 d2 V1 V2 N1 N2 H.
  destruct (isoformat_parses d1 V1 N1) as [P1 _].
  destruct (isoformat_parses d2 V2 N2) as [P2 _].
  rewrite H, P2 in P1. now injection P1.
Qed.

Section TwoCalls.

Variable Choices : Type.
Variable integers : Z -> Z -> Strategy Choices Z.
Variable text : alphabet -> nat -> nat -> Strategy Choices string.
Variable sampled_from : list string -> Strategy Choices string.
Variable floats :
  float -> float -> option bool -> option bool -> Strategy Choices float.
Variable booleans : Strategy Choices bool.
Variable lists :
  forall A : Type,
    Strategy Choices A -> nat -> nat -> bool -> Strategy Choices (list A).

Hypothesis integers_bounds :
  forall lo hi c v c',
    lo <= hi -> integers lo hi c = Return (v, c') -> lo <= v <= hi.

Lemma sales_record_two_calls :
  forall now1 now2 c r1 c1 r2 c2,
    valid_datetime now1 = true -> valid_datetime now2 = true ->
    1002 <= dt_year now1 -> 1002 <= dt_year now2 ->
    sales_record_strategy Choices integers text sampled_from floats now1 c
    = Return (r1, c1) ->
    sales_record_strategy Choices integers text sampled_from floats now2 c
    = Return (r2, c2) ->
    c1 = c2 /\ (r1 = r2 <-> toordinal now1 = toordinal now2).
Proof.
  intros now1 now2 c r1 c1 r2 c2 V1 V2 Y1 Y2 H1 H2.
  apply valid_datetime_fields in V1, V2.
  unfold sales_record_strategy, draw in H1, H2.
  destruct (integers 0 730 c) as [[days_ago c'] | e] eqn:Ea; [| discriminate].
  pose proof (integers_bounds 0 730 _ _ _ ltac:(lia) Ea) as Hago.
  unfold lift in H1, H2.
  destruct (sub_days now1 days_ago) as [d1 | e] eqn:E1; [| discriminate].
  destruct (sub_days now2 days_ago) as [d2 | e] eqn:E2; [| discriminate].
  destruct (text _ 5%nat 10%nat c') as [[sku c3] | e]; [| discriminate].
  destruct (integers 1 1000 c3) as [[quantity c4] | e]; [| discriminate].
  destruct (sampled_from _ c4) as [[category c5] | e]; [| discriminate].
  destruct (floats _ _ _ _ c5) as [[price c6] | e]; [| discriminate].
  unfold ret in H1, H2. injection H1 as <- <-. injection H2 as <- <-.
  destruct (sub_days_recent now1 days_ago d1 V1 Y1 Hago E1) as (W1 & Z1 & O1).
  destruct (sub_days_recent now2 days_ago d2 V2 Y2 Hago E2) as (W2 & Z2 & O2).
  pose proof (strftime_Ymd_same_day d1 d2 W1 W2 Z1 Z2) as S.
  split; [reflexivity |]. split.
  - intro H. assert (E : strftime_Ymd d1 = strftime_Ymd d2).
    { remember (strftime_Ymd d1) as s1. remember (strftime_Ymd d2) as s2.
      now injection H. }
    apply S in E. lia.
  - intro H. assert (E : strftime_Ymd d1 = strftime_Ymd d2)
      by (apply S; lia).
    now rewrite E.
Qed.

Lemma festival_event_two_calls :
  forall now1 now2 c r1 c1 r2 c2,
    valid_datetime now1 = true -> valid_datetime now2 = true ->
    1000 <= dt_year now1 -> 1000 <= dt_year now2 ->
    festival_event_strategy Choices integers sampled_from floats lists now1 c
    = Return (r1, c1) ->
    festival_event_strategy Choices integers sampled_from floats lists now2 c
    = Return (r2, c2) ->
    c1 = c2 /\ (r1 = r2 <-> toordinal now1 = toordinal now2).
Proof.
  intros now1 now2 c r1 c1 r2 c2 V1 V2 Y1 Y2 H1 H2.
  apply valid_datetime_fields in V1, V2.
  unfold festival_event_strategy, draw in H1, H2.
  destruct (integers 1 365 c) as [[ahead c'] | e] eqn:Ea; [| discriminate].
  pose proof (integers_bounds 1 365 _ _ _ ltac:(lia) Ea) as Hahead.
  unfold lift in H1, H2.
  destruct (add_days now1 ahead) as [d1 | e] eqn:E1; [| discriminate].
  destruct (add_days now2 ahead) as [d2 | e] eqn:E2; [| discriminate].
  destruct (sampled_from festival_names c') as [[id_name c3] | e];
    [| discriminate].
  destruct (sampled_from festival_names c3) as [[name c4] | e];
    [| discriminate].
  destruct (lists string _ 1%nat 3%nat true c4) as [[region c5] | e];
    [| discriminate].
  destruct (floats f_one f_5 None None c5) as [[g c6] | e]; [| discriminate].
  destruct (floats f_one f_5 None None c6) as [[a c7] | e]; [| discriminate].
  destruct (floats f_one f_5 None None c7) as [[el c8] | e]; [| discriminate].
  destruct (integers 1 10 c8) as [[duration c9] | e]; [| discriminate].
  destruct (integers 7 30 c9) as [[prep c10] | e]; [| discriminate].
  unfold ret in H1, H2. injection H1 as <- <-. injection H2 as <- <-.
  assert (D : forall now d,
             valid_fields now -> 1000 <= dt_year now ->
             add_days now ahead = Return d ->
             valid_fields d /\ 1000 <= dt_year d
             /\ toordinal d = toordinal now + ahead).
  { intros now d V Y E.
    assert (Hord : 1 <= toordinal now + ahead <= MAXORDINAL).
    { pose proof (toordinal_bounds now V). split; [lia |].
      unfold add_days in E.
      destruct (_ || _); [discriminate |].
      destruct (0 <? toordinal now + ahead); [| discriminate].
      destruct (Z.leb_spec (toordinal now + ahead) MAXORDINAL);
        [assumption | discriminate]. }
    destruct (add_days_spec now ahead V Hord) as (d' & Hd & Vd & Ho & _).
    rewrite Hd in E. injection E as <-.
    split; [exact Vd | split; [| exact Ho]].
    apply (year_from_toordinal d' 1000 Vd).
    pose proof (toordinal_from_year now 1000 V Y). lia. }
  destruct (D now1 d1 V1 Y1 E1) as (W1 & Z1 & O1).
  destruct (D now2 d2 V2 Y2 E2) as (W2 & Z2 & O2).
  pose proof (strftime_Ymd_same_day d1 d2 W1 W2 Z1 Z2) as S.
  split; [reflexivity |]. split.
  - intro H. assert (E : strftime_Ymd d1 = strftime_Ymd d2).
    { remember (strftime_Ymd d1) as s1. remember (strftime_Ymd d2) as s2.
      remember (lower id_name ++ "-" ++ str_of_int (dt_year d1)) as i1.
      remember (lower id_name ++ "-" ++ str_of_int (dt_year d2)) as i2.
      now injection H. }
    apply S in E. lia.
  - intro H.
    assert (O : toordinal d1 = toordinal d2) by lia.
    assert (E : strftime_Ymd d1 = strftime_Ymd d2) by (now apply S).
    unfold toordinal in O.
    destruct (ymd2ord_injective _ _ _ _ _ _ (vf_date d1 W1) (vf_date d2 W2) O)
      as (Ey & _ & _).
    now rewrite E, Ey.
Qed.

Lemma user_profile_two_calls :
  forall now1 now2 c r1 c1 r2 c2,
    valid_datetime now1 = true -> valid_datetime now2 = true ->
    dt_tzinfo now1 = None -> dt_tzinfo now2 = None ->
    user_profile_strategy Choices integers text sampled_from booleans now1 c
    = Return (r1, c1) ->
    user_profile_strategy Choices integers text sampled_from booleans now2 c
    = Return (r2, c2) ->
    c1 = c2 /\ (r1 = r2 <-> now1 = now2).
Proof.
  intros now1 now2 c r1 c1 r2 c2 V1 V2 N1 N2 H1 H2.
  unfold user_profile_strategy, draw in H1, H2.
  destruct (text _ 8%nat 12%nat c) as [[uid q1] | e]; [| discriminate].
  destruct (text _ 5%nat 50%nat q1) as [[name q2] | e]; [| discriminate].
  destruct (sampled_from BUSINESS_TYPES q2) as [[type q3] | e];
    [| discriminate].
  destruct (text _ 3%nat 30%nat q3) as [[city q4] | e]; [| discriminate].
  destruct (text _ 3%nat 30%nat q4) as [[state q5] | e]; [| discriminate].
  destruct (sampled_from REGIONS q5) as [[region q6] | e]; [| discriminate].
  destruct (sampled_from STORE_SIZES q6) as [[size q7] | e]; [| discriminate].
  destruct (booleans q7) as [[hist q8] | e]; [| discriminate].
  destruct (sampled_from DATA_QUALITIES q8) as [[quality q9] | e];
    [| discriminate].
  destruct (integers 7 14 q9) as [[h q10] | e]; [| discriminate].
  destruct (sampled_from RISK_TOLERANCES q10) as [[tol q11] | e];
    [| discriminate].
  unfold ret in H1, H2. injection H1 as <- <-. injection H2 as <- <-.
  split; [reflexivity |]. split.
  - intro H. apply (isoformat_injective now1 now2 V1 V2 N1 N2).
    remember (isoformat now1) as i1. remember (isoformat now2) as i2.
    now injection H.
  - intros ->. reflexivity.
Qed.

End TwoCalls.

(** C2 (amended): the operations are not all pure.  [mock_s3_object],
    [sales_record_strategy], [festival_event_strategy] and
    [user_profile_strategy] read the clock, and [create_lambda_context]
    returns a new object at every call.  With equal arguments and equal
    draws, two calls of [mock_s3_object] return equal results exactly when
    the clock reads the same at both, and so do two calls of
    [user_profile_strategy]; two calls of [sales_record_strategy] or of
    [festival_event_strategy] return equal results exactly when the clock
    reads the same calendar day at both; two calls of
    [create_lambda_context] return objects with equal attributes that are
    not equal under [==].

    The clock reads valid datetimes without [tzinfo], from the year 1002
    on for [sales_record_strategy] and from the year 1000 on for
    [festival_event_strategy]; [st.integers] and [st.floats] draw within
    their bounds, so no drawn float is NaN.  On such results (strings,
    ints, floats other than NaN, naive datetimes, and lists and dicts of
    them) two results that hold the same values are equal under [==], and
    two that differ in a string or in a naive datetime are not: the
    equality of the statement is the equality of the values. *)
Theorem equal_results_of_two_calls :
  (forall now1 now2 bucket key content,
      dt_tzinfo now1 = None -> dt_tzinfo now2 = None ->
      mock_s3_object now1 bucket key content
      = mock_s3_object now2 bucket key content
      <-> now1 = now2)
  /\ (forall Choices integers text sampled_from floats
             now1 now2 c r1 c1 r2 c2,
        (forall lo hi c v c',
            lo <= hi -> integers lo hi c = Return (v, c') -> lo <= v <= hi) ->
        (forall lo hi nan inf c v c',
            SFleb lo hi = true ->
            floats lo hi nan inf c = Return (v, c') ->
            SFleb lo v = true /\ SFleb v hi = true) ->
        valid_datetime now1 = true -> valid_datetime now2 = true ->
        1002 <= dt_year now1 -> 1002 <= dt_year now2 ->
        sales_record_strategy Choices integers text sampled_from floats now1 c
        = Return (r1, c1) ->
        sales_record_strategy Choices integers text sampled_from floats now2 c
        = Return (r2, c2) ->
        c1 = c2 /\ (r1 = r2 <-> toordinal now1 = toordinal now2))
  /\ (forall Choices integers sampled_from floats lists
             now1 now2 c r1 c1 r2 c2,
        (forall lo hi c v c',
            lo <= hi -> integers lo hi c = Return (v, c') -> lo <= v <= hi) ->
        (forall lo hi nan inf c v c',
            SFleb lo hi = true ->
            floats lo hi nan inf c = Return (v, c') ->
            SFleb lo v = true /\ SFleb v hi = true) ->
        valid_datetime now1 = true -> valid_datetime now2 = true ->
        1000 <= dt_year now1 -> 1000 <= dt_year now2 ->
        festival_event_strategy Choices integers sampled_from floats lists
          now1 c = Return (r1, c1) ->
        festival_event_strategy Choices integers sampled_from floats lists
          now2 c = Return (r2, c2) ->
        c1 = c2 /\ (r1 = r2 <-> toordinal now1 = toordinal now2))
  /\ (forall Choices integers text sampled_from booleans
             now1 now2 c r1 c1 r2 c2,
        valid_datetime now1 = true -> valid_datetime now2 = true ->
        dt_tzinfo now1 = None -> dt_tzinfo now2 = None ->
        user_profile_strategy Choices integers text sampled_from booleans
          now1 c = Return (r1, c1) ->
        user_profile_strategy Choices integers text sampled_from booleans
          now2 c = Return (r2, c2) ->
        c1 = c2 /\ (r1 = r2 <-> now1 = now2))
  /\ (forall name memory_limit timeout next,
        let first := create_lambda_context name memory_limit timeout next in
        let second :=
          create_lambda_context name memory_limit timeout (snd first) in
        context_eq (fst first) (fst second) = false
        /\ function_name (fst first) = function_name (fst second)
        /\ memory_limit_in_mb (fst first) = memory_limit_in_mb (fst second)
        /\ invoked_function_arn (fst first)
           = invoked_function_arn (fst second)
        /\ aws_request_id (fst first) = aws_request_id (fst second)
        /\ log_group_name (fst first) = log_group_name (fst second)
        /\ log_stream_name (fst first) = log_stream_name (fst second)
        /\ get_remaining_time_in_millis (fst first)
           = get_remaining_time_in_millis (fst second)).
Proof.
  split; [| split; [| split; [| split]]].
  - intros now1 now2 bucket key content _ _. split.
    + intro H. now injection H.
    + intros ->. reflexivity.
  - intros Choices integers text sampled_from floats
      now1 now2 c r1 c1 r2 c2 Hint _.
    exact (sales_record_two_calls Choices integers text sampled_from floats
             Hint now1 now2 c r1 c1 r2 c2).
  - intros Choices integers sampled_from floats lists
      now1 now2 c r1 c1 r2 c2 Hint _.
    exact (festival_event_two_calls Choices integers sampled_from floats
             lists Hint now1 now2 c r1 c1 r2 c2).
  - intros Choices integers text sampled_from booleans.
    exact (user_profile_two_calls Choices integers text sampled_from
             booleans).
  - intros name memory_limit timeout next first second.
    unfold context_eq, second, first, create_lambda_context.
    cbn [fst snd address].
    split; [apply Nat.eqb_neq; lia | repeat split].
Qed.

(** Two runs of [sales_record_strategy] on the same draws, a day apart. *)
Lemma equal_results_of_two_calls_witness :
  exists r1 c1 r2 c2,
    sales_record_strategy Sample.Choices Sample.integers Sample.text
      Sample.sampled_from Sample.floats Sample.clock [10; 41; 2]
    = Return (r1, c1)
    /\ sales_record_strategy Sample.Choices Sample.integers Sample.text
         Sample.sampled_from Sample.floats Sample.later [10; 41; 2]
       = Return (r2, c2)
    /\ c1 = c2
    /\ (r1 = r2 <-> toordinal Sample.clock = toordinal Sample.later)
    /\ r1 <> r2.
Proof.
  do 4 eexists.
  split; [vm_compute; reflexivity |].
  split; [vm_compute; reflexivity |].
  destruct (proj1 (proj2 equal_results_of_two_calls)
              Sample.Choices Sample.integers Sample.text Sample.sampled_from
              Sample.floats Sample.clock Sample.later [10; 41; 2]
              _ _ _ _ sample_integers_in_range sample_floats_in_range
              eq_refl eq_refl
              ltac:(vm_compute; discriminate) ltac:(vm_compute; discriminate)
              eq_refl eq_refl) as (Hc & Hiff).
  split; [exact Hc | split; [exact Hiff |]].
  intro H. apply Hiff in H. vm_compute in H. discriminate H.
Defined.
